(** * GovReady-Q: the answer protocol of [guidedmodules/views.py]

    A shallow embedding of the view functions [next_question],
    [instrumentation_record_interaction] and [change_task_state] of
    [guidedmodules/views.py], and of the output-document fragment of
    [project] in [siteapp/views.py].

    The database is a record of tables (lists of rows, in insertion
    order, which is primary-key order).  A view is a computation in a
    state-and-exception monad: it receives the request, reads and writes
    the tables, and either returns a response or raises.  A raised
    exception keeps the writes made before it, as the views open no
    [transaction.atomic] block. *)

From Stdlib Require Import ZArith List String Ascii Bool Lia Arith Relations.
From Stdlib Require Import Permutation Sorted.
Import ListNotations.

Local Open Scope string_scope.
Local Open Scope list_scope.
Local Open Scope Z_scope.

(** ** Python values and exceptions *)

Definition User := Z.
Definition File := string.

(** The values an answer can carry: [None], a string field, the list of
    strings of a multi-valued field, an uploaded file. *)
Inductive value : Type :=
| VNone
| VStr (s : string)
| VList (l : list string)
| VFile (f : File)
| VTasks (ids : list Z).

Fixpoint list_string_eqb (a b : list string) : bool :=
  match a, b with
  | [], [] => true
  | x :: a', y :: b' => String.eqb x y && list_string_eqb a' b'
  | _, _ => false
  end.

Fixpoint list_Z_eqb (a b : list Z) : bool :=
  match a, b with
  | [], [] => true
  | x :: a', y :: b' => (x =? y) && list_Z_eqb a' b'
  | _, _ => false
  end.

Definition value_eqb (a b : value) : bool :=
  match a, b with
  | VNone, VNone => true
  | VStr x, VStr y => String.eqb x y
  | VList x, VList y => list_string_eqb x y
  | VFile x, VFile y => String.eqb x y
  | VTasks x, VTasks y => list_Z_eqb x y
  | _, _ => false
  end.

Inductive exn : Type :=
| Http404
| DoesNotExist
| ValueError (msg : string)
| KeyError (key : string)
| AttributeError (msg : string)
| TypeError (msg : string)
| UnboundLocalError (name : string)
| ConfigurationError (msg : string).

Inductive outcome (A : Type) : Type :=
| Ret (a : A)
| Raise (e : exn).
Arguments Ret {A} a.
Arguments Raise {A} e.

(** ** Rows of the tables *)

Inductive piece : Type :=
| Text (s : string)
| Var (key : string).

Definition template := list piece.

(** A visibility condition over the answers to other questions. *)
Inductive cond : Type :=
| CTrue
| CEq (key : string) (v : value)
| CNot (c : cond)
| CAnd (c1 c2 : cond)
| COr (c1 c2 : cond).

Record OutputDocument : Type := {
  od_tab : option string;
  od_title : string;
  od_template : template
}.

Record Module : Type := {
  m_id : Z;
  m_key : string;
  m_title : string;
  m_output : list OutputDocument
}.

Record ModuleQuestion : Type := {
  mq_id : Z;
  mq_module : Z;
  mq_key : string;
  mq_type : string;
  mq_prompt : template;
  mq_answer_type_module : option Z;
  mq_condition : cond
}.

Record Project : Type := {
  p_id : Z;
  p_organization : Z;
  p_root_task : option Z
}.

Record Task : Type := {
  t_id : Z;
  t_project : Z;
  t_editor : User;
  t_module : Z;
  t_title : string;
  t_notes : string;
  t_created : Z;
  t_updated : Z;
  t_deleted_at : option Z;
  t_extra : string
}.

Record TaskAnswer : Type := {
  ta_id : Z;
  ta_task : Z;
  ta_question : Z
}.

Record TaskAnswerHistory : Type := {
  h_taskanswer : Z;
  h_answered_by : User;
  h_stored_value : value;
  h_answered_by_task : list Z;
  h_answered_by_file : value;
  h_cleared : bool;
  h_created : Z
}.

Record InstrumentationEvent : Type := {
  ev_user : User;
  ev_event_type : string;
  ev_event_value : option Z;
  ev_module : option Z;
  ev_question : option Z;
  ev_project : option Z;
  ev_task : option Z;
  ev_answer : option Z;
  ev_extra : option value;
  ev_event_time : Z
}.

Record State : Type := {
  modules : list Module;
  questions : list ModuleQuestion;
  projects : list Project;
  tasks : list Task;
  task_answers : list TaskAnswer;
  answer_history : list TaskAnswerHistory;
  events : list InstrumentationEvent
}.

(** ** Requests and responses *)

(** Form data as it arrives: key-value pairs in order, keys may repeat. *)
Definition QueryDict := list (string * string).

Record Request : Type := {
  method : string;
  path : string;
  user : User;
  organization : Z;
  POST : QueryDict;
  GET : QueryDict;
  FILES : list (string * File);
  now : Z
}.

Fixpoint last_error {A : Type} (l : list A) : option A :=
  match l with
  | [] => None
  | [x] => Some x
  | _ :: l' => last_error l'
  end.

Definition getlist (d : QueryDict) (k : string) : list string :=
  map snd (filter (fun kv => String.eqb (fst kv) k) d).

(** [QueryDict.get]: the last value submitted for the key. *)
Definition get (d : QueryDict) (k : string) : option string :=
  last_error (getlist d k).

(** [QueryDict.__getitem__]. *)
Definition getitem (d : QueryDict) (k : string) : outcome string :=
  match get d k with
  | Some v => Ret v
  | None => Raise (KeyError k)
  end.

Definition contains (d : QueryDict) (k : string) : bool :=
  existsb (fun kv => String.eqb (fst kv) k) d.

Fixpoint files_get (d : list (string * File)) (k : string) : option File :=
  match d with
  | [] => None
  | (k', f) :: d' =>
      match files_get d' k with
      | Some f' => Some f'
      | None => if String.eqb k' k then Some f else None
      end
  end.

(** The rendered output of one output document. *)
Record Document : Type := {
  doc_tab : option string;
  doc_title : string;
  doc_html : string
}.

Record FinishedContext : Type := {
  fc_is_discussion_guest : bool;
  fc_write_priv : bool;
  fc_output : list Document;
  fc_all_questions : list (ModuleQuestion * bool)
}.

Record QuestionContext : Type := {
  qc_header_col_active : string;
  qc_q : ModuleQuestion;
  qc_prompt : string;
  qc_history : option (list TaskAnswerHistory);
  qc_answer_obj : option TaskAnswerHistory;
  qc_answer : option value;
  qc_answer_module : option Z;
  qc_answer_tasks : list (Task * bool);
  qc_answer_tasks_show_user : bool;
  qc_is_discussion_guest : bool;
  qc_write_priv : bool
}.

Inductive response : Type :=
| HttpResponseForbidden
| HttpResponseNotAllowed (allowed : list string)
| HttpResponse (body : string)
| HttpResponseRedirect (url : string)
| JsonOk (redirect : string)
| JsonError (message : string)
| RenderFinished (ctx : FinishedContext)
| RenderQuestion (ctx : QuestionContext).

(** ** The monad of a view *)

Definition M (A : Type) : Type := State -> outcome A * State.

Definition ret {A : Type} (a : A) : M A := fun s => (Ret a, s).

Definition raise {A : Type} (e : exn) : M A := fun s => (Raise e, s).

Definition bind {A B : Type} (m : M A) (k : A -> M B) : M B :=
  fun s =>
    match m s with
    | (Ret a, s') => k a s'
    | (Raise e, s') => (Raise e, s')
    end.

Definition lift {A : Type} (o : outcome A) : M A := fun s => (o, s).

(** A query: reads the tables, writes nothing. *)
Definition read {A : Type} (f : State -> A) : M A := fun s => (Ret (f s), s).

(** A write of the tables. *)
Definition write (f : State -> State) : M unit := fun s => (Ret tt, f s).

Declare Scope view_scope.
Delimit Scope view_scope with view.
Notation "x <- m ;; k" := (bind m (fun x => k))
  (at level 61, m at next level, right associativity) : view_scope.
Notation "m ;;; k" := (bind m (fun _ => k))
  (at level 61, right associativity) : view_scope.
Local Open Scope view_scope.

(** ** Queries on the tables *)

Definition find_task (s : State) (id : Z) : option Task :=
  find (fun t => t_id t =? id) (tasks s).

Definition find_project (s : State) (id : Z) : option Project :=
  find (fun p => p_id p =? id) (projects s).

Definition find_module (s : State) (id : Z) : option Module :=
  find (fun m => m_id m =? id) (modules s).

(** [task.module.questions], in definition order. *)
Definition module_questions (s : State) (m : Z) : list ModuleQuestion :=
  filter (fun q => mq_module q =? m) (questions s).

Definition in_organization (s : State) (t : Task) (org : Z) : bool :=
  match find_project s (t_project t) with
  | Some p => p_organization p =? org
  | None => false
  end.

(** [TaskAnswer.objects.filter(task=task, question=q).first()]. *)
Definition find_task_answer (s : State) (task q : Z) : option TaskAnswer :=
  find (fun a => (ta_task a =? task) && (ta_question a =? q)) (task_answers s).

Definition next_id (ids : list Z) : Z := 1 + fold_right Z.max 0 ids.

Definition set_deleted_at (d : option Z) (t : Task) : Task :=
  {| t_id := t_id t; t_project := t_project t; t_editor := t_editor t;
     t_module := t_module t; t_title := t_title t; t_notes := t_notes t;
     t_created := t_created t; t_updated := t_updated t;
     t_deleted_at := d; t_extra := t_extra t |}.

Definition with_tasks (ts : list Task) (s : State) : State :=
  {| modules := modules s; questions := questions s; projects := projects s;
     tasks := ts; task_answers := task_answers s;
     answer_history := answer_history s; events := events s |}.

Definition with_task_answers (l : list TaskAnswer) (s : State) : State :=
  {| modules := modules s; questions := questions s; projects := projects s;
     tasks := tasks s; task_answers := l;
     answer_history := answer_history s; events := events s |}.

Definition with_answer_history (l : list TaskAnswerHistory) (s : State) : State :=
  {| modules := modules s; questions := questions s; projects := projects s;
     tasks := tasks s; task_answers := task_answers s;
     answer_history := l; events := events s |}.

Definition with_events (l : list InstrumentationEvent) (s : State) : State :=
  {| modules := modules s; questions := questions s; projects := projects s;
     tasks := tasks s; task_answers := task_answers s;
     answer_history := answer_history s; events := l |}.

(** [task.save(update_fields=["deleted_at"])]: the row with the task's
    primary key gets the new [deleted_at], no other column is written. *)
Definition save_deleted_at (id : Z) (d : option Z) (s : State) : State :=
  with_tasks
    (map (fun t => if t_id t =? id then set_deleted_at d t else t) (tasks s)) s.

(** [InstrumentationEvent.objects.create(...)]. *)
Definition create_event (e : InstrumentationEvent) : M unit :=
  write (fun s => with_events (events s ++ [e]) s).

(** [InstrumentationEvent.objects.filter(user=, event_type=, task=, question=)]. *)
Definition events_for (s : State) (u : User) (ty : string) (task : Z)
    (q : option Z) : list InstrumentationEvent :=
  filter (fun e =>
            (ev_user e =? u) && String.eqb (ev_event_type e) ty &&
            match ev_task e with Some t => t =? task | None => false end &&
            match q, ev_question e with
            | Some q', Some q'' => q'' =? q'
            | None, _ => true
            | Some _, None => false
            end)
         (events s).

(** [.order_by('event_time').first()]: the earliest row, the first of them
    among equal times. *)
Fixpoint earliest (l : list InstrumentationEvent) : option InstrumentationEvent :=
  match l with
  | [] => None
  | e :: l' =>
      match earliest l' with
      | Some e' => if ev_event_time e' <? ev_event_time e then Some e' else Some e
      | None => Some e
      end
  end.

(** [.order_by('-event_time').first()]. *)
Fixpoint latest (l : list InstrumentationEvent) : option InstrumentationEvent :=
  match l with
  | [] => None
  | e :: l' =>
      match latest l' with
      | Some e' => if ev_event_time e <? ev_event_time e' then Some e' else Some e
      | None => Some e
      end
  end.

(** ** What the views take from the rest of the application

    Permission predicates, URL building, input parsing and validation,
    external functions, the discussion application and Python's [int] are
    not part of the views; they are the interface the views are written
    against. *)
Class Host : Type := {
  py_int : string -> option Z;
  has_read_priv : State -> Task -> User -> bool -> bool;
  has_write_priv : State -> Task -> User -> bool -> bool;
  get_absolute_url : Task -> string;
  parse : ModuleQuestion -> value -> outcome value;
  validate : ModuleQuestion -> value -> outcome value;
  run_external_function :
    ModuleQuestion -> list (string * value) -> outcome value;
  get_all_tasks_readable_by : State -> User -> Z -> list Task;
  discussion_get_for : State -> Z -> TaskAnswer -> option Z;
  is_participant : State -> Z -> User -> bool;
  display : value -> string;
  soft_failure : exn -> string
}.

Section Views.

Context {host : Host}.

(** The ORM turns the string given for a primary key into an integer. *)
Definition to_pk (v : string) : M Z :=
  match py_int v with
  | Some n => ret n
  | None => raise (ValueError "invalid literal for int()")
  end.

(** [get_object_or_404(Task, id=id, project__organization=org)]. *)
Definition get_task_or_404 (id org : Z) : M Task :=
  t <- read (fun s =>
         find (fun t => (t_id t =? id) && in_organization s t org) (tasks s)) ;;
  match t with
  | Some t => ret t
  | None => raise Http404
  end.

(** [Task.objects.get(id=id)]. *)
Definition Task_get (id : Z) : M Task :=
  t <- read (fun s => find_task s id) ;;
  match t with
  | Some t => ret t
  | None => raise DoesNotExist
  end.

(** [task.module.questions.get(id=v)] for the value [v] of a form field. *)
Definition questions_get_id (task : Task) (v : option string) : M ModuleQuestion :=
  match v with
  | None => raise DoesNotExist
  | Some v =>
      id <- to_pk v ;;
      q <- read (fun s =>
             find (fun q => mq_id q =? id) (module_questions s (t_module task))) ;;
      match q with
      | Some q => ret q
      | None => raise DoesNotExist
      end
  end.

(** [task.module.questions.get(key=key)]. *)
Definition questions_get_key (task : Task) (key : string) : M ModuleQuestion :=
  q <- read (fun s =>
         find (fun q => String.eqb (mq_key q) key)
              (module_questions s (t_module task))) ;;
  match q with
  | Some q => ret q
  | None => raise DoesNotExist
  end.

(** [try: ... except DoesNotExist: return r]. *)
Definition except_DoesNotExist {A : Type} (m : M A) (r : response)
  : M (response + A) :=
  fun s =>
    match m s with
    | (Ret a, s') => (Ret (inr a), s')
    | (Raise DoesNotExist, s') => (Ret (inl r), s')
    | (Raise e, s') => (Raise e, s')
    end.

Definition mk_event (req : Request) (ty : string) (v : option Z)
    (task : Task) (q : option Z) (answer : option Z) (extra : option value)
  : InstrumentationEvent :=
  {| ev_user := user req; ev_event_type := ty; ev_event_value := v;
     ev_module := Some (t_module task); ev_question := q;
     ev_project := Some (t_project task); ev_task := Some (t_id task);
     ev_answer := answer; ev_extra := extra; ev_event_time := now req |}.

(** Seconds since the question was first shown to the user, if it was. *)
Definition since_first_show (req : Request) (task : Task) (q : ModuleQuestion)
  : M (option Z) :=
  read (fun s =>
    option_map (fun e => now req - ev_event_time e)
      (earliest (events_for s (user req) "task-question-show" (t_id task)
                            (Some (mq_id q))))).

(** *** [instrumentation_record_interaction] *)

Definition instrumentation_record_interaction (req : Request) : M response :=
  if negb (String.eqb (method req) "POST") then
    ret (HttpResponseNotAllowed ["POST"])
  else
    sid <- lift (getitem (POST req) "task") ;;
    id <- to_pk sid ;;
    task <- get_task_or_404 id (organization req) ;;
    rp <- read (fun s => has_read_priv s task (user req) false) ;;
    if negb rp then ret HttpResponseForbidden
    else
      rq <- except_DoesNotExist
              (questions_get_id task (get (POST req) "question"))
              HttpResponseForbidden ;;
      match rq with
      | inl r => ret r
      | inr question =>
          answer <- read (fun s =>
                      find_task_answer s (t_id task) (mq_id question)) ;;
          seen <- read (fun s =>
                    events_for s (user req) "task-question-interact-first"
                               (t_id task) (Some (mq_id question))) ;;
          match seen with
          | _ :: _ => ret (HttpResponse "ok")
          | [] =>
              event_value <- since_first_show req task question ;;
              create_event
                (mk_event req "task-question-interact-first" event_value task
                          (Some (mq_id question)) (option_map ta_id answer)
                          None) ;;;
              ret (HttpResponse "ok")
          end
      end.

(** *** [change_task_state] *)

Definition change_task_state (req : Request) : M response :=
  if negb (String.eqb (method req) "POST") then
    ret (HttpResponseNotAllowed ["POST"])
  else
    sid <- lift (getitem (POST req) "id") ;;
    id <- to_pk sid ;;
    task <- get_task_or_404 id (organization req) ;;
    wp <- read (fun s => has_write_priv s task (user req) true) ;;
    if negb wp then ret HttpResponseForbidden
    else
      state <- lift (getitem (POST req) "state") ;;
      if String.eqb state "delete" then
        write (save_deleted_at (t_id task) (Some (now req))) ;;;
        ret (HttpResponse "ok")
      else if String.eqb state "undelete" then
        write (save_deleted_at (t_id task) None) ;;;
        ret (HttpResponse "ok")
      else ret HttpResponseForbidden.

(** ** The model methods the views call

    [guidedmodules/models.py] is the answer store behind the views. *)

(** Modelled from the spec: [TaskAnswer.get_current_answer] of
    guidedmodules/models.py.  An Answer has an append-only history of values
    (section 3); its current value is the latest entry of that history. *)
Definition get_current_answer (s : State) (a : TaskAnswer)
  : option TaskAnswerHistory :=
  last_error (filter (fun h => h_taskanswer h =? ta_id a) (answer_history s)).

(** Modelled from the spec: [TaskAnswer.get_history] of
    guidedmodules/models.py, the history of prior values of section 3. *)
Definition get_history (s : State) (a : TaskAnswer) : list TaskAnswerHistory :=
  filter (fun h => h_taskanswer h =? ta_id a) (answer_history s).

(** Modelled from the spec: [TaskAnswer.has_answer] of
    guidedmodules/models.py.  A question is answered when it has a current
    value that was not cleared (section 4.3: clearing returns the question
    to "unanswered"). *)
Definition has_answer (s : State) (a : TaskAnswer) : bool :=
  match get_current_answer s a with
  | Some h => negb (h_cleared h)
  | None => false
  end.

(** Modelled from the spec: [TaskAnswerHistory.get_value] of
    guidedmodules/models.py.  The value of an answer is a scalar or
    structured value, a reference to file content, or a set of references to
    child Tasks (section 3). *)
Definition get_value (h : TaskAnswerHistory) : value :=
  match h_answered_by_file h, h_answered_by_task h with
  | VNone, [] => h_stored_value h
  | VNone, ids => VTasks ids
  | f, _ => f
  end.

Definition subset_Z (a b : list Z) : bool :=
  forallb (fun x => existsb (Z.eqb x) b) a.

Definition same_tasks (a b : list Z) : bool := subset_Z a b && subset_Z b a.

(** Structural comparison of a proposed answer with a recorded one. *)
Definition same_answer (h : TaskAnswerHistory) (v : value) (ts : list Z)
    (f : value) : bool :=
  value_eqb (h_stored_value h) v && same_tasks (h_answered_by_task h) ts &&
  value_eqb (h_answered_by_file h) f.

Definition add_history (h : TaskAnswerHistory) : M unit :=
  write (fun s => with_answer_history (answer_history s ++ [h]) s).

(** Modelled from the spec: [TaskAnswer.clear_answer] of
    guidedmodules/models.py.  Clearing removes the effective answer and
    returns the question to "unanswered" (section 4.3, transition
    [answered -> cleared]); the history is append-only, so the cleared state
    is a new entry that carries the cleared flag. *)
Definition clear_answer (a : TaskAnswer) (u : User) (t : Z) : M bool :=
  answered <- read (fun s => has_answer s a) ;;
  if answered then
    add_history {| h_taskanswer := ta_id a; h_answered_by := u;
                   h_stored_value := VNone; h_answered_by_task := [];
                   h_answered_by_file := VNone; h_cleared := true;
                   h_created := t |} ;;;
    ret true
  else ret false.

(** Modelled from the spec: [TaskAnswer.save_answer] of
    guidedmodules/models.py.  Saving records a new value only if it differs
    materially from the current value (structural comparison) and returns
    whether a change occurred (section 4.3). *)
Definition save_answer (a : TaskAnswer) (v : value) (ts : list Z) (f : value)
    (u : User) (t : Z) : M bool :=
  cur <- read (fun s => get_current_answer s a) ;;
  let unchanged :=
    match cur with
    | Some h => negb (h_cleared h) && same_answer h v ts f
    | None => false
    end in
  if unchanged then ret false
  else
    add_history {| h_taskanswer := ta_id a; h_answered_by := u;
                   h_stored_value := v; h_answered_by_task := ts;
                   h_answered_by_file := f; h_cleared := false;
                   h_created := t |} ;;;
    ret true.

(** [TaskAnswer.objects.get_or_create(task=task, question=q)]; there is one
    TaskAnswer per question key of a Task (section 3). *)
Definition TaskAnswer_get_or_create (task : Task) (q : ModuleQuestion)
  : M TaskAnswer :=
  found <- read (fun s => find_task_answer s (t_id task) (mq_id q)) ;;
  match found with
  | Some a => ret a
  | None =>
      id <- read (fun s => next_id (map ta_id (task_answers s))) ;;
      let a := {| ta_id := id; ta_task := t_id task; ta_question := mq_id q |} in
      write (fun s => with_task_answers (task_answers s ++ [a]) s) ;;;
      ret a
  end.

(** Modelled from the spec: [Task.create] of guidedmodules/models.py.  A Task
    row is created (section 4.2); the parent answer is passed "for
    instrumentation only" and is recorded in the task-create event that
    [next_question] later looks up. *)
Definition Task_create (parent_task_answer : TaskAnswer) (editor : User)
    (project : Z) (module : Module) (title : string) (t : Z) : M Task :=
  id <- read (fun s => next_id (map t_id (tasks s))) ;;
  let task := {| t_id := id; t_project := project; t_editor := editor;
                 t_module := m_id module; t_title := title; t_notes := "";
                 t_created := t; t_updated := t; t_deleted_at := None;
                 t_extra := "" |} in
  write (fun s => with_tasks (tasks s ++ [task]) s) ;;;
  create_event {| ev_user := editor; ev_event_type := "task-create";
                  ev_event_value := None; ev_module := Some (m_id module);
                  ev_question := None; ev_project := Some project;
                  ev_task := Some id;
                  ev_answer := Some (ta_id parent_task_answer);
                  ev_extra := None; ev_event_time := t |} ;;;
  ret task.

(** ** Answer resolution and rendering

    [guidedmodules/module_logic.py] computes the answers of a Task with the
    imputed ones and renders templates against them. *)

Record ModuleAnswers : Type := {
  as_dict : list (string * value);
  was_imputed : list string;
  can_answer : list ModuleQuestion;
  not_yet_reachable : list ModuleQuestion
}.

Definition no_answers : ModuleAnswers :=
  {| as_dict := []; was_imputed := []; can_answer := []; not_yet_reachable := [] |}.

Fixpoint dict_get (d : list (string * value)) (k : string) : option value :=
  match d with
  | [] => None
  | (k', v) :: d' => if String.eqb k' k then Some v else dict_get d' k
  end.

Definition dict_has (d : list (string * value)) (k : string) : bool :=
  match dict_get d k with Some _ => true | None => false end.

(** [d.get(k) is None]. *)
Definition is_null (d : list (string * value)) (k : string) : bool :=
  match dict_get d k with
  | Some VNone | None => true
  | Some _ => false
  end.

Definition mem_string (k : string) (l : list string) : bool :=
  existsb (String.eqb k) l.

Fixpoint cond_keys (c : cond) : list string :=
  match c with
  | CTrue => []
  | CEq k _ => [k]
  | CNot c' => cond_keys c'
  | CAnd c1 c2 | COr c1 c2 => cond_keys c1 ++ cond_keys c2
  end.

Fixpoint eval_cond (d : list (string * value)) (c : cond) : bool :=
  match c with
  | CTrue => true
  | CEq k v =>
      match dict_get d k with
      | Some v' => value_eqb v' v
      | None => false
      end
  | CNot c' => negb (eval_cond d c')
  | CAnd c1 c2 => eval_cond d c1 && eval_cond d c2
  | COr c1 c2 => eval_cond d c1 || eval_cond d c2
  end.

(** The effective answer of a question of a Task: its current answer,
    unless that was cleared. *)
Definition effective_answer (s : State) (task : Task) (q : ModuleQuestion)
  : option TaskAnswerHistory :=
  match find_task_answer s (t_id task) (mq_id q) with
  | None => None
  | Some a =>
      match get_current_answer s a with
      | Some h => if h_cleared h then None else Some h
      | None => None
      end
  end.

Definition add_answer (q : ModuleQuestion) (v : value) (a : ModuleAnswers)
  : ModuleAnswers :=
  {| as_dict := as_dict a ++ [(mq_key q, v)]; was_imputed := was_imputed a;
     can_answer := can_answer a; not_yet_reachable := not_yet_reachable a |}.

Definition add_imputed (q : ModuleQuestion) (a : ModuleAnswers) : ModuleAnswers :=
  {| as_dict := as_dict a ++ [(mq_key q, VNone)];
     was_imputed := was_imputed a ++ [mq_key q];
     can_answer := can_answer a; not_yet_reachable := not_yet_reachable a |}.

Definition add_can_answer (q : ModuleQuestion) (a : ModuleAnswers) : ModuleAnswers :=
  {| as_dict := as_dict a; was_imputed := was_imputed a;
     can_answer := can_answer a ++ [q]; not_yet_reachable := not_yet_reachable a |}.

Definition add_not_yet_reachable (q : ModuleQuestion) (a : ModuleAnswers) : ModuleAnswers :=
  {| as_dict := as_dict a; was_imputed := was_imputed a;
     can_answer := can_answer a; not_yet_reachable := not_yet_reachable a ++ [q] |}.

(** Modelled from the spec: the Dependency Resolver of section 4.1
    (guidedmodules/module_logic.py), one question at a time in definition
    order.  A condition over a key that is no question of the module is a
    configuration error; a question whose condition depends on a key that
    is not yet known is not yet reachable; a question whose condition is
    false is imputed with null; a visible question is answered when it
    has an effective answer and can be answered now when it has none. *)
Fixpoint resolve (keys : list string) (task : Task) (qs : list ModuleQuestion)
    (acc : ModuleAnswers) : M ModuleAnswers :=
  match qs with
  | [] => ret acc
  | q :: rest =>
      let deps := cond_keys (mq_condition q) in
      if negb (forallb (fun k => mem_string k keys) deps) then
        raise (ConfigurationError "undefined question key")
      else if negb (forallb (dict_has (as_dict acc)) deps) then
        resolve keys task rest (add_not_yet_reachable q acc)
      else if negb (eval_cond (as_dict acc) (mq_condition q)) then
        resolve keys task rest (add_imputed q acc)
      else
        cur <- read (fun s => effective_answer s task q) ;;
        match cur with
        | Some h => resolve keys task rest (add_answer q (get_value h) acc)
        | None => resolve keys task rest (add_can_answer q acc)
        end
  end.

(** Modelled from the spec: [task.get_answers().with_extended_info()] of
    guidedmodules/models.py, the answer set with imputation of a Task
    (sections 4.1 and 6). *)
Definition with_extended_info (task : Task) : M ModuleAnswers :=
  qs <- read (fun s => module_questions s (t_module task)) ;;
  resolve (map mq_key qs) task qs no_answers.

(** A null value renders as empty; other values as the host displays them. *)
Definition value_html (v : value) : string :=
  match v with
  | VNone => ""
  | _ => display v
  end.

(** Modelled from the spec: [module_logic.render_content] of
    guidedmodules/module_logic.py, variable substitution over the resolved
    and imputed answers (section 4.4).  A variable that is no key of the
    dictionary is an error. *)
Fixpoint render_content (t : template) (d : list (string * value))
  : outcome string :=
  match t with
  | [] => Ret ""
  | Text x :: t' =>
      match render_content t' d with
      | Ret r => Ret (String.append x r)
      | Raise e => Raise e
      end
  | Var k :: t' =>
      match dict_get d k with
      | None => Raise (ConfigurationError (String.append "undefined variable " k))
      | Some v =>
          match render_content t' d with
          | Ret r => Ret (String.append (value_html v) r)
          | Raise e => Raise e
          end
      end
  end.

Fixpoint map_M {A B : Type} (f : A -> M B) (l : list A) : M (list B) :=
  match l with
  | [] => ret []
  | x :: l' =>
      y <- f x ;;
      ys <- map_M f l' ;;
      ret (y :: ys)
  end.

Definition render_document (d : list (string * value)) (hard_fail : bool)
    (od : OutputDocument) : M Document :=
  match render_content (od_template od) d with
  | Ret html =>
      ret {| doc_tab := od_tab od; doc_title := od_title od; doc_html := html |}
  | Raise e =>
      if hard_fail then raise e
      else ret {| doc_tab := od_tab od; doc_title := od_title od;
                  doc_html := soft_failure e |}
  end.

(** Modelled from the spec: [Task.render_output_documents(answers=None,
    hard_fail=True)] of guidedmodules/models.py, the function that renders
    the output documents of a Task given its resolved answers (sections 4.4
    and 6).  With [hard_fail] a rendering failure is raised; the project
    page passes [hard_fail=False] and gets the failure as the document's
    text. *)
Definition render_output_documents (task : Task)
    (answers : option ModuleAnswers) (hard_fail : bool) : M (list Document) :=
  answers <- match answers with
             | Some a => ret a
             | None => with_extended_info task
             end ;;
  m <- read (fun s => find_module s (t_module task)) ;;
  match m with
  | None => raise DoesNotExist
  | Some m => map_M (render_document (as_dict answers) hard_fail) (m_output m)
  end.

(** ** [next_question]: saving an answer (POST) *)

Definition method_is (req : Request) (m : string) : bool :=
  match get (POST req) "method" with
  | Some m' => String.eqb m' m
  | None => false
  end.

Definition is_module_type (q : ModuleQuestion) : bool :=
  String.eqb (mq_type q) "module" || String.eqb (mq_type q) "module-set".

(** What the form data asks for: an early response, or a value to record
    with the [cleared] flag. *)
Inductive parsed : Type :=
| Early (r : response)
| Proposed (v : value) (cleared : bool).

(** [try: ... except ValueError as e: return JsonResponse(error, str(e))]. *)
Definition except_ValueError (o : outcome value) (k : value -> outcome parsed)
  : outcome parsed :=
  match o with
  | Ret v => k v
  | Raise (ValueError msg) => Ret (Early (JsonError msg))
  | Raise e => Raise e
  end.

(** Lines 50-98: validate and parse the value. *)
Definition parse_request (req : Request) (q : ModuleQuestion)
    (answered : ModuleAnswers) (redirect_to : string) : outcome parsed :=
  if method_is req "clear" then Ret (Proposed VNone true)
  else if method_is req "skip" then Ret (Proposed VNone false)
  else if method_is req "save" then
    let parse_and_validate (v : value) :=
      except_ValueError (parse q v) (fun v =>
      except_ValueError (validate q v) (fun v =>
      if String.eqb (mq_type q) "external-function" then
        except_ValueError (run_external_function q (as_dict answered))
                          (fun v => Ret (Proposed v false))
      else Ret (Proposed v false))) in
    if String.eqb (mq_type q) "file" then
      match files_get (FILES req) "value" with
      | None => Ret (Early (JsonOk redirect_to))
      | Some f => parse_and_validate (VFile f)
      end
    else parse_and_validate (VList (getlist (POST req) "value"))
  else
    Raise (ValueError
             (String.append "invalid 'method' parameter %s"
                match get (POST req) "method" with
                | Some m => m
                | None => "<not set>"
                end)).

(** ["a,b".split(',')]. *)
Fixpoint split_comma (s : string) : list string :=
  match s with
  | EmptyString => [""]
  | String c s' =>
      if Ascii.eqb c ","%char then "" :: split_comma s'
      else match split_comma s' with
           | x :: r => String c x :: r
           | [] => [String c ""]
           end
  end.

(** [Task.objects.get(id=int(item))]. *)
Definition Task_get_item (item : string) : M Task :=
  match py_int item with
  | Some id => Task_get id
  | None => raise (ValueError "invalid literal for int()")
  end.

Definition valid_reference (s : State) (req : Request) (q : ModuleQuestion)
    (t : Task) : bool :=
  match mq_answer_type_module q with
  | Some m => (t_module t =? m) && has_read_priv s t (user req) false
  | None => false
  end.

(** What is recorded for the question: the tasks and the file that answer
    it, the stored value, and where the browser goes next. *)
Record recorded : Type := {
  answered_by_tasks : list Task;
  stored_value : value;
  answered_by_file : value;
  redirect_to : string
}.

(** Lines 106-150: fetch the tasks that answer the question. *)
Definition fetch_answered_by (req : Request) (task : Task) (q : ModuleQuestion)
    (question : TaskAnswer) (v : value) (cleared : bool) (redirect : string)
  : M recorded :=
  if is_module_type q && negb cleared then
    if value_eqb v (VStr "__new") then
      match mq_answer_type_module q with
      | None => raise (AttributeError "'NoneType' object has no attribute 'title'")
      | Some mid =>
          m <- read (fun s => find_module s mid) ;;
          match m with
          | None => raise DoesNotExist
          | Some m =>
              t <- Task_create question (user req) (t_project task) m
                               (m_title m) (now req) ;;
              ret {| answered_by_tasks := [t]; stored_value := VNone;
                     answered_by_file := VNone;
                     redirect_to := get_absolute_url t |}
          end
      end
    else
      match v with
      | VNone =>
          ret {| answered_by_tasks := []; stored_value := VNone;
                 answered_by_file := VNone; redirect_to := redirect |}
      | VStr ids =>
          ts <- map_M Task_get_item (split_comma ids) ;;
          ok <- read (fun s => forallb (valid_reference s req q) ts) ;;
          if negb ok then raise (ValueError "invalid task ID")
          else if String.eqb (mq_type q) "module" && negb (List.length ts =? 1)%nat
          then raise (ValueError "did not provide exactly one task ID")
          else
            ret {| answered_by_tasks := ts; stored_value := VNone;
                   answered_by_file := VNone; redirect_to := redirect |}
      | _ => raise (AttributeError "object has no attribute 'split'")
      end
  else if String.eqb (mq_type q) "file" && negb cleared then
    ret {| answered_by_tasks := []; stored_value := VNone;
           answered_by_file := v; redirect_to := redirect |}
  else
    ret {| answered_by_tasks := []; stored_value := v;
           answered_by_file := VNone; redirect_to := redirect |}.

(** Lines 152-169: record the answer, and name the event. *)
Definition record_answer (req : Request) (question : TaskAnswer)
    (cleared : bool) (r : recorded) : M string :=
  if cleared then
    clear_answer question (user req) (now req) ;;;
    ret "clear"
  else
    had_answer <- read (fun s => has_answer s question) ;;
    changed <- save_answer question (stored_value r)
                 (map t_id (answered_by_tasks r)) (answered_by_file r)
                 (user req) (now req) ;;
    if changed then
      if method_is req "skip" then ret "skip"
      else if had_answer then ret "change"
      else ret "answer"
    else ret "keep".

(** Lines 100-197: save the answer and add the instrumentation event. *)
Definition record_proposal (req : Request) (task : Task) (q : ModuleQuestion)
    (v : value) (cleared : bool) : M response :=
  question <- TaskAnswer_get_or_create task q ;;
  r <- fetch_answered_by req task q question v cleared (path req) ;;
  event_type <- record_answer req question cleared r ;;
  event_value <- since_first_show req task q ;;
  create_event
    (mk_event req (String.append "task-question-" event_type)
              event_value task (Some (mq_id q)) (Some (ta_id question))
              (Some (stored_value r))) ;;;
  ret (JsonOk (redirect_to r)).

(** Lines 37-197: process form data. *)
Definition next_question_post (req : Request) (task : Task)
    (answered : ModuleAnswers) : M response :=
  wp <- read (fun s => has_write_priv s task (user req) false) ;;
  if negb wp then ret HttpResponseForbidden
  else
    q <- questions_get_id task (get (POST req) "question") ;;
    p <- lift (parse_request req q answered (path req)) ;;
    match p with
    | Early r => ret r
    | Proposed v cleared => record_proposal req task q v cleared
    end.

(** ** [next_question]: showing a question or the finished page (GET) *)

(** The nested [read_priv] of [next_question]. *)
Definition read_priv (req : Request) (task : Task) (taskq : option TaskAnswer)
  : M bool :=
  read (fun s =>
    if has_read_priv s task (user req) true then true
    else
      match taskq with
      | None => false
      | Some tq =>
          match discussion_get_for s (organization req) tq with
          | None => false
          | Some d => is_participant s d (user req)
          end
      end).

(** Lines 306-312: the answer shown with the question; a cleared answer is
    treated as if the question had not been answered. *)
Definition shown_answer (s : State) (taskq : option TaskAnswer)
  : option TaskAnswerHistory :=
  match taskq with
  | None => None
  | Some tq =>
      match get_current_answer s tq with
      | Some a => if h_cleared a then None else Some a
      | None => None
      end
  end.

(** [answered_by_task.first()]: the first task in primary-key order. *)
Definition first_pk (ids : list Z) : option Z :=
  match ids with
  | [] => None
  | x :: l => Some (fold_right Z.min x l)
  end.

Definition sort_key (current : option Z) (task t : Task) : bool * bool :=
  (negb match current with Some c => t_id t =? c | None => false end,
   negb (t_project t =? t_project task)).

Definition key_is (k : bool * bool) (current : option Z) (task : Task)
    (tw : Task * bool) : bool :=
  Bool.eqb (fst (sort_key current task (fst tw))) (fst k) &&
  Bool.eqb (snd (sort_key current task (fst tw))) (snd k).

(** [sorted(answer_tasks, key=...)]: a stable sort on a pair of booleans. *)
Definition sorted_answer_tasks (current : option Z) (task : Task)
    (l : list (Task * bool)) : list (Task * bool) :=
  filter (key_is (false, false) current task) l ++
  filter (key_is (false, true) current task) l ++
  filter (key_is (true, false) current task) l ++
  filter (key_is (true, true) current task) l.

(** Lines 264-301: there is no next question, the module is complete. *)
Definition finished_page (req : Request) (task : Task)
    (answered : ModuleAnswers) (is_guest write_priv : bool) : M response :=
  i_task_done <- read (fun s =>
                   events_for s (user req) "task-done" (t_id task) None) ;;
  i_task_create <- read (fun s =>
                     hd_error (events_for s (user req) "task-create"
                                          (t_id task) None)) ;;
  let i_event_value :=
    option_map (fun e => now req - ev_event_time e) i_task_create in
  create_event
    (mk_event req
       match i_task_done with [] => "task-done" | _ :: _ => "task-review" end
       i_event_value task None None None) ;;;
  output <- render_output_documents task (Some answered) true ;;
  all_questions <-
    map_M (fun key =>
             q1 <- questions_get_key task key ;;
             q2 <- questions_get_key task key ;;
             ret (q1, negb (String.eqb (mq_type q2) "interstitial") &&
                      is_null (as_dict answered) key))
          (filter (fun key => negb (mem_string key (was_imputed answered)))
                  (map fst (as_dict answered))) ;;
  ret (RenderFinished {| fc_is_discussion_guest := is_guest;
                         fc_write_priv := write_priv;
                         fc_output := output;
                         fc_all_questions := all_questions |}).

(** Lines 303-384: a question is going to be shown to the user. *)
Definition question_page (req : Request) (task : Task)
    (answered : ModuleAnswers) (q : ModuleQuestion)
    (taskq : option TaskAnswer) (is_guest write_priv : bool) : M response :=
  answer <- read (fun s => shown_answer s taskq) ;;
  let answer_module := mq_answer_type_module q in
  answer_tasks <-
    match answer_module with
    | None => ret []
    | Some m =>
        read (fun s =>
          let readable :=
            filter (fun t => t_module t =? m)
              (get_all_tasks_readable_by s (user req) (organization req)) in
          let annotated :=
            map (fun t => (t, has_write_priv s t (user req) false)) readable in
          let current_answer :=
            match answer with
            | Some a => first_pk (h_answered_by_task a)
            | None => None
            end in
          sorted_answer_tasks current_answer task annotated)
    end ;;
  i_prev_view <- read (fun s =>
                   latest (events_for s (user req) "task-question-show"
                                      (t_id task) (Some (mq_id q)))) ;;
  event_value <-
    match i_prev_view with
    | None => ret 1
    | Some e =>
        match ev_event_value e with
        | Some n => ret (n + 1)
        | None => raise (TypeError "unsupported operand type(s) for +")
        end
    end ;;
  create_event
    (mk_event req "task-question-show" (Some event_value) task
              (Some (mq_id q)) (option_map ta_id taskq) None) ;;;
  prompt <- lift (render_content (mq_prompt q) (as_dict answered)) ;;
  history <- read (fun s => option_map (get_history s) taskq) ;;
  ret (RenderQuestion
         {| qc_header_col_active :=
              if (List.length (as_dict answered) =? 0)%nat &&
                 String.eqb (mq_type q) "interstitial"
              then "start" else "questions";
            qc_q := q;
            qc_prompt := prompt;
            qc_history := history;
            qc_answer_obj := answer;
            qc_answer := match answer with
                         | Some a =>
                             if h_cleared a then None else Some (get_value a)
                         | None => None
                         end;
            qc_answer_module := answer_module;
            qc_answer_tasks := answer_tasks;
            qc_answer_tasks_show_user :=
              existsb (fun tw => negb (t_editor (fst tw) =? user req))
                      answer_tasks;
            qc_is_discussion_guest := is_guest;
            qc_write_priv := write_priv |}).

Definition next_question_get (req : Request) (task : Task)
    (answered : ModuleAnswers) : M response :=
  q <- (if contains (GET req) "q" then
          key <- lift (getitem (GET req) "q") ;;
          q <- questions_get_key task key ;;
          ret (Some q)
        else ret (hd_error (can_answer answered))) ;;
  taskq <- read (fun s =>
             match q with
             | Some q => find_task_answer s (t_id task) (mq_id q)
             | None => None
             end) ;;
  allowed <- read_priv req task taskq ;;
  if negb allowed then ret HttpResponseForbidden
  else
    match t_deleted_at task with
    | Some _ =>
        ret (HttpResponse
               "This module was deleted by its editor or a project administrator.")
    | None =>
        if negb (String.eqb (path req) (get_absolute_url task)) then
          ret (HttpResponseRedirect (get_absolute_url task))
        else
          is_guest <- read (fun s =>
                        negb (has_read_priv s task (user req) false)) ;;
          write_priv <- read (fun s =>
                          has_write_priv s task (user req) false) ;;
          match q with
          | None => finished_page req task answered is_guest write_priv
          | Some q =>
              question_page req task answered q taskq is_guest write_priv
          end
    end.

(** [next_question(request, taskid, taskslug)]; the URL pattern hands over
    the digits of the task id. *)
Definition next_question (req : Request) (taskid : Z) : M response :=
  task <- get_task_or_404 taskid (organization req) ;;
  answered <- with_extended_info task ;;
  if String.eqb (method req) "POST" then next_question_post req task answered
  else next_question_get req task answered.

(** ** [project] of [siteapp/views.py]: the additional tabs of content *)

Fixpoint set_intro (tabs : list (string * option Document)) (name : string)
    (doc : Document) : list (string * option Document) :=
  match tabs with
  | [] => []
  | (n, i) :: tabs' =>
      if String.eqb n name then (n, Some doc) :: tabs'
      else (n, i) :: set_intro tabs' name doc
  end.

Definition has_tab (tabs : list (string * option Document)) (name : string)
  : bool :=
  existsb (fun t => String.eqb (fst t) name) tabs.

(** The loop of lines 170-176 over the rendered documents. *)
Fixpoint place_documents (docs : list Document)
    (tabs : list (string * option Document)) (additional_tabs : list Document)
  : list (string * option Document) * list Document :=
  match docs with
  | [] => (tabs, additional_tabs)
  | doc :: docs' =>
      match doc_tab doc with
      | Some name =>
          if has_tab tabs name then
            place_documents docs' (set_intro tabs name doc) additional_tabs
          else place_documents docs' tabs (additional_tabs ++ [doc])
      | None => place_documents docs' tabs (additional_tabs ++ [doc])
      end
  end.

(** Lines 167-176 of [project]: the output documents of the project's root
    task, rendered with [hard_fail=False], go to the tab they name or to a
    tab of their own. *)
Definition project_additional_tabs (root_task : Task)
    (tabs : list (string * option Document))
  : M (list (string * option Document) * list Document) :=
  m <- read (fun s => find_module s (t_module root_task)) ;;
  match m with
  | None => raise DoesNotExist
  | Some m =>
      match m_output m with
      | [] => ret (tabs, [])
      | _ :: _ =>
          docs <- render_output_documents root_task None false ;;
          ret (place_documents docs tabs [])
      end
  end.

End Views.

(** * Specification vocabulary *)

Section Vocabulary.

Context {host : Host}.

(** A computation that only reads leaves the tables as they are. *)
Definition read_only {A : Type} (m : M A) : Prop :=
  forall s, snd (m s) = s.

Fixpoint unique_ids (l : list Z) : bool :=
  match l with
  | [] => true
  | x :: l' => negb (existsb (Z.eqb x) l') && unique_ids l'
  end.

(** Two states that agree on every table, and on every column of the Task
    table but [deleted_at]. *)
Definition only_deleted_at_differs (s s' : State) : Prop :=
  modules s' = modules s /\ questions s' = questions s /\
  projects s' = projects s /\ task_answers s' = task_answers s /\
  answer_history s' = answer_history s /\ events s' = events s /\
  map (set_deleted_at None) (tasks s') = map (set_deleted_at None) (tasks s).

(** The request is a POST that names the task [id] and the new state [st]. *)
Definition asks_state (req : Request) (id : Z) (st : string) : Prop :=
  method req = "POST" /\
  (exists sid, get (POST req) "id" = Some sid /\ py_int sid = Some id) /\
  get (POST req) "state" = Some st.

(** [keeps R m]: running [m] takes every state to an [R]-related one. *)
Definition keeps (R : State -> State -> Prop) {A : Type} (m : M A) : Prop :=
  forall s, R s (snd (m s)).

Definition interact_first : string := "task-question-interact-first".

(** The number of first-interaction events of a user on a question of a
    task. *)
Definition interact_first_count (s : State) (u : User) (task q : Z) : nat :=
  List.length (events_for s u interact_first task (Some q)).

Definition interact_first_once (s : State) : Prop :=
  forall u task q, (interact_first_count s u task q <= 1)%nat.

(** The state grows by events only, none of them a first interaction. *)
Definition other_events_only (s s' : State) : Prop :=
  exists l, events s' = events s ++ l /\
            Forall (fun e => ev_event_type e <> interact_first) l.

(** One request served by one of the views. *)
Inductive step : State -> State -> Prop :=
| step_next_question (req : Request) (taskid : Z) (s : State) :
    step s (snd (next_question req taskid s))
| step_record_interaction (req : Request) (s : State) :
    step s (snd (instrumentation_record_interaction req s))
| step_change_task_state (req : Request) (s : State) :
    step s (snd (change_task_state req s)).

Inductive reachable (s0 : State) : State -> Prop :=
| reachable_refl : reachable s0 s0
| reachable_step (s s' : State) :
    reachable s0 s -> step s s' -> reachable s0 s'.

(** The request is a POST of [instrumentation_record_interaction] that
    names the task [id] and the question [q]. *)
Definition names_question (req : Request) (id q : Z) : Prop :=
  method req = "POST" /\
  (exists sid, get (POST req) "task" = Some sid /\ py_int sid = Some id) /\
  (exists sq, get (POST req) "question" = Some sq /\ py_int sq = Some q).

(** [returns m Q]: whatever [m] returns satisfies [Q]. *)
Definition returns {A : Type} (m : M A) (Q : A -> Prop) : Prop :=
  forall s a, fst (m s) = Ret a -> Q a.

(** The POST of a user with the write privilege that names the question [q]
    and asks to record [v] with the flag [cleared]. *)
Definition proposes (req : Request) (task : Task) (answered : ModuleAnswers)
    (s : State) (q : ModuleQuestion) (v : value) (cleared : bool) : Prop :=
  has_write_priv s task (user req) false = true /\
  questions_get_id task (get (POST req) "question") s = (Ret q, s) /\
  parse_request req q answered (path req) = Ret (Proposed v cleared).






(** The proposed answer differs materially from the current one: there is
    no current answer, or it was cleared, or it compares different. *)
Definition differs_materially (s : State) (a : TaskAnswer) (r : recorded)
  : bool :=
  match get_current_answer s a with
  | Some h =>
      h_cleared h ||
      negb (same_answer h (stored_value r) (map t_id (answered_by_tasks r))
                        (answered_by_file r))
  | None => true
  end.

(** The history entry of a recorded answer. *)
Definition entry_of (req : Request) (a : TaskAnswer) (r : recorded)
  : TaskAnswerHistory :=
  {| h_taskanswer := ta_id a; h_answered_by := user req;
     h_stored_value := stored_value r;
     h_answered_by_task := map t_id (answered_by_tasks r);
     h_answered_by_file := answered_by_file r; h_cleared := false;
     h_created := now req |}.

Definition cleared_entry (req : Request) (a : TaskAnswer) : TaskAnswerHistory :=
  {| h_taskanswer := ta_id a; h_answered_by := user req;
     h_stored_value := VNone; h_answered_by_task := [];
     h_answered_by_file := VNone; h_cleared := true; h_created := now req |}.

Definition answer_event (req : Request) (task : Task) (q : ModuleQuestion)
    (a : TaskAnswer) (r : recorded) (ty : string) (v : option Z)
  : InstrumentationEvent :=
  mk_event req (String.append "task-question-" ty) v task (Some (mq_id q))
           (Some (ta_id a)) (Some (stored_value r)).

(** The definitions (modules, questions, projects) are the same. *)
Definition same_definitions (s s' : State) : Prop :=
  modules s' = modules s /\ questions s' = questions s /\
  projects s' = projects s.

(** Two states that differ in the instrumentation events only. *)
Definition only_events_differ (s s' : State) : Prop :=
  modules s' = modules s /\ questions s' = questions s /\
  projects s' = projects s /\ tasks s' = tasks s /\
  task_answers s' = task_answers s /\ answer_history s' = answer_history s.


(** The Task that [Task.create] makes in the state [s]. *)
Definition new_task (s : State) (editor : User) (project : Z) (m : Module)
    (t : Z) : Task :=
  {| t_id := next_id (map t_id (tasks s)); t_project := project;
     t_editor := editor; t_module := m_id m; t_title := m_title m;
     t_notes := ""; t_created := t; t_updated := t; t_deleted_at := None;
     t_extra := "" |}.



(** ** The graph of tasks *)

(** [parent_of s p c]: the task [c] is among the tasks that currently answer
    a question of the task [p]. *)
Definition parent_of (s : State) (p c : Z) : Prop :=
  exists a h,
    In a (task_answers s) /\ ta_task a = p /\
    get_current_answer s a = Some h /\ h_cleared h = false /\
    In c (h_answered_by_task h).

(** Directly or transitively. *)
Definition ancestor_of (s : State) : Z -> Z -> Prop :=
  clos_trans Z (parent_of s).

Definition acyclic (s : State) : Prop := forall t, ~ ancestor_of s t t.




End Vocabulary.

(** * What a request writes

    The views delete nothing: a request appends rows to the tables, or sets
    the [deleted_at] column of a Task. *)

Section Ledger.

Context {host : Host}.

(** Rows appended to the tables the views write to. *)
Record rows : Type := {
  more_tasks : list Task;
  more_task_answers : list TaskAnswer;
  more_history : list TaskAnswerHistory;
  more_events : list InstrumentationEvent
}.

Definition no_rows : rows :=
  {| more_tasks := []; more_task_answers := []; more_history := [];
     more_events := [] |}.

Definition rows_app (d d' : rows) : rows :=
  {| more_tasks := more_tasks d ++ more_tasks d';
     more_task_answers := more_task_answers d ++ more_task_answers d';
     more_history := more_history d ++ more_history d';
     more_events := more_events d ++ more_events d' |}.

Definition extend (d : rows) (s : State) : State :=
  {| modules := modules s; questions := questions s; projects := projects s;
     tasks := tasks s ++ more_tasks d;
     task_answers := task_answers s ++ more_task_answers d;
     answer_history := answer_history s ++ more_history d;
     events := events s ++ more_events d |}.

Definition task_rows (l : list Task) : rows :=
  {| more_tasks := l; more_task_answers := []; more_history := [];
     more_events := [] |}.

Definition task_answer_rows (l : list TaskAnswer) : rows :=
  {| more_tasks := []; more_task_answers := l; more_history := [];
     more_events := [] |}.

Definition history_rows (l : list TaskAnswerHistory) : rows :=
  {| more_tasks := []; more_task_answers := []; more_history := l;
     more_events := [] |}.

Definition event_rows (l : list InstrumentationEvent) : rows :=
  {| more_tasks := []; more_task_answers := []; more_history := [];
     more_events := l |}.

(** The types of the events an answer is recorded under (lines 153-184). *)
Definition answer_event_types : list string :=
  map (String.append "task-question-")
      ["clear"; "skip"; "change"; "answer"; "keep"].

(** An event as a POST of [next_question] on [task] about [q] adds it in
    the state [s]: the event of the answer, or the event of a Task made
    for it. *)
Definition post_event (req : Request) (task : Task) (q : ModuleQuestion)
    (s : State) (e : InstrumentationEvent) : Prop :=
  ev_user e = user req /\ ev_event_time e = now req /\
  ev_project e = Some (t_project task) /\
  (ev_event_type e = "task-create" /\
   ev_task e = Some (next_id (map t_id (tasks s))) \/
   In (ev_event_type e) answer_event_types /\
   ev_task e = Some (t_id task) /\ ev_question e = Some (mq_id q)).

(** The event of a page of [next_question]. *)
Definition page_event (req : Request) (task : Task)
    (e : InstrumentationEvent) : Prop :=
  ev_user e = user req /\ ev_event_time e = now req /\
  ev_project e = Some (t_project task) /\ ev_task e = Some (t_id task) /\
  In (ev_event_type e) ["task-done"; "task-review"; "task-question-show"].

(** Lines 201-209: the question a GET asks for, by its key or the next one
    that can be answered; [None] when there is none left. *)
Definition asked (req : Request) (task : Task) (answered : ModuleAnswers)
  : M (option ModuleQuestion) :=
  if contains (GET req) "q" then
    key <- lift (getitem (GET req) "q") ;;
    q <- questions_get_key task key ;;
    ret (Some q)
  else ret (hd_error (can_answer answered)).

(** Lines 211-216: the Answer of the question, if there is one yet. *)
Definition answer_of (s : State) (task : Task) (q : option ModuleQuestion)
  : option TaskAnswer :=
  match q with
  | Some q => find_task_answer s (t_id task) (mq_id q)
  | None => None
  end.

(** Lines 341-349: the count the next showing of the question records. *)
Definition next_show_count (s : State) (req : Request) (task : Task)
    (q : ModuleQuestion) : option Z :=
  match latest (events_for s (user req) "task-question-show" (t_id task)
                           (Some (mq_id q))) with
  | None => Some 1
  | Some e => option_map (fun n => n + 1) (ev_event_value e)
  end.

(** Lines 267-286: the event of the finished page. *)
Definition finished_event (s : State) (req : Request) (task : Task)
  : InstrumentationEvent :=
  mk_event req
    match events_for s (user req) "task-done" (t_id task) None with
    | [] => "task-done"
    | _ :: _ => "task-review"
    end
    (option_map (fun e => now req - ev_event_time e)
       (hd_error (events_for s (user req) "task-create" (t_id task) None)))
    task None None None.

(** The request is a POST to [next_question] for the task [task] by a user
    with the write privilege, the answers resolve to [answered], and the
    form names the question [q] of the task's module. *)
Definition writer_asks (req : Request) (taskid : Z) (s : State) (task : Task)
    (answered : ModuleAnswers) (q : ModuleQuestion) : Prop :=
  method req = "POST" /\
  find (fun t => (t_id t =? taskid) && in_organization s t (organization req))
       (tasks s) = Some task /\
  fst (with_extended_info task s) = Ret answered /\
  has_write_priv s task (user req) false = true /\
  questions_get_id task (get (POST req) "question") s = (Ret q, s).

(** The value of the form of a "save": the upload for a file question,
    the list of the values of the field otherwise (lines 62-78). *)
Definition submitted (req : Request) (q : ModuleQuestion) : option value :=
  if String.eqb (mq_type q) "file" then
    option_map VFile (files_get (FILES req) "value")
  else Some (VList (getlist (POST req) "value")).

(** The form names the question [q], a question of the database with a key
    of its own that is no question of the module of [task]. *)
Definition names_foreign_question (req : Request) (s : State) (task : Task)
    (q : ModuleQuestion) : Prop :=
  (exists x, get (POST req) "question" = Some x /\ py_int x = Some (mq_id q)) /\
  In q (questions s) /\ mq_module q <> t_module task /\
  (forall q', In q' (questions s) -> mq_id q' = mq_id q -> q' = q).

(** The events a request adds in the state [s], by the place that adds
    them: the POST of [next_question] (lines 111 and 182), the first
    interaction (line 425), a shown question (line 346) and the finished
    page (line 279). *)
Inductive added_event (req : Request) (s : State)
  : InstrumentationEvent -> Prop :=
| added_by_post (e : InstrumentationEvent) :
    ev_event_type e = "task-create" \/
    In (ev_event_type e) answer_event_types ->
    added_event req s e
| added_by_interaction (e : InstrumentationEvent) :
    ev_event_type e = interact_first -> added_event req s e
| added_by_show (task : Task) (q : ModuleQuestion) (n : Z) (a : option Z) :
    next_show_count s req task q = Some n ->
    added_event req s
      (mk_event req "task-question-show" (Some n) task (Some (mq_id q)) a None)
| added_by_finished (task : Task) :
    added_event req s (finished_event s req task).

(** One request served by one of the views, with the request. *)
Inductive serves (req : Request) : State -> State -> Prop :=
| serves_next_question (taskid : Z) (s : State) :
    serves req s (snd (next_question req taskid s))
| serves_record_interaction (s : State) :
    serves req s (snd (instrumentation_record_interaction req s))
| serves_change_task_state (s : State) :
    serves req s (snd (change_task_state req s)).

(** The database keeps its primary keys. *)
Definition keyed (s : State) : Prop :=
  unique_ids (map t_id (tasks s)) = true /\
  unique_ids (map ta_id (task_answers s)) = true.

(** The history entry is an entry of an Answer of the task [t]. *)
Definition history_of_task (s : State) (h : TaskAnswerHistory) (t : Z) : Prop :=
  exists a, In a (task_answers s) /\ ta_id a = h_taskanswer h /\ ta_task a = t.



(** Every event of a shown question carries its count. *)
Definition shows_counted (s : State) : Prop :=
  forall e, In e (events s) -> ev_event_type e = "task-question-show" ->
            exists n, ev_event_value e = Some n /\ 1 <= n.

(** The user is let in by the nested [read_priv] of [next_question]: as a
    reader of the task, or as a participant of the discussion of the
    question's Answer. *)
Definition let_in (s : State) (req : Request) (task : Task)
    (taskq : option TaskAnswer) : Prop :=
  has_read_priv s task (user req) true = true \/
  exists tq d, taskq = Some tq /\
               discussion_get_for s (organization req) tq = Some d /\
               is_participant s d (user req) = true.

(** The tasks of a state up to their [deleted_at]. *)
Definition tasks_kept (s s' : State) : Prop :=
  exists l, map (set_deleted_at None) (tasks s')
            = map (set_deleted_at None) (tasks s) ++ l.

(** Nothing of [s] is lost in [s']: the definitions are the same, the Tasks
    are there with at most another [deleted_at], and the Answers, their
    histories and the events of [s] are the first rows of those of [s']. *)
Definition nothing_lost (s s' : State) : Prop :=
  same_definitions s s' /\ tasks_kept s s' /\
  (exists l, task_answers s' = task_answers s ++ l) /\
  (exists l, answer_history s' = answer_history s ++ l) /\
  (exists l, events s' = events s ++ l).

(** A row as the request [req] to [next_question] with the task id
    [taskid] adds it in the state [s]. *)
Definition task_of_request (req : Request) (taskid : Z) (s : State)
    (t : Task) : Prop :=
  t_editor t = user req /\ t_created t = now req /\ t_deleted_at t = None /\
  t_id t = next_id (map t_id (tasks s)) /\
  exists task,
    find (fun t => (t_id t =? taskid) && in_organization s t (organization req))
         (tasks s) = Some task /\
    t_project t = t_project task.

Definition task_answer_of_request (req : Request) (taskid : Z) (s : State)
    (a : TaskAnswer) : Prop :=
  ta_id a = next_id (map ta_id (task_answers s)) /\
  exists task q,
    find (fun t => (t_id t =? taskid) && in_organization s t (organization req))
         (tasks s) = Some task /\
    In q (module_questions s (t_module task)) /\
    ta_task a = t_id task /\ ta_question a = mq_id q.

(** No row of [s'] that belongs to the task [t] is new: [t] itself is a row
    of [s'], and the Answers of [t], the entries of their histories and the
    events about [t] in [s'] are rows of [s]. *)
Definition untouched (s s' : State) (t : Task) : Prop :=
  In t (tasks s') /\
  (forall a, In a (task_answers s') -> ta_task a = t_id t ->
             In a (task_answers s)) /\
  (forall h, In h (answer_history s') -> history_of_task s' h (t_id t) ->
             In h (answer_history s)) /\
  (forall e, In e (events s') -> ev_task e = Some (t_id t) ->
             In e (events s)).

Definition history_of_request (req : Request) (h : TaskAnswerHistory) : Prop :=
  h_answered_by h = user req /\ h_created h = now req.

Definition event_of_request (req : Request) (e : InstrumentationEvent) : Prop :=
  ev_user e = user req /\ ev_event_time e = now req.

(** [v] is the time from the first showing of the question to the user of
    the request until the request: [None] when it was never shown to them
    (lines 175-180 and 416-421). *)
Definition since_first_shown (s : State) (req : Request) (task : Task)
    (q : ModuleQuestion) (v : option Z) : Prop :=
  let shows := events_for s (user req) "task-question-show" (t_id task)
                          (Some (mq_id q)) in
  match v with
  | None => shows = []
  | Some d =>
      exists e, In e shows /\ d = now req - ev_event_time e /\
                forall e', In e' shows -> ev_event_time e <= ev_event_time e'
  end.

(** Python's order on the pairs of booleans that are the sort keys. *)
Definition key_leb (k k' : bool * bool) : bool :=
  if Bool.eqb (fst k) (fst k') then implb (snd k) (snd k')
  else implb (fst k) (fst k').

Definition key_ordered (current : option Z) (task : Task)
    (a b : Task * bool) : Prop :=
  key_leb (sort_key current task (fst a)) (sort_key current task (fst b))
  = true.

(** The document names a tab that is there. *)
Definition tabbed (tabs : list (string * option Document)) (doc : Document)
  : bool :=
  match doc_tab doc with
  | Some name => has_tab tabs name
  | None => false
  end.

(** [tabs[name].get("intro")]. *)
Fixpoint intro_of (tabs : list (string * option Document)) (name : string)
  : option Document :=
  match tabs with
  | [] => None
  | (n, i) :: tabs' => if String.eqb n name then i else intro_of tabs' name
  end.

(** The last document that names the tab. *)
Definition last_for (docs : list Document) (name : string) : option Document :=
  last_error (filter (fun d => match doc_tab d with
                               | Some n => String.eqb n name
                               | None => false
                               end) docs).

(** What a GET of [next_question] answers, with the task it is about; a
    page and a redirect are answered to those let in only. *)
Definition answered_to (req : Request) (s : State) (task : Task)
    (resp : response) : Prop :=
  match resp with
  | HttpResponseForbidden => True
  | HttpResponse _ =>
      t_deleted_at task <> None /\
      exists q, let_in s req task (answer_of s task q)
  | HttpResponseRedirect url =>
      url = get_absolute_url task /\ t_deleted_at task = None /\
      path req <> url /\
      exists q, let_in s req task (answer_of s task q)
  | RenderFinished _ =>
      has_read_priv s task (user req) true = true /\
      t_deleted_at task = None /\ path req = get_absolute_url task
  | RenderQuestion ctx =>
      let_in s req task (answer_of s task (Some (qc_q ctx))) /\
      t_deleted_at task = None /\ path req = get_absolute_url task
  | HttpResponseNotAllowed _ | JsonOk _ | JsonError _ => False
  end.

End Ledger.

(** * The site around the modules

    [siteapp/views.py], and [start_a_discussion] of
    [guidedmodules/views.py], work on tables beside those of the modules:
    the members of the projects, the invitations, and the discussions of
    the discussion application. *)

Record ProjectMembership : Type := {
  pm_project : Z;
  pm_user : User;
  pm_is_admin : bool
}.

(** What an invitation is to; [target] is a generic foreign key. *)
Inductive Target : Type :=
| TargetProject (id : Z)
| TargetTask (id : Z)
| TargetDiscussion (id : Z).

Inductive TargetInfo : Type :=
| IntoNewTaskQuestion (id : Z)
| What (what : string).

Record Invitation : Type := {
  inv_id : Z;
  inv_from_user : User;
  inv_from_project : option Z;
  inv_into_project : bool;
  inv_target : option Target;
  inv_target_info : TargetInfo;
  inv_to_user : option User;
  inv_to_email : option string;
  inv_text : string;
  inv_email_invitation_code : string;
  inv_created : Z;
  inv_accepted_at : option Z;
  inv_accepted_user : option User;
  inv_revoked_at : option Z
}.

(** The discussion application as the views use it: its store, the
    discussion of an Answer within an organization ([Discussion.get_for],
    which makes one with [create=True]), what a discussion shows to a user,
    and the Task of the Answer a discussion is attached to. *)
Class Forum : Type := {
  discussions : Type;
  Discussion_get_for : discussions -> Z -> TaskAnswer -> option Z;
  Discussion_create_for : discussions -> Z -> TaskAnswer -> Z * discussions;
  render_context_dict : discussions -> Z -> User -> list (string * string);
  attached_task : discussions -> Z -> Z
}.

Section Siteapp.

Context {host : Host} {forum : Forum}.

Record Site : Type := {
  site_db : State;
  memberships : list ProjectMembership;
  invitations : list Invitation;
  threads : discussions
}.

Definition with_site_db (s : State) (site : Site) : Site :=
  {| site_db := s; memberships := memberships site;
     invitations := invitations site; threads := threads site |}.

Definition with_invitations (l : list Invitation) (site : Site) : Site :=
  {| site_db := site_db site; memberships := memberships site;
     invitations := l; threads := threads site |}.

Definition with_threads (t : discussions) (site : Site) : Site :=
  {| site_db := site_db site; memberships := memberships site;
     invitations := invitations site; threads := t |}.

(** ** The pages and the monad of the views of the site *)

Record ModuleEntry : Type := {
  me_question : ModuleQuestion;
  me_module : Module;
  me_tasks : list (Task * bool);
  me_can_start_new_task : bool;
  me_discussions : list Z
}.

Record Group : Type := {
  group_title : string;
  group_modules : list ModuleEntry
}.

Record Tab : Type := {
  tab_title : string;
  tab_groups : list Group
}.

Record ProjectContext : Type := {
  pc_is_admin : bool;
  pc_is_member : bool;
  pc_can_begin_module : bool;
  pc_project_has_members_besides_me : list ProjectMembership;
  pc_project : Project;
  pc_title : string;
  pc_intro : string;
  pc_additional_tabs : list Document;
  pc_open_invitations : list Invitation;
  pc_send_invitation : list (string * string);
  pc_project_members : list ProjectMembership;
  pc_tabs : list (Tab * option Document)
}.

(** A response of the kinds of [response], a JSON object, or the page of a
    project. *)
Inductive reply : Type :=
| Http (r : response)
| JsonResponse (d : list (string * string))
| RenderProject (ctx : ProjectContext).

Definition V (A : Type) : Type := Site -> outcome A * Site.

Definition vret {A : Type} (a : A) : V A := fun site => (Ret a, site).

Definition vraise {A : Type} (e : exn) : V A := fun site => (Raise e, site).

Definition vbind {A B : Type} (m : V A) (k : A -> V B) : V B :=
  fun site =>
    match m site with
    | (Ret a, site') => k a site'
    | (Raise e, site') => (Raise e, site')
    end.

Definition vlift {A : Type} (o : outcome A) : V A := fun site => (o, site).

Definition vread {A : Type} (f : Site -> A) : V A :=
  fun site => (Ret (f site), site).

Definition vwrite (f : Site -> Site) : V unit := fun site => (Ret tt, f site).

(** A computation on the tables of the modules, within the site. *)
Definition on_db {A : Type} (m : M A) : V A :=
  fun site =>
    match m (site_db site) with
    | (o, s) => (o, with_site_db s site)
    end.

Declare Scope site_scope.
Delimit Scope site_scope with site.
Notation "x <- m ;; k" := (vbind m (fun x => k))
  (at level 61, m at next level, right associativity) : site_scope.
Notation "m ;;; k" := (vbind m (fun _ => k))
  (at level 61, right associativity) : site_scope.
Local Open Scope site_scope.

Fixpoint fold_V {A B : Type} (f : B -> A -> V B) (l : list A) (acc : B)
  : V B :=
  match l with
  | [] => vret acc
  | x :: l' => acc' <- f acc x ;; fold_V f l' acc'
  end.

(** What the views of the site take from [siteapp/models.py] and from the
    specifications of the modules. *)
Class SiteHost : Type := {
  project_has_read_priv : Site -> Project -> User -> bool;
  project_get_absolute_url : Project -> string;
  get_discussions_in_project_as_guest : Site -> Project -> User -> list Z;
  get_admins : Site -> Project -> list User;
  is_account_project : Project -> bool;
  project_title : Project -> string;
  spec_tab : ModuleQuestion -> option string;
  spec_group : ModuleQuestion -> option string;
  spec_module_id : ModuleQuestion -> option Z;
  has_introduction : Module -> bool;
  render_introduction : Site -> Task -> outcome string;
  is_expired : Invitation -> Z -> bool;
  form_context_dict : Site -> User -> Project -> list (string * string);
  user_str : User -> string
}.

Context {site_host : SiteHost}.

(** ** [project] of [siteapp/views.py] *)

(** [get_object_or_404(Project, id=project_id)]: of any organization. *)
Definition get_project_or_404 (id : Z) : V Project :=
  p <- vread (fun site => find_project (site_db site) id) ;;
  match p with
  | Some p => vret p
  | None => vraise Http404
  end.

(** [project.root_task]. *)
Definition project_root_task (p : Project) : V Task :=
  match p_root_task p with
  | None => vraise (AttributeError "'NoneType' object has no attribute 'module'")
  | Some id =>
      t <- vread (fun site => find_task (site_db site) id) ;;
      match t with
      | Some t => vret t
      | None => vraise DoesNotExist
      end
  end.

(** [task.module]. *)
Definition task_module (t : Task) : V Module :=
  m <- vread (fun site => find_module (site_db site) (t_module t)) ;;
  match m with
  | Some m => vret m
  | None => vraise DoesNotExist
  end.

(** [groups.setdefault(groupname, {"title": groupname, "modules": []})]. *)
Fixpoint setdefault_group (groupname : string) (groups : list Group)
  : list Group :=
  match groups with
  | [] => [ {| group_title := groupname; group_modules := [] |} ]
  | g :: groups' =>
      if String.eqb (group_title g) groupname then g :: groups'
      else g :: setdefault_group groupname groups'
  end.

(** [tabs.setdefault(tabname, ...)] and then the group within the tab. *)
Fixpoint setdefault_tab (tabname groupname : string) (tabs : list Tab)
  : list Tab :=
  match tabs with
  | [] => [ {| tab_title := tabname;
               tab_groups := setdefault_group groupname [] |} ]
  | t :: tabs' =>
      if String.eqb (tab_title t) tabname then
        {| tab_title := tab_title t;
           tab_groups := setdefault_group groupname (tab_groups t) |} :: tabs'
      else t :: setdefault_tab tabname groupname tabs'
  end.

Fixpoint append_to_group (groupname : string) (e : ModuleEntry)
    (groups : list Group) : list Group :=
  match groups with
  | [] => []
  | g :: groups' =>
      if String.eqb (group_title g) groupname then
        {| group_title := group_title g;
           group_modules := group_modules g ++ [e] |} :: groups'
      else g :: append_to_group groupname e groups'
  end.

(** [group["modules"].append(entry)] for the group got by [setdefault]. *)
Fixpoint append_entry (tabname groupname : string) (e : ModuleEntry)
    (tabs : list Tab) : list Tab :=
  match tabs with
  | [] => []
  | t :: tabs' =>
      if String.eqb (tab_title t) tabname then
        {| tab_title := tab_title t;
           tab_groups := append_to_group groupname e (tab_groups t) |} :: tabs'
      else t :: append_entry tabname groupname e tabs'
  end.

(** [ans.answered_by_task.all()]. *)
Definition answering_tasks (s : State) (h : TaskAnswerHistory) : list Task :=
  flat_map (fun id => match find_task s id with
                      | Some t => [t]
                      | None => []
                      end) (h_answered_by_task h).

(** Lines 142-152: the tasks that answer the question, annotated with the
    write privilege.  [get_current_answer] gives [None] for an Answer
    without history, and the loop then asks [None] for its tasks. *)
Definition answered_by (req : Request) (root : Task) (mq : ModuleQuestion)
  : V (list (Task * bool)) :=
  ans <- vread (fun site =>
           find_task_answer (site_db site) (t_id root) (mq_id mq)) ;;
  match ans with
  | None => vret []
  | Some ans =>
      cur <- vread (fun site => get_current_answer (site_db site) ans) ;;
      match cur with
      | None =>
          vraise (AttributeError
                    "'NoneType' object has no attribute 'answered_by_task'")
      | Some h =>
          vread (fun site =>
            map (fun t => (t, has_write_priv (site_db site) t (user req) false))
                (answering_tasks (site_db site) h))
      end
  end.

(** Lines 126-165: the body of the loop over the questions of the module
    of the root task. *)
Definition project_module_entry (req : Request) (root : Task)
    (is_project_member : bool) (guest_of : list Z) (tabs : list Tab)
    (mq : ModuleQuestion) : V (list Tab) :=
  if negb (is_module_type mq) then vret tabs
  else
    let tabname := match spec_tab mq with Some n => n | None => "Modules" end in
    let groupname :=
      match spec_group mq with Some n => n | None => "Modules" end in
    let tabs := setdefault_tab tabname groupname tabs in
    tasks <- answered_by req root mq ;;
    task_discussions <-
      vread (fun site =>
        flat_map (fun tw =>
                    filter (fun d =>
                              attached_task (threads site) d =? t_id (fst tw))
                           guest_of)
                 tasks) ;;
    if negb is_project_member && (List.length task_discussions =? 0)%nat
    then vret tabs
    else
      match spec_module_id mq with
      | None => vraise (KeyError "module-id")
      | Some mid =>
          m <- vread (fun site => find_module (site_db site) mid) ;;
          match m with
          | None => vraise DoesNotExist
          | Some m =>
              vret (append_entry tabname groupname
                      {| me_question := mq; me_module := m;
                         me_tasks := tasks;
                         me_can_start_new_task :=
                           String.eqb (mq_type mq) "module-set" ||
                           (List.length tasks =? 0)%nat;
                         me_discussions := task_discussions |}
                      tabs)
          end
      end.

(** The key of [sorted(project_members, ...)]: admins first, then by the
    name of the user. *)
Definition member_key_leb (a b : ProjectMembership) : bool :=
  if Bool.eqb (pm_is_admin a) (pm_is_admin b) then
    String.leb (user_str (pm_user a)) (user_str (pm_user b))
  else pm_is_admin a.

Fixpoint insert_member (pm : ProjectMembership) (l : list ProjectMembership)
  : list ProjectMembership :=
  match l with
  | [] => [pm]
  | x :: l' =>
      if member_key_leb pm x then pm :: x :: l' else x :: insert_member pm l'
  end.

Definition sorted_members (l : list ProjectMembership)
  : list ProjectMembership :=
  fold_right insert_member [] l.

(** [.order_by('-created')]. *)
Fixpoint insert_invitation (i : Invitation) (l : list Invitation)
  : list Invitation :=
  match l with
  | [] => [i]
  | x :: l' =>
      if inv_created x <=? inv_created i then i :: x :: l'
      else x :: insert_invitation i l'
  end.

Definition newest_first (l : list Invitation) : list Invitation :=
  fold_right insert_invitation [] l.

Definition is_none {A : Type} (o : option A) : bool :=
  match o with None => true | Some _ => false end.

Definition open_invitations (site : Site) (req : Request) (p : Project)
  : list Invitation :=
  filter (fun i => negb (is_expired i (now req)))
    (newest_first
       (filter (fun i =>
                  (inv_from_user i =? user req) &&
                  match inv_from_project i with
                  | Some id => id =? p_id p
                  | None => false
                  end &&
                  is_none (inv_accepted_at i) && is_none (inv_revoked_at i))
               (invitations site))).

(** Lines 114-194 of [project]: the page. *)
Definition project_page (req : Request) (p : Project) : V reply :=
  project_members <-
    vread (fun site =>
      filter (fun pm => pm_project pm =? p_id p) (memberships site)) ;;
  let is_project_member :=
    existsb (fun pm => pm_user pm =? user req) project_members in
  guest_of <-
    vread (fun site => get_discussions_in_project_as_guest site p (user req)) ;;
  root <- project_root_task p ;;
  m <- task_module root ;;
  qs <- vread (fun site => module_questions (site_db site) (m_id m)) ;;
  tabs <- fold_V (project_module_entry req root is_project_member guest_of)
                 qs [] ;;
  placed <- on_db (project_additional_tabs
                     root (map (fun t => (tab_title t, None)) tabs)) ;;
  is_admin <-
    vread (fun site => existsb (Z.eqb (user req)) (get_admins site p)) ;;
  intro <- (if has_introduction m then
              fun site => (render_introduction site root, site)
            else vret "") ;;
  invs <- vread (fun site => open_invitations site req p) ;;
  send <- vread (fun site => form_context_dict site (user req) p) ;;
  vret (RenderProject
          {| pc_is_admin := is_admin;
             pc_is_member := is_project_member;
             pc_can_begin_module := is_admin && negb (is_account_project p);
             pc_project_has_members_besides_me :=
               filter (fun pm => negb (pm_user pm =? user req))
                      project_members;
             pc_project := p;
             pc_title := project_title p;
             pc_intro := intro;
             pc_additional_tabs := snd placed;
             pc_open_invitations := invs;
             pc_send_invitation := send;
             pc_project_members := sorted_members project_members;
             pc_tabs := combine tabs (map snd (fst placed)) |}).

(** [project(request, project_id)].  The variable [task] of line 112 is
    local to the function, for the loop of line 149 assigns it; where it is
    read it has no value yet. *)
Definition project (req : Request) (project_id : Z) : V reply :=
  p <- get_project_or_404 project_id ;;
  rp <- vread (fun site => project_has_read_priv site p (user req)) ;;
  if negb rp then vret (Http HttpResponseForbidden)
  else if negb (String.eqb (path req) (project_get_absolute_url p)) then
    vraise (UnboundLocalError "task")
  else project_page req p.

(** ** [cancel_invitation] of [siteapp/views.py] *)

Definition set_revoked_at (t : option Z) (i : Invitation) : Invitation :=
  {| inv_id := inv_id i; inv_from_user := inv_from_user i;
     inv_from_project := inv_from_project i;
     inv_into_project := inv_into_project i; inv_target := inv_target i;
     inv_target_info := inv_target_info i; inv_to_user := inv_to_user i;
     inv_to_email := inv_to_email i; inv_text := inv_text i;
     inv_email_invitation_code := inv_email_invitation_code i;
     inv_created := inv_created i; inv_accepted_at := inv_accepted_at i;
     inv_accepted_user := inv_accepted_user i; inv_revoked_at := t |}.

(** [inv.save(update_fields=['revoked_at'])]. *)
Definition save_revoked_at (id : Z) (t : option Z) (site : Site) : Site :=
  with_invitations
    (map (fun i => if inv_id i =? id then set_revoked_at t i else i)
         (invitations site)) site.

Definition cancel_invitation (req : Request) : V reply :=
  sid <- vlift (getitem (POST req) "id") ;;
  id <- on_db (to_pk sid) ;;
  inv <- vread (fun site =>
           find (fun i => (inv_id i =? id) && (inv_from_user i =? user req))
                (invitations site)) ;;
  match inv with
  | None => vraise Http404
  | Some inv =>
      vwrite (save_revoked_at (inv_id inv) (Some (now req))) ;;;
      vret (JsonResponse [("status", "ok")])
  end.

(** ** [start_a_discussion] of [guidedmodules/views.py] *)

Definition no_permission : reply :=
  JsonResponse [("status", "error"); ("message", "You do not have permission!")].

(** Lines 469-478: the Answer the discussion is to be attached to, made
    for a reader when there is none. *)
Definition answer_to_discuss (req : Request) (task : Task)
    (q : ModuleQuestion) : V (reply + TaskAnswer) :=
  found <- vread (fun site =>
             find_task_answer (site_db site) (t_id task) (mq_id q)) ;;
  match found with
  | Some tq => vret (inr tq)
  | None =>
      rp <- vread (fun site =>
              has_read_priv (site_db site) task (user req) false) ;;
      if negb rp then vret (inl no_permission)
      else
        tq <- on_db (TaskAnswer_get_or_create task q) ;;
        vret (inr tq)
  end.

(** Lines 480-489: the discussion of the Answer, made for a reader when
    there is none, as it is shown to the user. *)
Definition discussion_of (req : Request) (task : Task) (tq : TaskAnswer)
  : V reply :=
  d <- vread (fun site =>
         Discussion_get_for (threads site) (organization req) tq) ;;
  d <- match d with
       | Some d => vret (inr d)
       | None =>
           rp <- vread (fun site =>
                   has_read_priv (site_db site) task (user req) false) ;;
           if negb rp then vret (inl no_permission)
           else
             fun site =>
               match Discussion_create_for (threads site)
                                           (organization req) tq with
               | (d, t) => (Ret (inr d), with_threads t site)
               end
       end ;;
  match d with
  | inl r => vret r
  | inr d =>
      ctx <- vread (fun site =>
               render_context_dict (threads site) d (user req)) ;;
      vret (JsonResponse ctx)
  end.

(** [get_object_or_404(Task, id=...)]: of any organization. *)
Definition get_any_task_or_404 (id : Z) : V Task :=
  t <- vread (fun site => find_task (site_db site) id) ;;
  match t with
  | Some t => vret t
  | None => vraise Http404
  end.

(** [get_object_or_404(ModuleQuestion, id=...)]: of any module. *)
Definition get_question_or_404 (id : Z) : V ModuleQuestion :=
  q <- vread (fun site =>
         find (fun q => mq_id q =? id) (questions (site_db site))) ;;
  match q with
  | Some q => vret q
  | None => vraise Http404
  end.

Definition start_a_discussion (req : Request) : V reply :=
  stask <- vlift (getitem (POST req) "task") ;;
  tid <- on_db (to_pk stask) ;;
  task <- get_any_task_or_404 tid ;;
  sq <- vlift (getitem (POST req) "question") ;;
  qid <- on_db (to_pk sq) ;;
  q <- get_question_or_404 qid ;;
  tq <- answer_to_discuss req task q ;;
  match tq with
  | inl r => vret r
  | inr tq => discussion_of req task tq
  end.

End Siteapp.

Section SiteVocabulary.

Context {host : Host} {forum : Forum} {site_host : SiteHost}.

(** A computation that reads the site only. *)
Definition reads_only {A : Type} (m : V A) : Prop :=
  forall site, snd (m site) = site.

(** The entries of the modules on the tabs of the project page. *)
Definition entries (tabs : list Tab) : list ModuleEntry :=
  flat_map (fun t => flat_map group_modules (tab_groups t)) tabs.

(** The page of the project [p] is asked for by a user who may read it,
    under its canonical path. *)
Definition reads_project (req : Request) (project_id : Z) (site : Site)
    (p : Project) : Prop :=
  find_project (site_db site) project_id = Some p /\
  project_has_read_priv site p (user req) = true /\
  path req = project_get_absolute_url p.

(** The question [q] is a question answered by tasks of the module of the
    root task [root] of the project [p]. *)
Definition module_question_of (site : Site) (p : Project) (root : Task)
    (q : ModuleQuestion) : Prop :=
  (exists id, p_root_task p = Some id /\
              find_task (site_db site) id = Some root) /\
  (exists m, find_module (site_db site) (t_module root) = Some m /\
             In q (module_questions (site_db site) (m_id m))) /\
  is_module_type q = true.

(** Every entry of a history is an entry of an Answer of the database. *)
Definition history_has_answers (s : State) : Prop :=
  forall h, In h (answer_history s) ->
            exists a, In a (task_answers s) /\ ta_id a = h_taskanswer h.

(** The form of [start_a_discussion] names the task and the question. *)
Definition names_discussion (req : Request) (task q : Z) : Prop :=
  (exists x, get (POST req) "task" = Some x /\ py_int x = Some task) /\
  (exists x, get (POST req) "question" = Some x /\ py_int x = Some q).

(** The Answer [get_or_create] makes for the task and the question. *)
Definition new_answer (s : State) (task : Task) (q : ModuleQuestion)
  : TaskAnswer :=
  {| ta_id := next_id (map ta_id (task_answers s)); ta_task := t_id task;
     ta_question := mq_id q |}.

(** The form names a Task and a question of the database, whatever their
    organization and module. *)
Definition discusses (req : Request) (site : Site) (task : Task)
    (q : ModuleQuestion) : Prop :=
  names_discussion req (t_id task) (mq_id q) /\
  find_task (site_db site) (t_id task) = Some task /\
  find (fun q' => mq_id q' =? mq_id q) (questions (site_db site)) = Some q.

(** Two sites that agree on everything but the [revoked_at] of their
    invitations. *)
Definition only_revoked_at_differs (site site' : Site) : Prop :=
  site_db site' = site_db site /\ memberships site' = memberships site /\
  threads site' = threads site /\
  map (set_revoked_at None) (invitations site')
  = map (set_revoked_at None) (invitations site).

(** What [entry] shows is what the loop of lines 126-165 computes for its
    question: the tasks of the current answer with the write privilege of
    the user, and the discussions of those tasks the user is a guest of. *)
Definition entry_of_question (req : Request) (site : Site) (p : Project)
    (is_member : bool) (e : ModuleEntry) : Prop :=
  is_module_type (me_question e) = true /\
  (is_member = false -> me_discussions e <> []) /\
  (forall d, In d (me_discussions e) ->
             In d (get_discussions_in_project_as_guest site p (user req)) /\
             exists tw, In tw (me_tasks e) /\
                        attached_task (threads site) d = t_id (fst tw)) /\
  (forall tw, In tw (me_tasks e) ->
              snd tw = has_write_priv (site_db site) (fst tw) (user req) false) /\
  me_can_start_new_task e
  = (String.eqb (mq_type (me_question e)) "module-set" ||
     (List.length (me_tasks e) =? 0)%nat).

End SiteVocabulary.

(** * A small portal

    A concrete host and database, to run the views on: a project module
    whose "apps" question is answered by tasks of an app module, which has
    a question answered by a task of a component module. *)

Module Scenario.

Definition digit (c : ascii) : option Z :=
  let n := Z.of_nat (nat_of_ascii c) in
  if (48 <=? n) && (n <=? 57) then Some (n - 48) else None.

Fixpoint digits (s : string) (acc : Z) : option Z :=
  match s with
  | EmptyString => Some acc
  | String c s' =>
      match digit c with
      | Some d => digits s' (10 * acc + d)
      | None => None
      end
  end.

(** [int] on the decimal strings the forms of the portal send. *)
Definition decimal (s : string) : option Z :=
  match s with
  | EmptyString => None
  | _ => digits s 0
  end.

Definition may_access (t : Task) (u : User) (allow_access_to_deleted : bool)
  : bool :=
  (t_editor t =? u) &&
  (allow_access_to_deleted ||
   match t_deleted_at t with None => true | Some _ => false end).

#[export] Instance portal : Host := {|
  py_int := decimal;
  has_read_priv := fun _ => may_access;
  has_write_priv := fun _ => may_access;
  get_absolute_url := fun t => String.append "/tasks/" (t_title t);
  parse := fun _ v =>
             match v with
             | VList [x] => Ret (VStr x)
             | VList [] => Ret VNone
             | _ => Ret v
             end;
  validate := fun _ v =>
                match v with
                | VStr EmptyString => Raise (ValueError "empty")
                | _ => Ret v
                end;
  run_external_function := fun _ _ => Ret VNone;
  get_all_tasks_readable_by :=
    fun s u org =>
      filter (fun t => may_access t u false && in_organization s t org)
             (tasks s);
  discussion_get_for := fun _ _ _ => None;
  is_participant := fun _ _ _ => false;
  display := fun v => match v with
                      | VStr x => x
                      | VFile f => f
                      | _ => ""
                      end;
  soft_failure := fun _ => "(this document could not be rendered)"
|}.

Definition question (id m : Z) (key ty : string) (answer_type : option Z)
    (c : cond) : ModuleQuestion :=
  {| mq_id := id; mq_module := m; mq_key := key; mq_type := ty;
     mq_prompt := [Text key]; mq_answer_type_module := answer_type;
     mq_condition := c |}.

Definition project_module : Module :=
  {| m_id := 1; m_key := "project"; m_title := "Project";
     m_output := [ {| od_tab := None; od_title := "Summary";
                      od_template := [Text "Project "; Var "name";
                                      Text " owned by "; Var "owner"] |} ] |}.

Definition app_module : Module :=
  {| m_id := 2; m_key := "app"; m_title := "App";
     m_output := [ {| od_tab := Some "Apps"; od_title := "App";
                      od_template := [Text "App "; Var "app_name";
                                      Text " stores in "; Var "db"] |} ] |}.

Definition component_module : Module :=
  {| m_id := 3; m_key := "component"; m_title := "Component";
     m_output := [] |}.

Definition q_name := question 1 1 "name" "text" None CTrue.
Definition q_apps := question 2 1 "apps" "module-set" (Some 2) CTrue.
Definition q_app_name := question 3 2 "app_name" "text" None CTrue.
Definition q_has_db := question 4 2 "has_db" "choice" None CTrue.
Definition q_db :=
  question 5 2 "db" "text" None (CEq "has_db" (VStr "yes")).
Definition q_component := question 6 2 "component" "module" (Some 3) CTrue.

Definition the_project : Project :=
  {| p_id := 1; p_organization := 1; p_root_task := Some 1 |}.

Definition task (id m : Z) (title : string) : Task :=
  {| t_id := id; t_project := 1; t_editor := 7; t_module := m;
     t_title := title; t_notes := ""; t_created := 100; t_updated := 100;
     t_deleted_at := None; t_extra := "" |}.

Definition project_task := task 1 1 "Project".
Definition app_task := task 2 2 "App".

Definition answer (a : Z) (v : value) (ts : list Z) : TaskAnswerHistory :=
  {| h_taskanswer := a; h_answered_by := 7; h_stored_value := v;
     h_answered_by_task := ts; h_answered_by_file := VNone;
     h_cleared := false; h_created := 110 |}.

(** The project is named "Alpha" and has one app. *)
Definition db : State :=
  {| modules := [project_module; app_module; component_module];
     questions := [q_name; q_apps; q_app_name; q_has_db; q_db; q_component];
     projects := [the_project];
     tasks := [project_task; app_task];
     task_answers := [ {| ta_id := 1; ta_task := 1; ta_question := 2 |};
                       {| ta_id := 2; ta_task := 1; ta_question := 1 |} ];
     answer_history := [answer 1 VNone [2]; answer 2 (VStr "Alpha") []];
     events := [] |}.

Definition post (u : User) (form : QueryDict) : Request :=
  {| method := "POST"; path := "/tasks/1/project"; user := u;
     organization := 1; POST := form; GET := []; FILES := []; now := 200 |}.

Definition view (url : string) : Request :=
  {| method := "GET"; path := url; user := 7; organization := 1;
     POST := []; GET := []; FILES := []; now := 200 |}.

Definition delete_app := post 7 [("id", "2"); ("state", "delete")].
Definition interact := post 7 [("task", "1"); ("question", "1")].
Definition skip_name := post 7 [("question", "1"); ("method", "skip")].
Definition save_name (v : string) :=
  post 7 [("question", "1"); ("method", "save"); ("value", v)].
Definition intruder_save :=
  post 9 [("question", "1"); ("method", "save"); ("value", "Mallory")].

Definition post_app (form : QueryDict) : Request :=
  {| method := "POST"; path := "/tasks/2/app"; user := 7;
     organization := 1; POST := form; GET := []; FILES := []; now := 200 |}.



(** An app that asks for the project it belongs to: the app module and the
    project module now ask for tasks of each other. *)
Definition q_parent := question 7 2 "parent" "module" (Some 1) CTrue.

Definition db_with_parent : State :=
  {| modules := modules db; questions := questions db ++ [q_parent];
     projects := projects db; tasks := tasks db;
     task_answers := task_answers db; answer_history := answer_history db;
     events := events db |}.

Definition link_parent :=
  post_app [("question", "7"); ("method", "save"); ("value", "1")].

(** The answers of the app task as resolved in [db]. *)
Definition app_answers : ModuleAnswers :=
  {| as_dict := []; was_imputed := [];
     can_answer := [q_app_name; q_has_db; q_component];
     not_yet_reachable := [q_db] |}.

(** The answers of the project task as resolved in [db]. *)
Definition project_answers : ModuleAnswers :=
  {| as_dict := [("name", VStr "Alpha"); ("apps", VTasks [2])];
     was_imputed := []; can_answer := []; not_yet_reachable := [] |}.

End Scenario.

(** * More of the portal

    A second organization with a project of its own, beside the first. *)

Module Cases.

Import Scenario.

Definition other_project : Project :=
  {| p_id := 2; p_organization := 2; p_root_task := Some 3 |}.

Definition other_task : Task :=
  {| t_id := 3; t_project := 2; t_editor := 8; t_module := 1;
     t_title := "Other"; t_notes := ""; t_created := 100; t_updated := 100;
     t_deleted_at := None; t_extra := "" |}.

(** The database of two organizations; the other project is named too. *)
Definition db_two : State :=
  {| modules := modules db; questions := questions db;
     projects := projects db ++ [other_project];
     tasks := tasks db ++ [other_task];
     task_answers := task_answers db
                     ++ [ {| ta_id := 3; ta_task := 3; ta_question := 1 |} ];
     answer_history := answer_history db ++ [answer 3 (VStr "Omega") []];
     events := events db |}.

(** Forms that record nothing. *)
Definition save_nothing := save_name "".
Definition erase_name := post 7 [("question", "1"); ("method", "erase")].
Definition no_method := post 7 [("question", "1")].
Definition foreign_save :=
  post 7 [("task", "1"); ("question", "3"); ("method", "save");
          ("value", "x")].

(** The project module with a question answered by an upload. *)
Definition q_logo := question 8 1 "logo" "file" None CTrue.

Definition db_files : State :=
  {| modules := modules db; questions := questions db ++ [q_logo];
     projects := projects db; tasks := tasks db;
     task_answers := task_answers db; answer_history := answer_history db;
     events := events db |}.

Definition files_answers : ModuleAnswers :=
  {| as_dict := [("name", VStr "Alpha"); ("apps", VTasks [2])];
     was_imputed := []; can_answer := [q_logo]; not_yet_reachable := [] |}.

Definition save_logo := post 7 [("question", "8"); ("method", "save")].

(** A GET that asks for a question by its key. *)
Definition view_q (u : User) (url key : string) : Request :=
  {| method := "GET"; path := url; user := u; organization := 1;
     POST := []; GET := [("q", key)]; FILES := []; now := 200 |}.

(** The page of the first question of the app task, as its editor gets it. *)
Definition app_name_page : QuestionContext :=
  {| qc_header_col_active := "questions"; qc_q := q_app_name;
     qc_prompt := "app_name"; qc_history := None; qc_answer_obj := None;
     qc_answer := None; qc_answer_module := None; qc_answer_tasks := [];
     qc_answer_tasks_show_user := false; qc_is_discussion_guest := false;
     qc_write_priv := true |}.

(** The database after the name of the app was shown to its editor, and
    the answer given a minute later. *)
Definition db_shown : State := snd (next_question (view "/tasks/App") 2 db).

Definition answer_app_name : Request :=
  {| method := "POST"; path := "/tasks/App"; user := 7; organization := 1;
     POST := [("question", "3"); ("method", "save"); ("value", "Mail")];
     GET := []; FILES := []; now := 260 |}.

(** ** The site around the database

    A board of discussions, the team of the project and an invitation. *)

Record Thread : Type := {
  th_id : Z;
  th_organization : Z;
  th_answer : Z;
  th_task : Z
}.

#[export] Instance board : Forum := {|
  discussions := list Thread;
  Discussion_get_for :=
    fun l org tq =>
      option_map th_id
        (find (fun d => (th_organization d =? org) && (th_answer d =? ta_id tq))
              l);
  Discussion_create_for :=
    fun l org tq =>
      let d := {| th_id := next_id (map th_id l); th_organization := org;
                  th_answer := ta_id tq; th_task := ta_task tq |} in
      (th_id d, l ++ [d]);
  render_context_dict :=
    fun l d u =>
      match find (fun x => th_id x =? d) l with
      | Some _ => [("status", "ok")]
      | None => [("status", "error")]
      end;
  attached_task :=
    fun l d =>
      match find (fun x => th_id x =? d) l with
      | Some x => th_task x
      | None => 0
      end
|}.

#[export] Instance office : SiteHost := {|
  project_has_read_priv :=
    fun site p u =>
      existsb (fun pm => (pm_project pm =? p_id p) && (pm_user pm =? u))
              (memberships site);
  project_get_absolute_url :=
    fun p => if p_id p =? 1 then "/projects/1/alpha" else "/projects/2/omega";
  get_discussions_in_project_as_guest := fun _ _ _ => [];
  get_admins :=
    fun site p =>
      map pm_user
          (filter (fun pm => (pm_project pm =? p_id p) && pm_is_admin pm)
                  (memberships site));
  is_account_project := fun _ => false;
  project_title := fun p => if p_id p =? 1 then "Alpha" else "Omega";
  spec_tab := fun _ => None;
  spec_group := fun _ => None;
  spec_module_id := mq_answer_type_module;
  has_introduction := fun _ => false;
  render_introduction := fun _ _ => Ret "";
  is_expired := fun i t => inv_created i + 7 <? t;
  form_context_dict := fun _ _ _ => [];
  user_str := fun u => if u =? 7 then "ann" else "bob"
|}.

Definition ann_leads : ProjectMembership :=
  {| pm_project := 1; pm_user := 7; pm_is_admin := true |}.

Definition bob_is_invited : Invitation :=
  {| inv_id := 1; inv_from_user := 7; inv_from_project := Some 1;
     inv_into_project := true; inv_target := Some (TargetProject 1);
     inv_target_info := What "join-team"; inv_to_user := None;
     inv_to_email := Some "bob@example.org"; inv_text := "Join us";
     inv_email_invitation_code := "c0de"; inv_created := 198;
     inv_accepted_at := None; inv_accepted_user := None;
     inv_revoked_at := None |}.

Definition the_site : Site :=
  {| site_db := db; memberships := [ann_leads];
     invitations := [bob_is_invited]; threads := [] |}.

(** The page of the project under its canonical path, and under another. *)
Definition view_project := view "/projects/1/alpha".
Definition view_project_by_id := view "/projects/1".

(** The apps of the project have an Answer, which has no history. *)
Definition db_no_history : State :=
  {| modules := modules db; questions := questions db;
     projects := projects db; tasks := tasks db;
     task_answers := task_answers db;
     answer_history := [answer 2 (VStr "Alpha") []]; events := [] |}.

Definition site_no_history : Site := with_site_db db_no_history the_site.

(** The apps of the project have no Answer yet. *)
Definition db_unanswered : State :=
  {| modules := modules db; questions := questions db;
     projects := projects db; tasks := tasks db;
     task_answers := [ {| ta_id := 2; ta_task := 1; ta_question := 1 |} ];
     answer_history := [answer 2 (VStr "Alpha") []]; events := [] |}.

Definition site_unanswered : Site := with_site_db db_unanswered the_site.

Definition discuss_apps := post 7 [("task", "1"); ("question", "2")].

(** The name of the project is under discussion; a stranger asks for the
    discussion. *)
Definition site_discussed : Site :=
  with_threads [ {| th_id := 1; th_organization := 1; th_answer := 2;
                    th_task := 1 |} ] the_site.

Definition stranger_discusses_name :=
  post 9 [("task", "1"); ("question", "1")].

Definition cancel_bob := post 7 [("id", "1")].



End Cases.

(** * Properties *)

Section Properties.

Context {host : Host}.

(** ** The monad *)

Lemma bind_ret_inv {A B : Type} (m : M A) (k : A -> M B) (s s' : State) (b : B) :
  bind m k s = (Ret b, s') ->
  exists a s1, m s = (Ret a, s1) /\ k a s1 = (Ret b, s').
Proof.
  unfold bind. destruct (m s) as [[a | e] s1]; intros H.
  - exists a, s1. split; [reflexivity | exact H].
  - discriminate H.
Qed.



Lemma read_only_ret {A : Type} (a : A) : read_only (ret a).
Proof. intros s. reflexivity. Qed.

Lemma read_only_raise {A : Type} (e : exn) : read_only (@raise A e).
Proof. intros s. reflexivity. Qed.

Lemma read_only_read {A : Type} (f : State -> A) : read_only (read f).
Proof. intros s. reflexivity. Qed.

Lemma read_only_lift {A : Type} (o : outcome A) : read_only (lift o).
Proof. intros s. reflexivity. Qed.

Lemma read_only_bind {A B : Type} (m : M A) (k : A -> M B) :
  read_only m -> (forall a, read_only (k a)) -> read_only (bind m k).
Proof.
  intros Hm Hk s. unfold bind.
  specialize (Hm s). destruct (m s) as [[a | e] s1]; simpl in Hm; subst s1.
  - apply Hk.
  - reflexivity.
Qed.

Lemma read_only_run {A : Type} (m : M A) (s : State) :
  read_only m -> m s = (fst (m s), s).
Proof.
  intros H. specialize (H s). destruct (m s) as [o s1]. simpl in *. now subst.
Qed.

Create HintDb ro.

#[local] Hint Resolve read_only_ret read_only_raise read_only_read
  read_only_lift : ro.

Lemma read_only_to_pk (v : string) : read_only (to_pk v).
Proof. unfold to_pk. destruct (py_int v); auto with ro. Qed.

Lemma read_only_get_task_or_404 (id org : Z) : read_only (get_task_or_404 id org).
Proof.
  unfold get_task_or_404. apply read_only_bind; auto with ro.
  intros [t |]; auto with ro.
Qed.

Lemma read_only_Task_get (id : Z) : read_only (Task_get id).
Proof.
  unfold Task_get. apply read_only_bind; auto with ro.
  intros [t |]; auto with ro.
Qed.

Lemma read_only_questions_get_id (task : Task) (v : option string) :
  read_only (questions_get_id task v).
Proof.
  unfold questions_get_id. destruct v as [v |]; auto with ro.
  apply read_only_bind; [apply read_only_to_pk |].
  intros id. apply read_only_bind; auto with ro.
  intros [q |]; auto with ro.
Qed.

Lemma read_only_questions_get_key (task : Task) (key : string) :
  read_only (questions_get_key task key).
Proof.
  unfold questions_get_key. apply read_only_bind; auto with ro.
  intros [q |]; auto with ro.
Qed.

Lemma read_only_except_DoesNotExist {A : Type} (m : M A) (r : response) :
  read_only m -> read_only (except_DoesNotExist m r).
Proof.
  intros H s. unfold except_DoesNotExist. specialize (H s).
  destruct (m s) as [[a | e] s1]; simpl in *; subst; [reflexivity |].
  destruct e; reflexivity.
Qed.

Lemma read_only_since_first_show (req : Request) (task : Task) (q : ModuleQuestion) :
  read_only (since_first_show req task q).
Proof. unfold since_first_show. auto with ro. Qed.

#[local] Hint Resolve read_only_to_pk read_only_get_task_or_404
  read_only_Task_get read_only_questions_get_id read_only_questions_get_key
  read_only_since_first_show : ro.

(** Unfolds the monad down to functions on states. *)
Ltac run_M :=
  repeat progress
    (unfold bind, lift, read, ret, raise, write, to_pk, get_task_or_404,
       Task_get, create_event, add_history; cbv beta).

(** ** Soft deletion of a Task *)

Lemma only_deleted_at_differs_refl (s : State) : only_deleted_at_differs s s.
Proof. repeat split. Qed.

Lemma set_deleted_at_twice (d d' : option Z) (t : Task) :
  set_deleted_at d (set_deleted_at d' t) = set_deleted_at d t.
Proof. reflexivity. Qed.


Lemma save_deleted_at_frame (id : Z) (d : option Z) (s : State) :
  only_deleted_at_differs s (save_deleted_at id d s).
Proof.
  repeat split. simpl. rewrite map_map. apply map_ext.
  intros t. destruct (t_id t =? id); reflexivity.
Qed.

Lemma change_task_state_cases (req : Request) (s : State) :
  snd (change_task_state req s) = s \/
  exists id d, snd (change_task_state req s) = save_deleted_at id d s.
Proof.
  unfold change_task_state.
  destruct (negb (method req =? "POST")%string); [left; reflexivity |].
  run_M.
  destruct (getitem (POST req) "id") as [sid | e]; [| left; reflexivity].
  destruct (py_int sid) as [id |]; [| left; reflexivity].
  destruct (find (fun t => (t_id t =? id) && in_organization s t (organization req))
                 (tasks s)) as [task |]; [| left; reflexivity].
  destruct (negb (has_write_priv s task (user req) true)); [left; reflexivity |].
  destruct (getitem (POST req) "state") as [st | e]; [| left; reflexivity].
  destruct (st =? "delete")%string; [right; do 2 eexists; reflexivity |].
  destruct (st =? "undelete")%string; [right; do 2 eexists; reflexivity |].
  left; reflexivity.
Qed.

(** Whatever the request, [change_task_state] writes no table but Task, and
    no column of Task but [deleted_at]. *)
Lemma change_task_state_frame (req : Request) (s : State) :
  only_deleted_at_differs s (snd (change_task_state req s)).
Proof.
  destruct (change_task_state_cases req s) as [-> | (id & d & ->)].
  - apply only_deleted_at_differs_refl.
  - apply save_deleted_at_frame.
Qed.




Lemma unique_ids_find (l : list Task) (t t' : Task) :
  unique_ids (map t_id l) = true ->
  In t l -> In t' l -> t_id t = t_id t' -> t = t'.
Proof.
  induction l as [| x l IH]; [intros _ [] |].
  simpl. intros Hu [-> | Ht] [-> | Ht'] E;
    apply andb_prop in Hu; destruct Hu as [Hx Hu].
  - reflexivity.
  - exfalso. apply negb_true_iff in Hx.
    assert (existsb (Z.eqb (t_id t)) (map t_id l) = true) as Hc.
    { apply existsb_exists. exists (t_id t'). split.
      - apply in_map, Ht'.
      - apply Z.eqb_eq, E. }
    congruence.
  - exfalso. apply negb_true_iff in Hx.
    assert (existsb (Z.eqb (t_id t')) (map t_id l) = true) as Hc.
    { apply existsb_exists. exists (t_id t). split.
      - apply in_map, Ht.
      - apply Z.eqb_eq. symmetry. exact E. }
    congruence.
  - apply IH; assumption.
Qed.







(** ** Frames: what a computation leaves related *)

Section Frames.

Variable R : State -> State -> Prop.
Hypothesis R_refl : forall s, R s s.
Hypothesis R_trans : forall a b c, R a b -> R b c -> R a c.

Lemma keeps_read_only {A : Type} (m : M A) : read_only m -> keeps R m.
Proof. intros H s. rewrite H. apply R_refl. Qed.

Lemma keeps_bind {A B : Type} (m : M A) (k : A -> M B) :
  keeps R m -> (forall a, keeps R (k a)) -> keeps R (bind m k).
Proof.
  intros Hm Hk s. unfold bind. specialize (Hm s).
  destruct (m s) as [[a | e] s1]; simpl in Hm.
  - eapply R_trans; [exact Hm | apply Hk].
  - exact Hm.
Qed.

Lemma keeps_map_M {A B : Type} (f : A -> M B) (l : list A) :
  (forall a, keeps R (f a)) -> keeps R (map_M f l).
Proof.
  intros Hf. induction l as [| x l IH]; simpl.
  - apply keeps_read_only, read_only_ret.
  - apply keeps_bind; [apply Hf |]. intros y.
    apply keeps_bind; [exact IH |]. intros ys.
    apply keeps_read_only, read_only_ret.
Qed.

Lemma keeps_if {A : Type} (b : bool) (m1 m2 : M A) :
  keeps R m1 -> keeps R m2 -> keeps R (if b then m1 else m2).
Proof. destruct b; auto. Qed.

End Frames.

Lemma read_only_map_M {A B : Type} (f : A -> M B) (l : list A) :
  (forall a, read_only (f a)) -> read_only (map_M f l).
Proof.
  intros Hf. induction l as [| x l IH]; simpl; auto with ro.
  apply read_only_bind; [apply Hf |]. intros y.
  apply read_only_bind; [exact IH |]. intros ys. auto with ro.
Qed.

Lemma read_only_resolve (keys : list string) (task : Task)
    (qs : list ModuleQuestion) (acc : ModuleAnswers) :
  read_only (resolve keys task qs acc).
Proof.
  revert acc. induction qs as [| q qs IH]; intros acc; simpl; auto with ro.
  destruct (negb (forallb _ _)); auto with ro.
  destruct (negb (forallb _ _)); [apply IH |].
  destruct (negb (eval_cond _ _)); [apply IH |].
  apply read_only_bind; auto with ro.
  intros [h |]; apply IH.
Qed.

Lemma read_only_with_extended_info (task : Task) :
  read_only (with_extended_info task).
Proof.
  unfold with_extended_info. apply read_only_bind; auto with ro.
  intros qs. apply read_only_resolve.
Qed.

Lemma read_only_render_document (d : list (string * value)) (hard_fail : bool)
    (od : OutputDocument) :
  read_only (render_document d hard_fail od).
Proof.
  unfold render_document. destruct (render_content _ _); auto with ro.
  destruct hard_fail; auto with ro.
Qed.

Lemma read_only_render_output_documents (task : Task)
    (answers : option ModuleAnswers) (hard_fail : bool) :
  read_only (render_output_documents task answers hard_fail).
Proof.
  unfold render_output_documents. apply read_only_bind.
  - destruct answers; auto with ro. apply read_only_with_extended_info.
  - intros a. apply read_only_bind; auto with ro.
    intros [m |]; auto with ro.
    apply read_only_map_M. intros od. apply read_only_render_document.
Qed.

Lemma read_only_read_priv (req : Request) (task : Task)
    (taskq : option TaskAnswer) :
  read_only (read_priv req task taskq).
Proof. unfold read_priv. auto with ro. Qed.

Lemma read_only_Task_get_item (item : string) : read_only (Task_get_item item).
Proof. unfold Task_get_item. destruct (py_int item); auto with ro. Qed.

#[local] Hint Resolve read_only_with_extended_info
  read_only_render_output_documents read_only_read_priv
  read_only_Task_get_item : ro.

(** What [next_question] keeps: any relation that holds across each of its
    writes, which append a TaskAnswer, a Task, a history entry, or an event
    that is no first interaction. *)
Section NextQuestionFrame.

Variable R : State -> State -> Prop.
Hypothesis R_refl : forall s, R s s.
Hypothesis R_trans : forall a b c, R a b -> R b c -> R a c.
Hypothesis R_task_answer :
  forall a s, R s (with_task_answers (task_answers s ++ [a]) s).
Hypothesis R_task : forall t s, R s (with_tasks (tasks s ++ [t]) s).
Hypothesis R_history :
  forall h s, R s (with_answer_history (answer_history s ++ [h]) s).
Hypothesis R_event :
  forall e s, ev_event_type e <> interact_first ->
              R s (with_events (events s ++ [e]) s).

Lemma keeps_bind_returns {A B : Type} (m : M A) (k : A -> M B)
    (Q : A -> Prop) :
  keeps R m -> returns m Q -> (forall a, Q a -> keeps R (k a)) ->
  keeps R (bind m k).
Proof.
  intros Hm Hq Hk s. unfold bind. specialize (Hm s). specialize (Hq s).
  destruct (m s) as [[a | e] s1]; simpl in *.
  - eapply R_trans; [exact Hm | apply Hk, Hq; reflexivity].
  - exact Hm.
Qed.

Ltac keeps_step :=
  first
    [ apply (keeps_read_only R R_refl); solve [auto with ro]
    | apply (keeps_bind R R_trans); [| intros ?]
    | apply (keeps_if R) ].

Lemma keeps_create_event (e : InstrumentationEvent) :
  ev_event_type e <> interact_first -> keeps R (create_event e).
Proof. intros H s. apply R_event, H. Qed.

Lemma keeps_add_history (h : TaskAnswerHistory) : keeps R (add_history h).
Proof. intros s. apply R_history. Qed.

Lemma keeps_TaskAnswer_get_or_create (task : Task) (q : ModuleQuestion) :
  keeps R (TaskAnswer_get_or_create task q).
Proof.
  unfold TaskAnswer_get_or_create. keeps_step; [keeps_step |].
  destruct a; repeat keeps_step.
  intros s. apply R_task_answer.
Qed.

Lemma keeps_Task_create (a : TaskAnswer) (editor : User) (project : Z)
    (m : Module) (title : string) (t : Z) :
  keeps R (Task_create a editor project m title t).
Proof.
  unfold Task_create. keeps_step; [keeps_step |].
  keeps_step; [intros s; apply R_task |].
  keeps_step; [| keeps_step].
  apply keeps_create_event. discriminate.
Qed.

Lemma keeps_clear_answer (a : TaskAnswer) (u : User) (t : Z) :
  keeps R (clear_answer a u t).
Proof.
  unfold clear_answer. keeps_step; [keeps_step |].
  keeps_step; [| keeps_step].
  keeps_step; [apply keeps_add_history | keeps_step].
Qed.

Lemma keeps_save_answer (a : TaskAnswer) (v : value) (ts : list Z) (f : value)
    (u : User) (t : Z) :
  keeps R (save_answer a v ts f u t).
Proof.
  unfold save_answer. keeps_step; [keeps_step |].
  keeps_step; [keeps_step |].
  keeps_step; [apply keeps_add_history | keeps_step].
Qed.

Lemma keeps_fetch_answered_by (req : Request) (task : Task)
    (q : ModuleQuestion) (question : TaskAnswer) (v : value) (cleared : bool)
    (redirect : string) :
  keeps R (fetch_answered_by req task q question v cleared redirect).
Proof.
  unfold fetch_answered_by.
  keeps_step; [| keeps_step; keeps_step].
  keeps_step.
  - destruct (mq_answer_type_module q); [| keeps_step].
    keeps_step; [keeps_step |].
    destruct a; [| keeps_step].
    keeps_step; [apply keeps_Task_create | keeps_step].
  - destruct v; try keeps_step.
    + apply (keeps_read_only R R_refl), read_only_map_M.
      intros item. auto with ro.
    + keeps_step; [keeps_step |]. repeat keeps_step.
Qed.

Lemma returns_record_answer (req : Request) (question : TaskAnswer)
    (cleared : bool) (r : recorded) :
  returns (record_answer req question cleared r)
          (fun ty => In ty ["clear"; "skip"; "change"; "answer"; "keep"]).
Proof.
  intros s ty. unfold record_answer, clear_answer, save_answer. run_M.
  destruct cleared.
  - destruct (has_answer s question); simpl; intros [= <-]; simpl; auto.
  - destruct (match get_current_answer s question with
              | Some h => _
              | None => false
              end); simpl.
    + intros [= <-]; simpl; auto 6.
    + destruct (method_is req "skip"); [intros [= <-]; simpl; auto 6 |].
      destruct (has_answer s question); intros [= <-]; simpl; auto 6.
Qed.

Lemma keeps_record_answer (req : Request) (question : TaskAnswer)
    (cleared : bool) (r : recorded) :
  keeps R (record_answer req question cleared r).
Proof.
  unfold record_answer. keeps_step.
  - keeps_step; [apply keeps_clear_answer | keeps_step].
  - keeps_step; [keeps_step |].
    keeps_step; [apply keeps_save_answer |].
    repeat keeps_step.
Qed.

Lemma answer_event_is_no_interaction (ty : string) :
  In ty ["clear"; "skip"; "change"; "answer"; "keep"] ->
  String.append "task-question-" ty <> interact_first.
Proof.
  simpl. intros [<- | [<- | [<- | [<- | [<- | []]]]]]; discriminate.
Qed.

Lemma keeps_next_question_post (req : Request) (task : Task)
    (answered : ModuleAnswers) :
  keeps R (next_question_post req task answered).
Proof.
  unfold next_question_post. keeps_step; [keeps_step |].
  keeps_step; [keeps_step |].
  keeps_step; [keeps_step |].
  keeps_step; [keeps_step |].
  destruct a1 as [r | v cleared]; [keeps_step |].
  unfold record_proposal.
  keeps_step; [apply keeps_TaskAnswer_get_or_create |].
  keeps_step; [apply keeps_fetch_answered_by |].
  eapply keeps_bind_returns;
    [apply keeps_record_answer | apply returns_record_answer |].
  intros ty Hty. keeps_step; [keeps_step |].
  keeps_step; [| keeps_step].
  apply keeps_create_event. simpl. apply answer_event_is_no_interaction, Hty.
Qed.

Lemma keeps_finished_page (req : Request) (task : Task)
    (answered : ModuleAnswers) (g w : bool) :
  keeps R (finished_page req task answered g w).
Proof.
  unfold finished_page. keeps_step; [keeps_step |].
  keeps_step; [keeps_step |].
  keeps_step.
  - apply keeps_create_event. simpl. destruct a; discriminate.
  - keeps_step; [keeps_step |].
    keeps_step; [| keeps_step].
    apply (keeps_read_only R R_refl), read_only_map_M.
    intros key. apply read_only_bind; auto with ro.
    intros q1. apply read_only_bind; auto with ro.
Qed.

Lemma keeps_question_page (req : Request) (task : Task)
    (answered : ModuleAnswers) (q : ModuleQuestion)
    (taskq : option TaskAnswer) (g w : bool) :
  keeps R (question_page req task answered q taskq g w).
Proof.
  unfold question_page. keeps_step; [keeps_step |].
  keeps_step; [destruct (mq_answer_type_module q); keeps_step |].
  keeps_step; [keeps_step |].
  keeps_step.
  - destruct a1 as [e |]; [| keeps_step].
    destruct (ev_event_value e); keeps_step.
  - keeps_step; [apply keeps_create_event; discriminate |].
    repeat keeps_step.
Qed.

Lemma keeps_next_question_get (req : Request) (task : Task)
    (answered : ModuleAnswers) :
  keeps R (next_question_get req task answered).
Proof.
  unfold next_question_get. keeps_step.
  - keeps_step; [| keeps_step]. repeat keeps_step.
  - keeps_step; [keeps_step |].
    keeps_step; [keeps_step |].
    keeps_step; [keeps_step |].
    destruct (t_deleted_at task); [keeps_step |].
    keeps_step; [keeps_step |].
    keeps_step; [keeps_step |].
    keeps_step; [keeps_step |].
    destruct a as [q |].
    + apply keeps_question_page.
    + apply keeps_finished_page.
Qed.

Lemma keeps_next_question (req : Request) (taskid : Z) :
  keeps R (next_question req taskid).
Proof.
  unfold next_question. keeps_step; [keeps_step |].
  keeps_step; [keeps_step |].
  keeps_step.
  - apply keeps_next_question_post.
  - apply keeps_next_question_get.
Qed.

End NextQuestionFrame.

(** ** The first interaction with a question is recorded once *)

Lemma other_events_only_refl (s : State) : other_events_only s s.
Proof. exists []. split; [symmetry; apply app_nil_r | constructor]. Qed.

Lemma other_events_only_same_events (s s' : State) :
  events s' = events s -> other_events_only s s'.
Proof.
  intros E. exists []. split; [rewrite E; symmetry; apply app_nil_r | constructor].
Qed.

Lemma other_events_only_trans (a b c : State) :
  other_events_only a b -> other_events_only b c -> other_events_only a c.
Proof.
  intros (l1 & E1 & F1) (l2 & E2 & F2). exists (l1 ++ l2). split.
  - rewrite E2, E1. symmetry. apply app_assoc.
  - apply Forall_app. split; assumption.
Qed.

Lemma other_events_only_event (e : InstrumentationEvent) (s : State) :
  ev_event_type e <> interact_first ->
  other_events_only s (with_events (events s ++ [e]) s).
Proof. intros H. exists [e]. split; [reflexivity | repeat constructor; exact H]. Qed.

Lemma next_question_other_events_only (req : Request) (taskid : Z) (s : State) :
  other_events_only s (snd (next_question req taskid s)).
Proof.
  apply (keeps_next_question other_events_only).
  - apply other_events_only_refl.
  - apply other_events_only_trans.
  - intros a s0. apply other_events_only_same_events. reflexivity.
  - intros t s0. apply other_events_only_same_events. reflexivity.
  - intros h s0. apply other_events_only_same_events. reflexivity.
  - apply other_events_only_event.
Qed.

Lemma events_for_app (s : State) (l : list InstrumentationEvent) (u : User)
    (ty : string) (task : Z) (q : option Z) :
  events_for (with_events (events s ++ l) s) u ty task q =
  events_for s u ty task q ++ events_for (with_events l s) u ty task q.
Proof. unfold events_for. simpl. apply filter_app. Qed.

Lemma events_for_same_events (s s' : State) (u : User) (ty : string)
    (task : Z) (q : option Z) :
  events s' = events s -> events_for s' u ty task q = events_for s u ty task q.
Proof. unfold events_for. intros ->. reflexivity. Qed.

Lemma no_interaction_among (l : list InstrumentationEvent) (s : State)
    (u : User) (task : Z) (q : option Z) :
  Forall (fun e => ev_event_type e <> interact_first) l ->
  events_for (with_events l s) u interact_first task q = [].
Proof.
  unfold events_for. simpl.
  induction 1 as [| e l He _ IH]; [reflexivity |].
  simpl. rewrite IH.
  destruct (String.eqb_spec (ev_event_type e) interact_first) as [E | _].
  - contradiction.
  - rewrite andb_false_r. reflexivity.
Qed.

Lemma other_events_only_count (s s' : State) (u : User) (task q : Z) :
  other_events_only s s' ->
  interact_first_count s' u task q = interact_first_count s u task q.
Proof.
  intros (l & E & F). unfold interact_first_count.
  rewrite (events_for_same_events (with_events (events s ++ l) s) s')
    by exact E.
  rewrite events_for_app, no_interaction_among by exact F.
  rewrite app_nil_r. reflexivity.
Qed.

(** What [instrumentation_record_interaction] does to the tables: nothing,
    or it appends the first-interaction event of the user for the task and
    the question the request names, of which there was none. *)
Lemma record_interaction_cases (req : Request) (s : State) :
  snd (instrumentation_record_interaction req s) = s \/
  exists id task qid q v a,
    names_question req id qid /\
    find (fun t => (t_id t =? id) && in_organization s t (organization req))
         (tasks s) = Some task /\
    find (fun q => mq_id q =? qid) (module_questions s (t_module task))
      = Some q /\
    events_for s (user req) interact_first (t_id task) (Some (mq_id q)) = [] /\
    snd (instrumentation_record_interaction req s) =
      with_events
        (events s ++
         [mk_event req interact_first v task (Some (mq_id q)) a None]) s.
Proof.
  unfold instrumentation_record_interaction, names_question.
  destruct (String.eqb_spec (method req) "POST") as [Hm | Hm];
    [| left; reflexivity].
  simpl. unfold except_DoesNotExist, questions_get_id, since_first_show, getitem.
  run_M.
  destruct (get (POST req) "task") as [sid |]; [| left; reflexivity].
  destruct (py_int sid) as [id |] eqn:Hid; [| left; reflexivity].
  destruct (find (fun t => (t_id t =? id) &&
                           in_organization s t (organization req)) (tasks s))
    as [task |] eqn:Htask; [| left; reflexivity].
  destruct (negb (has_read_priv s task (user req) false)); [left; reflexivity |].
  destruct (get (POST req) "question") as [sq |]; [| left; reflexivity].
  run_M.
  destruct (py_int sq) as [qid |] eqn:Hqid; [| left; reflexivity].
  destruct (find (fun q => mq_id q =? qid) (module_questions s (t_module task)))
    as [q |] eqn:Hq; [| left; reflexivity].
  destruct (events_for s (user req) "task-question-interact-first" (t_id task)
                       (Some (mq_id q))) as [| e l] eqn:Hev;
    [| left; reflexivity].
  right. exists id, task, qid, q. do 2 eexists.
  split; [split; [exact Hm | split; eauto] |].
  split; [exact Htask |]. split; [exact Hq |]. split; [exact Hev |].
  reflexivity.
Qed.

Lemma record_interaction_noop (req : Request) (s : State) (task : Task)
    (q : ModuleQuestion) :
  names_question req (t_id task) (mq_id q) ->
  find (fun t => (t_id t =? t_id task) &&
                 in_organization s t (organization req)) (tasks s)
    = Some task ->
  has_read_priv s task (user req) false = true ->
  find (fun q' => mq_id q' =? mq_id q) (module_questions s (t_module task))
    = Some q ->
  events_for s (user req) interact_first (t_id task) (Some (mq_id q)) <> [] ->
  instrumentation_record_interaction req s = (Ret (HttpResponse "ok"), s).
Proof.
  intros (Hm & (sid & Hs & Hid) & (sq & Hsq & Hqid)) Htask Hpriv Hq Hev.
  unfold instrumentation_record_interaction. rewrite Hm. simpl.
  unfold except_DoesNotExist, questions_get_id, getitem. run_M.
  rewrite Hs, Hid, Htask, Hpriv, Hsq. simpl. run_M. rewrite Hqid, Hq.
  fold interact_first.
  destruct (events_for s (user req) interact_first (t_id task) (Some (mq_id q)));
    [contradiction | reflexivity].
Qed.

Lemma mk_event_matches (req : Request) (v : option Z) (task : Task) (q : Z)
    (a : option Z) (s : State) :
  events_for
    (with_events [mk_event req interact_first v task (Some q) a None] s)
    (user req) interact_first (t_id task) (Some q)
  = [mk_event req interact_first v task (Some q) a None].
Proof.
  unfold events_for. simpl. rewrite !Z.eqb_refl. reflexivity.
Qed.

Lemma record_interaction_once (req : Request) (s : State) :
  interact_first_once s ->
  interact_first_once (snd (instrumentation_record_interaction req s)).
Proof.
  intros Hs.
  destruct (record_interaction_cases req s)
    as [-> | (id & task & qid & q & v & a & _ & _ & _ & Hnone & ->)];
    [exact Hs |].
  intros u t q'. unfold interact_first_count.
  rewrite events_for_app, length_app.
  unfold events_for at 2. simpl.
  destruct ((user req =? u) && true &&
            (t_id task =? t) && (mq_id q =? q')) eqn:E; simpl.
  - apply andb_prop in E. destruct E as [E Eq].
    apply andb_prop in E. destruct E as [E Et].
    apply andb_prop in E. destruct E as [Eu _].
    apply Z.eqb_eq in Eu, Et, Eq. subst u t q'.
    rewrite Hnone. simpl. lia.
  - specialize (Hs u t q'). unfold interact_first_count in Hs. lia.
Qed.

Lemma names_question_functional (req : Request) (id id' q q' : Z) :
  names_question req id q -> names_question req id' q' -> id = id' /\ q = q'.
Proof.
  intros (_ & (sid & Hs & Hid) & (sq & Hsq & Hq))
         (_ & (sid' & Hs' & Hid') & (sq' & Hsq' & Hq')).
  rewrite Hs in Hs'. injection Hs' as <-.
  rewrite Hsq in Hsq'. injection Hsq' as <-.
  split; congruence.
Qed.

Lemma record_interaction_idempotent (req : Request) (s : State) :
  snd (instrumentation_record_interaction
         req (snd (instrumentation_record_interaction req s)))
  = snd (instrumentation_record_interaction req s).
Proof.
  destruct (record_interaction_cases req s)
    as [E | (id & task & qid & q & v & a & Hn & Ht & Hq & Hnone & E)].
  - rewrite E. exact E.
  - rewrite E.
    destruct (record_interaction_cases req
                (with_events
                   (events s ++
                    [mk_event req interact_first v task (Some (mq_id q)) a None])
                   s))
      as [E' | (id' & task' & qid' & q' & v' & a' & Hn' & Ht' & Hq' & Hnone' & _)];
      [exact E' | exfalso].
    destruct (names_question_functional _ _ _ _ _ Hn Hn') as [<- <-].
    unfold in_organization, find_project in Ht'. simpl in Ht'.
    unfold in_organization, find_project in Ht.
    rewrite Ht in Ht'. injection Ht' as <-.
    unfold module_questions in Hq'. simpl in Hq'.
    unfold module_questions in Hq. rewrite Hq in Hq'. injection Hq' as <-.
    rewrite events_for_app, mk_event_matches in Hnone'.
    destruct (events_for s (user req) interact_first (t_id task)
                         (Some (mq_id q))); discriminate Hnone'.
Qed.

Lemma step_once (s s' : State) :
  step s s' -> interact_first_once s -> interact_first_once s'.
Proof.
  intros [req taskid s1 | req s1 | req s1] H.
  - intros u t q.
    rewrite (other_events_only_count s1); [apply H |].
    apply next_question_other_events_only.
  - apply record_interaction_once, H.
  - intros u t q.
    rewrite (other_events_only_count s1); [apply H |].
    apply other_events_only_same_events.
    apply (change_task_state_frame req s1).
Qed.

(** C10. For every user, task and question at most one
    "task-question-interact-first" event is ever recorded: the property
    holds in every state the views lead to from a state where it holds; a
    record-interaction request for which such an event exists answers "ok"
    and leaves the state as it is; a repeated request writes nothing. *)
Theorem first_interaction_recorded_once (s0 s : State) :
  interact_first_once s0 ->
  reachable s0 s ->
  interact_first_once s /\
  (forall req task q,
      names_question req (t_id task) (mq_id q) ->
      find (fun t => (t_id t =? t_id task) &&
                     in_organization s t (organization req)) (tasks s)
        = Some task ->
      has_read_priv s task (user req) false = true ->
      find (fun q' => mq_id q' =? mq_id q)
           (module_questions s (t_module task)) = Some q ->
      events_for s (user req) interact_first (t_id task) (Some (mq_id q))
        <> [] ->
      instrumentation_record_interaction req s
        = (Ret (HttpResponse "ok"), s)) /\
  (forall req,
      snd (instrumentation_record_interaction
             req (snd (instrumentation_record_interaction req s)))
      = snd (instrumentation_record_interaction req s)).
Proof.
  intros H0 Hr. split; [| split].
  - induction Hr as [| s1 s2 _ IH Hstep]; [exact H0 |].
    eapply step_once; eassumption.
  - intros req task q. apply record_interaction_noop.
  - intros req. apply record_interaction_idempotent.
Qed.

(** ** Saving needs the write privilege *)

Lemma next_question_run (req : Request) (taskid : Z) (s : State) (task : Task) :
  find (fun t => (t_id t =? taskid) && in_organization s t (organization req))
       (tasks s) = Some task ->
  next_question req taskid s =
    match fst (with_extended_info task s) with
    | Ret answered =>
        if (method req =? "POST")%string
        then next_question_post req task answered s
        else next_question_get req task answered s
    | Raise e => (Raise e, s)
    end.
Proof.
  intros Hfind. unfold next_question. run_M. rewrite Hfind.
  pose proof (read_only_with_extended_info task s) as Hro.
  destruct (with_extended_info task s) as [[a | e] s1]; simpl in *; subst s1;
    [destruct (method req =? "POST")%string |]; reflexivity.
Qed.

(** C8. An answer-mutation request (save, skip or clear: any POST to
    [next_question]) by a user without the write privilege on the Task is
    answered with the forbidden response, and the state after it is the
    state before it: no TaskAnswer, history entry, Task or instrumentation
    event is created.  (Should the resolution of the answers itself fail,
    its exception is the outcome, and the state is still untouched.) *)
Theorem next_question_forbidden_without_write_priv
    (req : Request) (taskid : Z) (s : State) (task : Task) :
  method req = "POST" ->
  find (fun t => (t_id t =? taskid) && in_organization s t (organization req))
       (tasks s) = Some task ->
  has_write_priv s task (user req) false = false ->
  snd (next_question req taskid s) = s /\
  (forall answered,
      fst (with_extended_info task s) = Ret answered ->
      next_question req taskid s = (Ret HttpResponseForbidden, s)) /\
  (forall e,
      fst (with_extended_info task s) = Raise e ->
      next_question req taskid s = (Raise e, s)).
Proof.
  intros Hm Hfind Hpriv.
  rewrite (next_question_run req taskid s task Hfind), Hm. simpl.
  assert (forall answered,
             next_question_post req task answered s
             = (Ret HttpResponseForbidden, s)) as Hpost.
  { intros answered. unfold next_question_post. run_M.
    rewrite Hpriv. reflexivity. }
  split; [| split].
  - destruct (fst (with_extended_info task s)); [rewrite Hpost |]; reflexivity.
  - intros answered ->. apply Hpost.
  - intros e ->. reflexivity.
Qed.

(** ** Answering by reference to existing Tasks *)

Lemma next_question_post_run (req : Request) (task : Task)
    (answered : ModuleAnswers) (s : State) (q : ModuleQuestion) (v : value)
    (cleared : bool) :
  proposes req task answered s q v cleared ->
  next_question_post req task answered s = record_proposal req task q v cleared s.
Proof.
  intros (Hw & Hq & Hp). unfold next_question_post.
  unfold bind at 1. unfold read at 1. rewrite Hw. simpl.
  unfold bind at 1. rewrite Hq.
  unfold bind at 1. unfold lift at 1. rewrite Hp. reflexivity.
Qed.



Lemma read_only_result {A : Type} (m : M A) (s s' : State) (o : outcome A) :
  read_only m -> m s = (o, s') -> s' = s.
Proof. intros H E. specialize (H s). rewrite E in H. exact H. Qed.





(** ** The answer store: save, skip and clear *)

Lemma last_error_app {A : Type} (l : list A) (x : A) :
  last_error (l ++ [x]) = Some x.
Proof.
  induction l as [| y l IH]; [reflexivity |].
  simpl. destruct (l ++ [x]) eqn:E; [destruct l; discriminate E | exact IH].
Qed.

Lemma get_current_answer_added (s : State) (a : TaskAnswer)
    (h : TaskAnswerHistory) :
  h_taskanswer h = ta_id a ->
  get_current_answer (with_answer_history (answer_history s ++ [h]) s) a
    = Some h.
Proof.
  intros E. unfold get_current_answer. simpl.
  rewrite filter_app. simpl. rewrite E, Z.eqb_refl. apply last_error_app.
Qed.


Lemma list_string_eqb_refl (l : list string) : list_string_eqb l l = true.
Proof.
  induction l as [| x l IH]; [reflexivity |].
  simpl. rewrite String.eqb_refl. exact IH.
Qed.

Lemma list_Z_eqb_refl (l : list Z) : list_Z_eqb l l = true.
Proof.
  induction l as [| x l IH]; [reflexivity |].
  simpl. rewrite Z.eqb_refl. exact IH.
Qed.

Lemma value_eqb_refl (v : value) : value_eqb v v = true.
Proof.
  destruct v; simpl;
    auto using String.eqb_refl, list_string_eqb_refl, list_Z_eqb_refl.
Qed.


Lemma subset_Z_refl (l : list Z) : subset_Z l l = true.
Proof.
  unfold subset_Z. apply forallb_forall. intros x Hx.
  apply existsb_exists. exists x. split; [exact Hx | apply Z.eqb_refl].
Qed.

Lemma same_tasks_refl (l : list Z) : same_tasks l l = true.
Proof. unfold same_tasks. rewrite subset_Z_refl. reflexivity. Qed.


Lemma same_answer_entry (req : Request) (a : TaskAnswer) (r : recorded) :
  same_answer (entry_of req a r) (stored_value r)
              (map t_id (answered_by_tasks r)) (answered_by_file r) = true.
Proof.
  unfold same_answer. simpl.
  rewrite !value_eqb_refl, same_tasks_refl. reflexivity.
Qed.

(** Lines 157-169 of [next_question] over [save_answer]. *)
Lemma record_answer_save (req : Request) (a : TaskAnswer) (r : recorded)
    (s : State) :
  record_answer req a false r s =
    if differs_materially s a r then
      (Ret (if method_is req "skip" then "skip"
            else if has_answer s a then "change" else "answer"),
       with_answer_history (answer_history s ++ [entry_of req a r]) s)
    else (Ret "keep", s).
Proof.
  unfold record_answer, save_answer, differs_materially, has_answer. run_M.
  destruct (get_current_answer s a) as [h |]; simpl.
  - destruct (h_cleared h); simpl.
    + destruct (method_is req "skip"); reflexivity.
    + destruct (same_answer h _ _ _); simpl; [reflexivity |].
      destruct (method_is req "skip"); reflexivity.
  - destruct (method_is req "skip"); reflexivity.
Qed.

(** Lines 153-156 of [next_question] over [clear_answer]. *)
Lemma record_answer_clear (req : Request) (a : TaskAnswer) (r : recorded)
    (s : State) :
  record_answer req a true r s =
    (Ret "clear",
     if has_answer s a
     then with_answer_history (answer_history s ++ [cleared_entry req a]) s
     else s).
Proof.
  unfold record_answer, clear_answer. run_M.
  destruct (has_answer s a); reflexivity.
Qed.

Lemma record_answer_twice (req req' : Request) (a : TaskAnswer) (r : recorded)
    (s : State) :
  let s' := snd (record_answer req a false r s) in
  record_answer req' a false r s' = (Ret "keep", s').
Proof.
  intros s'. subst s'. rewrite (record_answer_save req).
  destruct (differs_materially s a r) eqn:D; cbn [snd].
  - rewrite record_answer_save. unfold differs_materially.
    rewrite get_current_answer_added by reflexivity.
    simpl. rewrite (same_answer_entry req a r). reflexivity.
  - rewrite record_answer_save, D. reflexivity.
Qed.

Lemma find_app_new {A : Type} (p : A -> bool) (l : list A) (x : A) :
  find p l = None -> p x = true -> find p (l ++ [x]) = Some x.
Proof.
  intros Hn Hx. induction l as [| y l IH]; simpl in *.
  - rewrite Hx. reflexivity.
  - destruct (p y); [discriminate Hn | apply IH, Hn].
Qed.

Lemma find_app_old {A : Type} (p : A -> bool) (l l' : list A) (x : A) :
  find p l = Some x -> find p (l ++ l') = Some x.
Proof.
  intros H. induction l as [| y l IH]; simpl in *; [discriminate H |].
  destruct (p y); [exact H | apply IH, H].
Qed.

(** [get_or_create] returns the TaskAnswer of the task and the question,
    which it appends when there was none. *)
Lemma TaskAnswer_get_or_create_spec (task : Task) (q : ModuleQuestion)
    (s : State) :
  exists a,
    fst (TaskAnswer_get_or_create task q s) = Ret a /\
    ta_task a = t_id task /\ ta_question a = mq_id q /\
    find_task_answer (snd (TaskAnswer_get_or_create task q s))
                     (t_id task) (mq_id q) = Some a /\
    (snd (TaskAnswer_get_or_create task q s) = s \/
     find_task_answer s (t_id task) (mq_id q) = None /\
     ta_id a = next_id (map ta_id (task_answers s)) /\
     snd (TaskAnswer_get_or_create task q s)
       = with_task_answers (task_answers s ++ [a]) s).
Proof.
  unfold TaskAnswer_get_or_create. run_M.
  destruct (find_task_answer s (t_id task) (mq_id q)) as [a |] eqn:E.
  - exists a. simpl. unfold find_task_answer in E.
    pose proof (find_some _ _ E) as [_ H].
    apply andb_prop in H. destruct H as [H1 H2].
    apply Z.eqb_eq in H1, H2. auto 6.
  - eexists. simpl. repeat split.
    + unfold find_task_answer. simpl. apply find_app_new; [exact E |].
      simpl. rewrite !Z.eqb_refl. reflexivity.
    + right. repeat split.
Qed.


Lemma record_proposal_inv (req : Request) (task : Task) (q : ModuleQuestion)
    (v : value) (cleared : bool) (s s' : State) (resp : response) :
  record_proposal req task q v cleared s = (Ret resp, s') ->
  exists question s1 r s2 ty s3 ev,
    TaskAnswer_get_or_create task q s = (Ret question, s1) /\
    fetch_answered_by req task q question v cleared (path req) s1
      = (Ret r, s2) /\
    record_answer req question cleared r s2 = (Ret ty, s3) /\
    since_first_show req task q s3 = (Ret ev, s3) /\
    resp = JsonOk (redirect_to r) /\
    s' = with_events (events s3 ++ [answer_event req task q question r ty ev])
                     s3.
Proof.
  unfold record_proposal. intros H.
  apply bind_ret_inv in H. destruct H as (question & s1 & H1 & H).
  apply bind_ret_inv in H. destruct H as (r & s2 & H2 & H).
  apply bind_ret_inv in H. destruct H as (ty & s3 & H3 & H).
  apply bind_ret_inv in H. destruct H as (ev & s4 & H4 & H).
  pose proof (read_only_result _ _ _ _
                (read_only_since_first_show req task q) H4). subst s4.
  exists question, s1, r, s2, ty, s3, ev.
  repeat (split; [assumption |]).
  unfold bind, create_event, write, ret in H. injection H as <- <-.
  split; reflexivity.
Qed.


Lemma same_definitions_refl (s : State) : same_definitions s s.
Proof. repeat split. Qed.

Lemma same_definitions_trans (a b c : State) :
  same_definitions a b -> same_definitions b c -> same_definitions a c.
Proof.
  intros (A1 & A2 & A3) (B1 & B2 & B3).
  repeat split; congruence.
Qed.

Lemma next_question_same_definitions (req : Request) (taskid : Z) (s : State) :
  same_definitions s (snd (next_question req taskid s)).
Proof.
  apply (keeps_next_question same_definitions).
  - apply same_definitions_refl.
  - apply same_definitions_trans.
  - intros; repeat split.
  - intros; repeat split.
  - intros; repeat split.
  - intros; repeat split.
Qed.


(** ** Resolution of the answers *)

Lemma resolve_cons (keys : list string) (task : Task) (q : ModuleQuestion)
    (rest : list ModuleQuestion) (acc : ModuleAnswers) (s : State) :
  resolve keys task (q :: rest) acc s =
    if negb (forallb (fun k => mem_string k keys) (cond_keys (mq_condition q)))
    then (Raise (ConfigurationError "undefined question key"), s)
    else if negb (forallb (dict_has (as_dict acc)) (cond_keys (mq_condition q)))
    then resolve keys task rest (add_not_yet_reachable q acc) s
    else if negb (eval_cond (as_dict acc) (mq_condition q))
    then resolve keys task rest (add_imputed q acc) s
    else match effective_answer s task q with
         | Some h => resolve keys task rest (add_answer q (get_value h) acc) s
         | None => resolve keys task rest (add_can_answer q acc) s
         end.
Proof.
  simpl.
  destruct (negb (forallb _ (cond_keys (mq_condition q)))); [reflexivity |].
  destruct (negb (forallb _ (cond_keys (mq_condition q)))); [reflexivity |].
  destruct (negb (eval_cond _ _)); [reflexivity |].
  unfold bind, read. destruct (effective_answer s task q); reflexivity.
Qed.




Lemma with_extended_info_run (task : Task) (s : State) :
  with_extended_info task s =
    resolve (map mq_key (module_questions s (t_module task))) task
            (module_questions s (t_module task)) no_answers s.
Proof. reflexivity. Qed.

(** ** Skip and clear *)





Lemma questions_get_id_found (task : Task) (v : option string) (s s' : State)
    (q : ModuleQuestion) :
  questions_get_id task v s = (Ret q, s') ->
  In q (module_questions s (t_module task)).
Proof.
  unfold questions_get_id. destruct v as [v |]; [| discriminate].
  run_M. destruct (py_int v); [| discriminate].
  destruct (find _ (module_questions s (t_module task))) as [q' |] eqn:E;
    [| discriminate].
  intros [= -> _]. apply find_some in E. apply E.
Qed.


(** ** Classification of a saved answer *)

Lemma differs_after_record (req : Request) (a : TaskAnswer) (r : recorded)
    (s : State) :
  differs_materially (snd (record_answer req a false r s)) a r = false.
Proof.
  rewrite record_answer_save.
  destruct (differs_materially s a r) eqn:D; cbn [snd]; [| exact D].
  unfold differs_materially.
  rewrite get_current_answer_added by reflexivity.
  simpl. rewrite (same_answer_entry req a r). reflexivity.
Qed.

(** C2 (amended). For every non-clear save of an answer that is accepted, a
    new history entry is created if and only if the proposed answer differs
    materially from the current one, and the event is classified from that
    and from the request: "keep" when nothing was recorded; "skip" when the
    answer was recorded by a skip request; "change" when it was recorded by
    a save request over an answer the question had; "answer" when it was
    recorded by a save request for a question that had none.  Recording the
    same answer again is classified "keep" and adds no history entry. *)
Theorem answer_event_classification
    (req : Request) (task : Task) (answered : ModuleAnswers) (s s' : State)
    (q : ModuleQuestion) (v : value) (resp : response) :
  proposes req task answered s q v false ->
  next_question_post req task answered s = (Ret resp, s') ->
  exists a r s2 ty ev,
    fst (TaskAnswer_get_or_create task q s) = Ret a /\
    fetch_answered_by req task q a v false (path req)
      (snd (TaskAnswer_get_or_create task q s)) = (Ret r, s2) /\
    answer_history s' =
      (if differs_materially s2 a r
       then answer_history s2 ++ [entry_of req a r]
       else answer_history s2) /\
    events s' = events s2 ++ [answer_event req task q a r ty ev] /\
    (differs_materially s2 a r = false -> ty = "keep") /\
    (differs_materially s2 a r = true -> method_is req "skip" = true ->
     ty = "skip") /\
    (differs_materially s2 a r = true -> method_is req "skip" = false ->
     has_answer s2 a = true -> ty = "change") /\
    (differs_materially s2 a r = true -> method_is req "skip" = false ->
     has_answer s2 a = false -> ty = "answer") /\
    (forall req', record_answer req' a false r s' = (Ret "keep", s')).
Proof.
  intros Hp Hrun. rewrite (next_question_post_run _ _ _ _ _ _ _ Hp) in Hrun.
  apply record_proposal_inv in Hrun.
  destruct Hrun as (a & s1 & r & s2 & ty & s3 & ev & H1 & H2 & H3 & _ & _ & ->).
  exists a, r, s2, ty, ev. rewrite H1. cbn [fst snd].
  split; [reflexivity |]. split; [exact H2 |].
  pose proof (differs_after_record req a r s2) as Hd.
  rewrite H3 in Hd. cbn [snd] in Hd.
  rewrite record_answer_save in H3.
  destruct (differs_materially s2 a r) eqn:D.
  - injection H3 as <- <-.
    cbn [answer_history events with_events with_answer_history].
    split; [reflexivity |]. split; [reflexivity |].
    split; [discriminate |].
    split; [intros _ ->; reflexivity |].
    split; [intros _ -> ->; reflexivity |].
    split; [intros _ -> ->; reflexivity |].
    intros req'. rewrite record_answer_save.
    change (differs_materially
              (with_events _ (with_answer_history _ s2)) a r)
      with (differs_materially
              (with_answer_history
                 (answer_history s2 ++ [entry_of req a r]) s2) a r).
    rewrite Hd. reflexivity.
  - injection H3 as <- <-.
    cbn [answer_history events with_events with_answer_history].
    split; [reflexivity |]. split; [reflexivity |].
    split; [reflexivity |].
    split; [discriminate |]. split; [discriminate |]. split; [discriminate |].
    intros req'. rewrite record_answer_save.
    change (differs_materially (with_events _ s2) a r)
      with (differs_materially s2 a r).
    rewrite D. reflexivity.
Qed.

(** ** Resolution is a read *)

Lemma only_events_differ_refl (s : State) : only_events_differ s s.
Proof. repeat split. Qed.

Lemma only_events_differ_trans (a b c : State) :
  only_events_differ a b -> only_events_differ b c -> only_events_differ a c.
Proof.
  intros (A1 & A2 & A3 & A4 & A5 & A6) (B1 & B2 & B3 & B4 & B5 & B6).
  repeat split; congruence.
Qed.

(** Showing a page writes instrumentation events and nothing else. *)
Lemma next_question_get_only_events (req : Request) (task : Task)
    (answered : ModuleAnswers) (s : State) :
  only_events_differ s (snd (next_question_get req task answered s)).
Proof.
  apply (keeps_next_question_get only_events_differ).
  - apply only_events_differ_refl.
  - apply only_events_differ_trans.
  - intros; repeat split.
Qed.

Lemma next_question_view_only_events (req : Request) (taskid : Z) (s : State) :
  (method req =? "POST")%string = false ->
  only_events_differ s (snd (next_question req taskid s)).
Proof.
  intros Hm. unfold next_question. run_M.
  destruct (find _ (tasks s)) as [task |];
    [| apply only_events_differ_refl].
  pose proof (read_only_with_extended_info task s) as Hro.
  destruct (with_extended_info task s) as [[a | e] s1]; simpl in Hro; subst s1;
    [| apply only_events_differ_refl].
  rewrite Hm. apply next_question_get_only_events.
Qed.

Lemma effective_answer_only_events (s s' : State) (task : Task)
    (q : ModuleQuestion) :
  only_events_differ s s' ->
  effective_answer s' task q = effective_answer s task q.
Proof.
  intros (_ & _ & _ & _ & Ha & Hh).
  unfold effective_answer, find_task_answer, get_current_answer.
  rewrite Ha, Hh. reflexivity.
Qed.

Lemma resolve_ext (keys : list string) (task : Task)
    (qs : list ModuleQuestion) (acc : ModuleAnswers) (s s' : State) :
  (forall q, effective_answer s' task q = effective_answer s task q) ->
  fst (resolve keys task qs acc s') = fst (resolve keys task qs acc s).
Proof.
  intros H. revert acc. induction qs as [| q qs IH]; intros acc;
    [reflexivity |].
  rewrite !resolve_cons, H.
  destruct (negb (forallb _ (cond_keys (mq_condition q)))); [reflexivity |].
  destruct (negb (forallb _ (cond_keys (mq_condition q)))); [apply IH |].
  destruct (negb (eval_cond _ _)); [apply IH |].
  destruct (effective_answer s task q); apply IH.
Qed.

(** C6. Resolving the answers of a Task reads the state and does not write
    it; resolving twice in a row gives the same answer set twice, and so
    does resolving again after pages of the task were viewed, as a view
    writes nothing but instrumentation events. *)
Theorem resolution_idempotent (task : Task) (s : State) :
  snd (with_extended_info task s) = s /\
  with_extended_info task (snd (with_extended_info task s))
    = with_extended_info task s /\
  (r1 <- with_extended_info task ;;
   r2 <- with_extended_info task ;;
   ret (r1, r2)) s =
    match fst (with_extended_info task s) with
    | Ret r => (Ret (r, r), s)
    | Raise e => (Raise e, s)
    end /\
  (forall req taskid,
      (method req =? "POST")%string = false ->
      fst (with_extended_info task (snd (next_question req taskid s)))
        = fst (with_extended_info task s)).
Proof.
  pose proof (read_only_with_extended_info task s) as Hro.
  split; [exact Hro |]. split; [rewrite Hro; reflexivity |]. split.
  - unfold bind at 1.
    destruct (with_extended_info task s) as [[r | e] s1] eqn:E;
      simpl in Hro; subst s1; [| reflexivity].
    unfold bind. rewrite E. reflexivity.
  - intros req taskid Hm.
    pose proof (next_question_view_only_events req taskid s Hm)
      as Hframe.
    rewrite !with_extended_info_run.
    destruct Hframe as (H1 & H2 & H3 & H4 & H5 & H6).
    unfold module_questions. rewrite H2.
    apply resolve_ext. intros q.
    apply effective_answer_only_events. repeat split; assumption.
Qed.

(** ** Rendering *)










(** ** Creating a child Task *)

Lemma le_fold_max (l : list Z) (x : Z) : In x l -> x <= fold_right Z.max 0 l.
Proof.
  induction l as [| y l IH]; intros H; [destruct H |].
  simpl. destruct H as [-> | H]; [lia |]. specialize (IH H). lia.
Qed.

Lemma next_id_fresh (l : list Z) : ~ In (next_id l) l.
Proof.
  intros H. apply le_fold_max in H. unfold next_id in H. lia.
Qed.


Lemma Task_create_run (a : TaskAnswer) (editor : User) (project : Z)
    (m : Module) (t : Z) (s : State) :
  Task_create a editor project m (m_title m) t s =
    (Ret (new_task s editor project m t),
     with_events
       (events s ++
        [{| ev_user := editor; ev_event_type := "task-create";
            ev_event_value := None; ev_module := Some (m_id m);
            ev_question := None; ev_project := Some project;
            ev_task := Some (next_id (map t_id (tasks s)));
            ev_answer := Some (ta_id a); ev_extra := None;
            ev_event_time := t |}])
       (with_tasks (tasks s ++ [new_task s editor project m t]) s)).
Proof. reflexivity. Qed.




(** ** The graph of tasks has no cycle *)

Section Graph.

Variable rank : Z -> nat.



Lemma find_app_other {A : Type} (p : A -> bool) (l : list A) (x y : A) :
  find p (l ++ [x]) = Some y -> p x = false -> find p l = Some y.
Proof.
  intros H Hx. induction l as [| z l IH]; simpl in *.
  - rewrite Hx in H. discriminate H.
  - destruct (p z); [exact H | exact (IH H)].
Qed.

Lemma find_app_found {A : Type} (p : A -> bool) (l : list A) (x y z : A) :
  find p l = Some z -> find p (l ++ [x]) = Some y -> y = z.
Proof.
  intros Hz Hy. rewrite (find_app_old p l [x] z Hz) in Hy. congruence.
Qed.



















End Graph.


(** ** What a request writes *)

Lemma extend_no_rows (s : State) : extend no_rows s = s.
Proof. destruct s. unfold extend. simpl. rewrite !app_nil_r. reflexivity. Qed.

Lemma extend_extend (d d' : rows) (s : State) :
  extend d' (extend d s) = extend (rows_app d d') s.
Proof. unfold extend, rows_app. simpl. rewrite <- !app_assoc. reflexivity. Qed.

Lemma extend_tasks (l : list Task) (s : State) :
  with_tasks (tasks s ++ l) s = extend (task_rows l) s.
Proof. unfold extend, with_tasks. simpl. rewrite !app_nil_r. reflexivity. Qed.

Lemma extend_task_answers (l : list TaskAnswer) (s : State) :
  with_task_answers (task_answers s ++ l) s = extend (task_answer_rows l) s.
Proof.
  unfold extend, with_task_answers. simpl. rewrite !app_nil_r. reflexivity.
Qed.

Lemma extend_history (l : list TaskAnswerHistory) (s : State) :
  with_answer_history (answer_history s ++ l) s = extend (history_rows l) s.
Proof.
  unfold extend, with_answer_history. simpl. rewrite !app_nil_r. reflexivity.
Qed.

Lemma extend_events (l : list InstrumentationEvent) (s : State) :
  with_events (events s ++ l) s = extend (event_rows l) s.
Proof. unfold extend, with_events. simpl. rewrite !app_nil_r. reflexivity. Qed.

Lemma snd_bind {A B : Type} (m : M A) (k : A -> M B) (s : State) :
  snd (bind m k s) =
    match m s with
    | (Ret a, s1) => snd (k a s1)
    | (Raise _, s1) => s1
    end.
Proof. unfold bind. destruct (m s) as [[a | e] s1]; reflexivity. Qed.

Lemma Task_create_rows (a : TaskAnswer) (editor : User) (project : Z)
    (m : Module) (t : Z) (s : State) :
  exists e,
    snd (Task_create a editor project m (m_title m) t s)
    = extend (rows_app (task_rows [new_task s editor project m t])
                       (event_rows [e])) s /\
    ev_user e = editor /\ ev_event_time e = t /\ ev_project e = Some project /\
    ev_event_type e = "task-create" /\
    ev_task e = Some (next_id (map t_id (tasks s))).
Proof.
  rewrite Task_create_run. eexists. split.
  - unfold extend, with_events, with_tasks. simpl. rewrite !app_nil_r.
    reflexivity.
  - repeat split.
Qed.

(** Lines 106-150 write only when a Task is made for the answer. *)
Lemma fetch_cases (req : Request) (task : Task) (q : ModuleQuestion)
    (a : TaskAnswer) (v : value) (cleared : bool) (redirect : string)
    (s : State) :
  snd (fetch_answered_by req task q a v cleared redirect s) = s \/
  exists m,
    mq_answer_type_module q = Some (m_id m) /\
    fetch_answered_by req task q a v cleared redirect s =
      (let child := new_task s (user req) (t_project task) m (now req) in
       (Ret {| answered_by_tasks := [child]; stored_value := VNone;
               answered_by_file := VNone;
               redirect_to := get_absolute_url child |},
        snd (Task_create a (user req) (t_project task) m (m_title m)
                         (now req) s))).
Proof.
  unfold fetch_answered_by.
  destruct (is_module_type q && negb cleared) eqn:Hm;
    [| destruct (String.eqb (mq_type q) "file" && negb cleared);
       left; reflexivity].
  destruct (value_eqb v (VStr "__new")).
  - destruct (mq_answer_type_module q) as [mid |] eqn:Em; [| left; reflexivity].
    unfold bind, read. cbv beta iota.
    destruct (find_module s mid) as [m |] eqn:Ef; [| left; reflexivity].
    right. exists m.
    assert (m_id m = mid) as Hid.
    { unfold find_module in Ef. apply find_some in Ef.
      destruct Ef as [_ Ef]. apply Z.eqb_eq in Ef. exact Ef. }
    split; [rewrite Hid; reflexivity |].
    rewrite Task_create_run. reflexivity.
  - destruct v; try (left; reflexivity).
    left. rewrite snd_bind.
    pose proof (read_only_map_M Task_get_item (split_comma s0)
                  read_only_Task_get_item s) as Hro.
    destruct (map_M Task_get_item (split_comma s0) s) as [[ts | e] s1];
      simpl in Hro; subst s1; [| reflexivity].
    run_M.
    destruct (negb (forallb (valid_reference s req q) ts)); [reflexivity |].
    destruct (String.eqb (mq_type q) "module" && negb (List.length ts =? 1)%nat);
      reflexivity.
Qed.

(** Lines 152-169 name one of five events and write at most one entry of
    the history, for the Answer and with the user and time of the request. *)
Lemma record_answer_cases (req : Request) (a : TaskAnswer) (cleared : bool)
    (r : recorded) (s : State) :
  exists ty l,
    record_answer req a cleared r s = (Ret ty, extend (history_rows l) s) /\
    In ty ["clear"; "skip"; "change"; "answer"; "keep"] /\
    (List.length l <= 1)%nat /\
    Forall (fun h => h_taskanswer h = ta_id a /\ h_answered_by h = user req /\
                     h_created h = now req) l.
Proof.
  destruct cleared.
  - rewrite record_answer_clear. exists "clear".
    destruct (has_answer s a).
    + exists [cleared_entry req a]. rewrite extend_history.
      repeat split; simpl; auto.
    + exists []. rewrite <- extend_history, app_nil_r.
      assert (with_answer_history (answer_history s) s = s) as ->
        by (destruct s; reflexivity).
      repeat split; simpl; auto.
  - rewrite record_answer_save.
    destruct (differs_materially s a r).
    + eexists. exists [entry_of req a r]. rewrite extend_history.
      split; [reflexivity |].
      split; [| repeat split; simpl; auto].
      destruct (method_is req "skip"); [simpl; auto |].
      destruct (has_answer s a); simpl; auto.
    + exists "keep", []. rewrite <- extend_history, app_nil_r.
      assert (with_answer_history (answer_history s) s = s) as ->
        by (destruct s; reflexivity).
      repeat split; simpl; auto 6.
Qed.

Lemma answer_event_type_listed (ty : string) :
  In ty ["clear"; "skip"; "change"; "answer"; "keep"] ->
  In (String.append "task-question-" ty) answer_event_types.
Proof. intros H. unfold answer_event_types. apply in_map, H. Qed.

(** Lines 152-197: the answer is recorded and its event added. *)
Lemma record_tail_rows (req : Request) (task : Task) (q : ModuleQuestion)
    (a : TaskAnswer) (cleared : bool) (r : recorded) (s : State) :
  exists l e,
    snd ((event_type <- record_answer req a cleared r ;;
          event_value <- since_first_show req task q ;;
          create_event
            (mk_event req (String.append "task-question-" event_type)
                      event_value task (Some (mq_id q)) (Some (ta_id a))
                      (Some (stored_value r))) ;;;
          ret (JsonOk (redirect_to r))) s)
      = extend (rows_app (history_rows l) (event_rows [e])) s /\
    (List.length l <= 1)%nat /\
    Forall (fun h => h_taskanswer h = ta_id a /\ h_answered_by h = user req /\
                     h_created h = now req) l /\
    ev_user e = user req /\ ev_event_time e = now req /\
    ev_project e = Some (t_project task) /\
    In (ev_event_type e) answer_event_types /\
    ev_task e = Some (t_id task) /\ ev_question e = Some (mq_id q).
Proof.
  destruct (record_answer_cases req a cleared r s)
    as (ty & l & Hrun & Hty & Hlen & Hl).
  rewrite snd_bind, Hrun. run_M. unfold since_first_show, read. simpl snd.
  exists l. eexists. rewrite <- extend_extend, <- extend_events.
  split; [reflexivity |].
  repeat split; try assumption; try reflexivity.
  simpl. apply answer_event_type_listed, Hty.
Qed.

Lemma find_task_answer_ext (s s' : State) (t q : Z) :
  task_answers s' = task_answers s ->
  find_task_answer s' t q = find_task_answer s t q.
Proof. unfold find_task_answer. intros ->. reflexivity. Qed.

(** Lines 100-197: what a proposal appends to the tables. *)
Lemma record_proposal_rows (req : Request) (task : Task) (q : ModuleQuestion)
    (v : value) (cleared : bool) (s : State) :
  exists d a,
    snd (record_proposal req task q v cleared s) = extend d s /\
    find_task_answer (extend d s) (t_id task) (mq_id q) = Some a /\
    ta_task a = t_id task /\ ta_question a = mq_id q /\
    (more_task_answers d = [] /\
     find_task_answer s (t_id task) (mq_id q) = Some a \/
     more_task_answers d = [a] /\
     find_task_answer s (t_id task) (mq_id q) = None /\
     ta_id a = next_id (map ta_id (task_answers s))) /\
    (more_tasks d = [] \/
     exists m, mq_answer_type_module q = Some (m_id m) /\
               more_tasks d
               = [new_task s (user req) (t_project task) m (now req)]) /\
    (List.length (more_history d) <= 1)%nat /\
    Forall (fun h => h_taskanswer h = ta_id a /\ h_answered_by h = user req /\
                     h_created h = now req) (more_history d) /\
    (List.length (more_events d) <= 2)%nat /\
    Forall (post_event req task q s) (more_events d).
Proof.
  destruct (TaskAnswer_get_or_create_spec task q s)
    as (a & Hfst & Hta & Hq & Hfind & Hs1).
  unfold record_proposal. rewrite snd_bind.
  destruct (TaskAnswer_get_or_create task q s) as [o s1].
  simpl in Hfst, Hfind, Hs1. subst o.
  assert (exists d1,
             s1 = extend d1 s /\ more_tasks d1 = [] /\ more_history d1 = [] /\
             more_events d1 = [] /\
             (more_task_answers d1 = [] /\
              find_task_answer s (t_id task) (mq_id q) = Some a \/
              more_task_answers d1 = [a] /\
              find_task_answer s (t_id task) (mq_id q) = None /\
              ta_id a = next_id (map ta_id (task_answers s))))
    as (d1 & Es1 & Ht1 & Hh1 & He1 & Ha1).
  { destruct Hs1 as [-> | (Hn & Hid & ->)].
    - exists no_rows. rewrite extend_no_rows. repeat split. left. split;
        [reflexivity | exact Hfind].
    - exists (task_answer_rows [a]). rewrite extend_task_answers.
      repeat split. right. repeat split; assumption. }
  assert (tasks s1 = tasks s) as Etasks
    by (rewrite Es1; simpl; rewrite Ht1; apply app_nil_r).
  rewrite snd_bind.
  destruct (fetch_cases req task q a v cleared (path req) s1)
    as [Hsame | (m & Hm & Hrun)].
  - destruct (fetch_answered_by req task q a v cleared (path req) s1)
      as [[r | e] s2]; simpl in Hsame; subst s2.
    + destruct (record_tail_rows req task q a cleared r s1)
        as (l & e & Hrun & Hlen & Hl & Hu & Htime & Hproj & Hty & Htask & Hqe).
      rewrite Hrun, Es1, extend_extend.
      eexists. exists a. split; [reflexivity |].
      split.
      { rewrite <- Hfind. apply find_task_answer_ext. rewrite Es1. simpl.
        rewrite !app_nil_r. reflexivity. }
      simpl. rewrite Ht1, Hh1, He1. simpl. rewrite ?app_nil_r.
      split; [exact Hta |]. split; [exact Hq |]. split; [exact Ha1 |].
      split; [left; reflexivity |]. split; [exact Hlen |].
      split; [exact Hl |]. split; [lia |].
      constructor; [| constructor]. repeat split; try assumption.
      right. repeat split; assumption.
    + exists d1, a. split; [exact Es1 |].
      split; [rewrite <- Es1; exact Hfind |].
      rewrite Ht1, Hh1, He1. simpl.
      split; [exact Hta |]. split; [exact Hq |]. split; [exact Ha1 |].
      split; [left; reflexivity |]. split; [lia |].
      split; [constructor |]. split; [lia | constructor].
  - rewrite Hrun. cbv zeta.
    destruct (record_tail_rows req task q a cleared
                {| answered_by_tasks :=
                     [new_task s1 (user req) (t_project task) m (now req)];
                   stored_value := VNone; answered_by_file := VNone;
                   redirect_to :=
                     get_absolute_url
                       (new_task s1 (user req) (t_project task) m (now req)) |}
                (snd (Task_create a (user req) (t_project task) m (m_title m)
                                  (now req) s1)))
      as (l & e & Hrun' & Hlen & Hl & Hu & Htime & Hproj & Hty & Htask & Hqe).
    rewrite Hrun'.
    destruct (Task_create_rows a (user req) (t_project task) m (now req) s1)
      as (ec & -> & Hcu & Hct & Hcp & Hcty & Hctask).
    assert (new_task s1 (user req) (t_project task) m (now req)
            = new_task s (user req) (t_project task) m (now req)) as En
      by (unfold new_task; rewrite Etasks; reflexivity).
    eexists. exists a.
    split; [rewrite En, Es1, !extend_extend; reflexivity |].
    split.
    { rewrite <- Hfind. apply find_task_answer_ext. rewrite Es1. simpl.
      rewrite !app_nil_r. reflexivity. }
    simpl. rewrite Ht1, Hh1, He1. simpl.
    rewrite ?app_nil_r.
    split; [exact Hta |]. split; [exact Hq |]. split; [exact Ha1 |].
    split; [right; exists m; split; [exact Hm | reflexivity] |].
    split; [exact Hlen |]. split; [exact Hl |]. split; [lia |].
    constructor; [| constructor; [| constructor]].
    + repeat split; try assumption. left. split; [exact Hcty |].
      rewrite Hctask, Etasks. reflexivity.
    + repeat split; try assumption. right. repeat split; assumption.
Qed.

Lemma snd_read_only_bind {A B : Type} (m : M A) (k : A -> M B) (s : State) :
  read_only m ->
  bind m k s = match fst (m s) with
               | Ret a => k a s
               | Raise e => (Raise e, s)
               end.
Proof.
  intros Hro. unfold bind. specialize (Hro s).
  destruct (m s) as [[a | e] s1]; simpl in *; subst s1; reflexivity.
Qed.

Lemma read_only_snd {A : Type} (m : M A) (s : State) :
  read_only m -> snd (m s) = s.
Proof. intros H. apply H. Qed.

(** Lines 264-301: the finished page adds its event, and then renders. *)
Lemma finished_page_rows (req : Request) (task : Task)
    (answered : ModuleAnswers) (g w : bool) (s : State) :
  snd (finished_page req task answered g w s)
  = extend (event_rows [finished_event s req task]) s.
Proof.
  unfold finished_page.
  rewrite snd_bind. unfold read at 1. cbv beta iota.
  rewrite snd_bind. unfold read at 1. cbv beta iota.
  rewrite snd_bind. unfold create_event at 1. unfold write at 1. cbv beta iota.
  rewrite extend_events. fold (finished_event s req task).
  apply read_only_snd.
  apply read_only_bind; [auto with ro |]. intros output.
  apply read_only_bind; [| auto with ro].
  apply read_only_map_M. intros key.
  apply read_only_bind; [auto with ro |]. intros q1.
  apply read_only_bind; auto with ro.
Qed.

(** Lines 303-384: a shown question adds its event with the count, unless
    the count of the last showing is missing. *)
Lemma question_page_rows (req : Request) (task : Task)
    (answered : ModuleAnswers) (q : ModuleQuestion)
    (taskq : option TaskAnswer) (g w : bool) (s : State) :
  match next_show_count s req task q with
  | Some n =>
      snd (question_page req task answered q taskq g w s)
      = extend (event_rows
                  [mk_event req "task-question-show" (Some n) task
                            (Some (mq_id q)) (option_map ta_id taskq) None]) s
  | None =>
      question_page req task answered q taskq g w s
      = (Raise (TypeError "unsupported operand type(s) for +"), s)
  end.
Proof.
  unfold question_page, next_show_count.
  destruct (latest (events_for s (user req) "task-question-show" (t_id task)
                               (Some (mq_id q)))) as [e |] eqn:El;
    [destruct (ev_event_value e) as [n |] eqn:Ev |];
    destruct (mq_answer_type_module q);
    unfold bind, read, ret, raise, create_event, write, lift;
    cbv beta iota; rewrite El; cbv beta iota; try rewrite Ev;
    cbv beta iota; try reflexivity;
    rewrite extend_events;
    destruct (render_content (mq_prompt q) (as_dict answered)); reflexivity.
Qed.

Lemma read_only_asked (req : Request) (task : Task) (answered : ModuleAnswers) :
  read_only (asked req task answered).
Proof.
  unfold asked. destruct (contains (GET req) "q"); [| auto with ro].
  apply read_only_bind; [auto with ro |]. intros key.
  apply read_only_bind; auto with ro.
Qed.

Lemma read_priv_run (req : Request) (task : Task) (taskq : option TaskAnswer)
    (s : State) :
  exists b, read_priv req task taskq s = (Ret b, s) /\
            (b = true <-> let_in s req task taskq).
Proof.
  unfold read_priv, read, let_in. eexists. split; [reflexivity |].
  destruct (has_read_priv s task (user req) true); [tauto |].
  destruct taskq as [tq |].
  - destruct (discussion_get_for s (organization req) tq) as [d |] eqn:Ed.
    + split.
      * intros H. right. exists tq, d. auto.
      * intros [H | (tq' & d' & [= <-] & Hd & Hp)]; [discriminate |].
        rewrite Ed in Hd. injection Hd as <-. exact Hp.
    + split; [discriminate |].
      intros [H | (tq' & d' & [= <-] & Hd & _)]; [discriminate |].
      rewrite Ed in Hd. discriminate.
  - split; [discriminate |].
    intros [H | (tq' & d' & H & _)]; discriminate.
Qed.

Lemma next_question_get_run (req : Request) (task : Task)
    (answered : ModuleAnswers) (s : State) (q : option ModuleQuestion)
    (b : bool) :
  fst (asked req task answered s) = Ret q ->
  read_priv req task (answer_of s task q) s = (Ret b, s) ->
  next_question_get req task answered s =
    if negb b then (Ret HttpResponseForbidden, s)
    else
      match t_deleted_at task with
      | Some _ =>
          (Ret (HttpResponse
                  "This module was deleted by its editor or a project administrator."),
           s)
      | None =>
          if negb (String.eqb (path req) (get_absolute_url task)) then
            (Ret (HttpResponseRedirect (get_absolute_url task)), s)
          else
            match q with
            | None =>
                finished_page req task answered
                  (negb (has_read_priv s task (user req) false))
                  (has_write_priv s task (user req) false) s
            | Some q' =>
                question_page req task answered q' (answer_of s task q)
                  (negb (has_read_priv s task (user req) false))
                  (has_write_priv s task (user req) false) s
            end
      end.
Proof.
  intros Ha Hb. unfold next_question_get. fold (asked req task answered).
  rewrite snd_read_only_bind by apply read_only_asked. rewrite Ha.
  unfold bind at 1. unfold read at 1. cbv beta iota.
  fold (answer_of s task q).
  unfold bind at 1. rewrite Hb.
  destruct b; simpl negb; cbv iota; [| reflexivity].
  destruct (t_deleted_at task); [reflexivity |].
  destruct (negb (String.eqb (path req) (get_absolute_url task)));
    [reflexivity |].
  unfold bind, read. destruct q; reflexivity.
Qed.

(** Lines 199-384, case by case: the lookup of the question, the check of
    access, the deleted task, the canonical path, and the page. *)
Lemma next_question_get_cases (req : Request) (task : Task)
    (answered : ModuleAnswers) (s : State) :
  (exists e, fst (asked req task answered s) = Raise e /\
             next_question_get req task answered s = (Raise e, s)) \/
  exists q,
    fst (asked req task answered s) = Ret q /\
    (~ let_in s req task (answer_of s task q) /\
     next_question_get req task answered s = (Ret HttpResponseForbidden, s) \/
     let_in s req task (answer_of s task q) /\
     ((exists d, t_deleted_at task = Some d) /\
      next_question_get req task answered s
      = (Ret (HttpResponse
                "This module was deleted by its editor or a project administrator."),
         s) \/
      t_deleted_at task = None /\ path req <> get_absolute_url task /\
      next_question_get req task answered s
      = (Ret (HttpResponseRedirect (get_absolute_url task)), s) \/
      t_deleted_at task = None /\ path req = get_absolute_url task /\
      next_question_get req task answered s
      = match q with
        | None =>
            finished_page req task answered
              (negb (has_read_priv s task (user req) false))
              (has_write_priv s task (user req) false) s
        | Some q' =>
            question_page req task answered q' (answer_of s task q)
              (negb (has_read_priv s task (user req) false))
              (has_write_priv s task (user req) false) s
        end)).
Proof.
  destruct (fst (asked req task answered s)) as [q | e] eqn:Ha.
  - right. exists q. split; [reflexivity |].
    destruct (read_priv_run req task (answer_of s task q) s) as (b & Hb & Hiff).
    rewrite (next_question_get_run req task answered s q b Ha Hb).
    destruct b; simpl negb; cbv iota.
    + right. split; [apply Hiff; reflexivity |].
      destruct (t_deleted_at task) as [d |].
      * left. split; [exists d |]; reflexivity.
      * right.
        destruct (String.eqb (path req) (get_absolute_url task)) eqn:Ep;
          simpl negb; cbv iota.
        -- right. apply String.eqb_eq in Ep. repeat split. exact Ep.
        -- left. apply String.eqb_neq in Ep. repeat split. exact Ep.
    + left. split; [| reflexivity].
      intros H. apply Hiff in H. discriminate.
  - left. exists e. split; [reflexivity |].
    unfold next_question_get. fold (asked req task answered).
    rewrite snd_read_only_bind by apply read_only_asked. rewrite Ha.
    reflexivity.
Qed.

(** Lines 37-98: a POST writes only when it is a proposal. *)
Lemma next_question_post_cases (req : Request) (task : Task)
    (answered : ModuleAnswers) (s : State) :
  snd (next_question_post req task answered s) = s \/
  exists q v c, proposes req task answered s q v c.
Proof.
  unfold next_question_post. run_M.
  destruct (has_write_priv s task (user req) false) eqn:Hw;
    [| left; reflexivity].
  simpl.
  pose proof (read_only_questions_get_id task (get (POST req) "question") s)
    as Hro.
  destruct (questions_get_id task (get (POST req) "question") s)
    as [[q | e] s1] eqn:Hq; simpl in Hro; subst s1; [| left; reflexivity].
  destruct (parse_request req q answered (path req)) as [[r | v c] | e] eqn:Hp;
    try (left; reflexivity).
  right. exists q, v, c. repeat split; assumption.
Qed.

Lemma next_question_not_found (req : Request) (taskid : Z) (s : State) :
  find (fun t => (t_id t =? taskid) && in_organization s t (organization req))
       (tasks s) = None ->
  next_question req taskid s = (Raise Http404, s).
Proof. intros H. unfold next_question. run_M. rewrite H. reflexivity. Qed.

(** What a POST to [next_question] writes is what its proposal records. *)
Lemma next_question_post_rows (req : Request) (taskid : Z) (s : State) :
  (method req =? "POST")%string = true ->
  snd (next_question req taskid s) = s \/
  exists task answered q v c,
    find (fun t => (t_id t =? taskid) && in_organization s t (organization req))
         (tasks s) = Some task /\
    fst (with_extended_info task s) = Ret answered /\
    proposes req task answered s q v c /\
    next_question req taskid s = record_proposal req task q v c s.
Proof.
  intros Hm.
  destruct (find (fun t => (t_id t =? taskid) &&
                           in_organization s t (organization req)) (tasks s))
    as [task |] eqn:Hfind;
    [| left; rewrite (next_question_not_found _ _ _ Hfind); reflexivity].
  rewrite (next_question_run req taskid s task Hfind), Hm.
  destruct (fst (with_extended_info task s)) as [answered | e] eqn:Ha;
    [| left; reflexivity].
  destruct (next_question_post_cases req task answered s)
    as [Hs | (q & v & c & Hp)]; [left; exact Hs |].
  right. exists task, answered, q, v, c.
  split; [reflexivity |]. split; [exact Ha |]. split; [exact Hp |].
  apply next_question_post_run, Hp.
Qed.

(** What a GET of [next_question] writes is the event of the page. *)
Lemma next_question_get_rows (req : Request) (taskid : Z) (s : State) :
  (method req =? "POST")%string = false ->
  snd (next_question req taskid s) = s \/
  exists task answered q e,
    find (fun t => (t_id t =? taskid) && in_organization s t (organization req))
         (tasks s) = Some task /\
    fst (with_extended_info task s) = Ret answered /\
    fst (asked req task answered s) = Ret q /\
    let_in s req task (answer_of s task q) /\
    t_deleted_at task = None /\ path req = get_absolute_url task /\
    snd (next_question req taskid s) = extend (event_rows [e]) s /\
    match q with
    | None => e = finished_event s req task
    | Some q' =>
        exists n, next_show_count s req task q' = Some n /\
                  e = mk_event req "task-question-show" (Some n) task
                               (Some (mq_id q'))
                               (option_map ta_id (answer_of s task q)) None
    end.
Proof.
  intros Hm.
  destruct (find (fun t => (t_id t =? taskid) &&
                           in_organization s t (organization req)) (tasks s))
    as [task |] eqn:Hfind;
    [| left; rewrite (next_question_not_found _ _ _ Hfind); reflexivity].
  rewrite (next_question_run req taskid s task Hfind), Hm.
  destruct (fst (with_extended_info task s)) as [answered | e] eqn:Ha;
    [| left; reflexivity].
  destruct (next_question_get_cases req task answered s)
    as [(e & _ & ->) | (q & Hq & [[_ ->] | [Hin [[_ ->] | [(_ & _ & ->) |
         (Hdel & Hpath & ->)]]]])]; try (left; reflexivity).
  destruct q as [q |].
  - pose proof (question_page_rows req task answered q
                  (answer_of s task (Some q))
                  (negb (has_read_priv s task (user req) false))
                  (has_write_priv s task (user req) false) s) as Hrows.
    destruct (next_show_count s req task q) as [n |] eqn:En.
    + right. exists task, answered, (Some q). eexists.
      repeat split; try eassumption.
      exists n. split; [exact En | reflexivity].
    + left. rewrite Hrows. reflexivity.
  - right. exists task, answered, None, (finished_event s req task).
    repeat split; try assumption. apply finished_page_rows.
Qed.

Lemma page_event_finished (s : State) (req : Request) (task : Task) :
  page_event req task (finished_event s req task).
Proof.
  unfold page_event, finished_event. repeat split. simpl.
  destruct (events_for s (user req) "task-done" (t_id task) None); auto.
Qed.

Lemma nothing_lost_refl (s : State) : nothing_lost s s.
Proof.
  split; [apply same_definitions_refl |].
  split; [exists []; rewrite app_nil_r; reflexivity |].
  repeat split; exists []; rewrite app_nil_r; reflexivity.
Qed.

Lemma nothing_lost_trans (a b c : State) :
  nothing_lost a b -> nothing_lost b c -> nothing_lost a c.
Proof.
  intros (Hd1 & [lt1 Ht1] & [la1 Ha1] & [lh1 Hh1] & [le1 He1])
         (Hd2 & [lt2 Ht2] & [la2 Ha2] & [lh2 Hh2] & [le2 He2]).
  split; [eapply same_definitions_trans; eassumption |].
  split; [exists (lt1 ++ lt2); rewrite Ht2, Ht1, app_assoc; reflexivity |].
  split; [exists (la1 ++ la2); rewrite Ha2, Ha1, app_assoc; reflexivity |].
  split; [exists (lh1 ++ lh2); rewrite Hh2, Hh1, app_assoc; reflexivity |].
  exists (le1 ++ le2). rewrite He2, He1, app_assoc. reflexivity.
Qed.

Lemma nothing_lost_extend (d : rows) (s : State) : nothing_lost s (extend d s).
Proof.
  split; [repeat split |].
  split; [exists (map (set_deleted_at None) (more_tasks d)); simpl;
          apply map_app |].
  repeat split; eexists; reflexivity.
Qed.

Lemma nothing_lost_deleted_at (s s' : State) :
  only_deleted_at_differs s s' -> nothing_lost s s'.
Proof.
  intros (Hm & Hq & Hp & Ha & Hh & He & Ht).
  split; [repeat split; assumption |].
  split; [exists []; rewrite app_nil_r; exact Ht |].
  repeat split; exists []; rewrite app_nil_r; assumption.
Qed.

Lemma serves_nothing_lost (req : Request) (s s' : State) :
  serves req s s' -> nothing_lost s s'.
Proof.
  intros [taskid s1 | s1 | s1].
  - destruct (method req =? "POST")%string eqn:Hm.
    + destruct (next_question_post_rows req taskid s1 Hm)
        as [-> | (task & answered & q & v & c & _ & _ & _ & ->)];
        [apply nothing_lost_refl |].
      destruct (record_proposal_rows req task q v c s1) as (d & a & -> & _).
      apply nothing_lost_extend.
    + destruct (next_question_get_rows req taskid s1 Hm)
        as [-> | (task & answered & q & e & _ & _ & _ & _ & _ & _ & -> & _)];
        [apply nothing_lost_refl | apply nothing_lost_extend].
  - destruct (record_interaction_cases req s1)
      as [-> | (id & task & qid & q & v & a & _ & _ & _ & _ & ->)];
      [apply nothing_lost_refl |].
    rewrite extend_events. apply nothing_lost_extend.
  - apply nothing_lost_deleted_at, change_task_state_frame.
Qed.

Lemma step_serves (s s' : State) : step s s' -> exists req, serves req s s'.
Proof.
  intros [req taskid s1 | req s1 | req s1]; exists req; constructor.
Qed.

(** X1. The views lose nothing.  Whatever requests are served, the
    definitions stay as they are, every Task is still there and differs at
    most in its [deleted_at], and the Answers, the entries of their
    histories and the instrumentation events the database held are still
    its first rows, unchanged and in the same order: history and events are
    append-only. *)
Theorem views_only_append (s0 s : State) :
  reachable s0 s -> nothing_lost s0 s.
Proof.
  intros Hr. induction Hr as [| s1 s2 _ IH Hstep]; [apply nothing_lost_refl |].
  apply (nothing_lost_trans _ _ _ IH).
  destruct (step_serves _ _ Hstep) as [req Hs].
  apply (serves_nothing_lost req), Hs.
Qed.

(** X2. What a request to [next_question] adds is attributed to it.  The
    state after the request is the state before it with rows appended: at
    most one Task, one Answer and one entry of a history, and at most two
    events.  The entry and the events carry the user and the time of the
    request; an added Answer is for the task of the URL, looked up within
    the organization of the request, and a question of its module; an added
    Task is edited by the user and belongs to the project of that task. *)
Theorem next_question_rows_are_attributed
    (req : Request) (taskid : Z) (s : State) :
  exists d,
    snd (next_question req taskid s) = extend d s /\
    Forall (task_of_request req taskid s) (more_tasks d) /\
    Forall (task_answer_of_request req taskid s) (more_task_answers d) /\
    Forall (history_of_request req) (more_history d) /\
    Forall (event_of_request req) (more_events d) /\
    (List.length (more_tasks d) <= 1)%nat /\
    (List.length (more_task_answers d) <= 1)%nat /\
    (List.length (more_history d) <= 1)%nat /\
    (List.length (more_events d) <= 2)%nat.
Proof.
  assert (exists d,
             s = extend d s /\
             Forall (task_of_request req taskid s) (more_tasks d) /\
             Forall (task_answer_of_request req taskid s)
                    (more_task_answers d) /\
             Forall (history_of_request req) (more_history d) /\
             Forall (event_of_request req) (more_events d) /\
             (List.length (more_tasks d) <= 1)%nat /\
             (List.length (more_task_answers d) <= 1)%nat /\
             (List.length (more_history d) <= 1)%nat /\
             (List.length (more_events d) <= 2)%nat) as Hsame.
  { exists no_rows. rewrite extend_no_rows. simpl.
    repeat split; try constructor; lia. }
  destruct (method req =? "POST")%string eqn:Hm.
  - destruct (next_question_post_rows req taskid s Hm)
      as [-> | (task & answered & q & v & c & Hfind & _ & Hp & ->)];
      [exact Hsame |].
    destruct (record_proposal_rows req task q v c s)
      as (d & a & -> & _ & Hta & Hqa & Ha & Ht & Hlh & Hh & Hle & He).
    exists d. split; [reflexivity |].
    assert (In q (module_questions s (t_module task))) as Hq
      by (destruct Hp as (_ & Hget & _);
          apply (questions_get_id_found _ _ _ _ _ Hget)).
    split.
    { destruct Ht as [-> | (m & _ & ->)]; constructor; [| constructor].
      repeat split. exists task. split; [exact Hfind | reflexivity]. }
    split.
    { destruct Ha as [[-> _] | (-> & _ & Hid)]; constructor; [| constructor].
      split; [exact Hid |]. exists task, q. auto. }
    split.
    { eapply Forall_impl; [| exact Hh]. intros h (_ & Hu & Hc). split; auto. }
    split.
    { eapply Forall_impl; [| exact He]. intros e (Hu & Hc & _). split; auto. }
    split; [destruct Ht as [-> | (m & _ & ->)]; simpl; lia |].
    split; [destruct Ha as [[-> _] | (-> & _)]; simpl; lia |].
    split; assumption.
  - destruct (next_question_get_rows req taskid s Hm)
      as [-> | (task & answered & q & e & _ & _ & _ & _ & _ & _ & -> & He)];
      [exact Hsame |].
    exists (event_rows [e]). split; [reflexivity |]. simpl.
    repeat split; try constructor; try lia.
    + destruct q as [q |]; [destruct He as (n & _ & ->) | subst e];
        split; reflexivity.
    + constructor.
Qed.

Lemma unique_ids_answers (l : list TaskAnswer) (a a' : TaskAnswer) :
  unique_ids (map ta_id l) = true ->
  In a l -> In a' l -> ta_id a = ta_id a' -> a = a'.
Proof.
  induction l as [| x l IH]; [intros _ [] |].
  simpl. intros Hu [-> | Ha] [-> | Ha'] E;
    apply andb_prop in Hu; destruct Hu as [Hx Hu].
  - reflexivity.
  - exfalso. apply negb_true_iff in Hx.
    assert (existsb (Z.eqb (ta_id a)) (map ta_id l) = true) as H; [| congruence].
    apply existsb_exists. exists (ta_id a'). split; [apply in_map, Ha' |].
    apply Z.eqb_eq, E.
  - exfalso. apply negb_true_iff in Hx.
    assert (existsb (Z.eqb (ta_id a')) (map ta_id l) = true) as H; [| congruence].
    apply existsb_exists. exists (ta_id a). split; [apply in_map, Ha |].
    apply Z.eqb_eq. symmetry. exact E.
  - apply IH; assumption.
Qed.

(** A task of the organization and a task outside it have different keys. *)
Lemma other_task_id (s : State) (org id : Z) (task t : Task) :
  unique_ids (map t_id (tasks s)) = true ->
  find (fun t => (t_id t =? id) && in_organization s t org) (tasks s)
    = Some task ->
  In t (tasks s) -> in_organization s t org = false ->
  t_id task <> t_id t.
Proof.
  intros Hu Hfind Hin Hout E. apply find_some in Hfind.
  destruct Hfind as [Hin' Hp]. apply andb_prop in Hp. destruct Hp as [_ Horg].
  rewrite (unique_ids_find _ _ _ Hu Hin' Hin E) in Horg. congruence.
Qed.

(** What [change_task_state] writes, and for whom. *)
Lemma change_task_state_writes (req : Request) (s : State) :
  snd (change_task_state req s) = s \/
  exists task st,
    asks_state req (t_id task) st /\
    find (fun t => (t_id t =? t_id task) &&
                   in_organization s t (organization req)) (tasks s)
      = Some task /\
    has_write_priv s task (user req) true = true /\
    (st = "delete" /\
     snd (change_task_state req s)
     = save_deleted_at (t_id task) (Some (now req)) s \/
     st = "undelete" /\
     snd (change_task_state req s) = save_deleted_at (t_id task) None s).
Proof.
  unfold change_task_state, asks_state.
  destruct (String.eqb_spec (method req) "POST") as [Hm | Hm];
    [| left; reflexivity].
  simpl. unfold getitem. run_M.
  destruct (get (POST req) "id") as [sid |] eqn:Hsid; [| left; reflexivity].
  destruct (py_int sid) as [id |] eqn:Hid; [| left; reflexivity].
  destruct (find (fun t => (t_id t =? id) &&
                           in_organization s t (organization req)) (tasks s))
    as [task |] eqn:Htask; [| left; reflexivity].
  assert (t_id task = id) as E.
  { apply find_some in Htask. destruct Htask as [_ H].
    apply andb_prop in H. destruct H as [H _]. apply Z.eqb_eq, H. }
  destruct (has_write_priv s task (user req) true) eqn:Hw;
    [| left; reflexivity].
  simpl. destruct (get (POST req) "state") as [st |] eqn:Hst;
    [| left; reflexivity].
  destruct (String.eqb_spec st "delete") as [Hd | Hd].
  - right. exists task, st. rewrite E.
    split; [split; [exact Hm | split; [exists sid; auto | reflexivity]] |].
    split; [exact Htask |]. split; [exact Hw |]. left. auto.
  - destruct (String.eqb_spec st "undelete") as [Hun | Hun];
      [| left; reflexivity].
    right. exists task, st. rewrite E.
    split; [split; [exact Hm | split; [exists sid; auto | reflexivity]] |].
    split; [exact Htask |]. split; [exact Hw |]. right. auto.
Qed.

(** What [instrumentation_record_interaction] writes, and for whom. *)
Lemma record_interaction_writes (req : Request) (s : State) :
  snd (instrumentation_record_interaction req s) = s \/
  exists task q,
    names_question req (t_id task) (mq_id q) /\
    find (fun t => (t_id t =? t_id task) &&
                   in_organization s t (organization req)) (tasks s)
      = Some task /\
    has_read_priv s task (user req) false = true /\
    In q (module_questions s (t_module task)) /\
    events_for s (user req) interact_first (t_id task) (Some (mq_id q)) = [] /\
    snd (instrumentation_record_interaction req s)
    = extend
        (event_rows
           [mk_event req interact_first
              (option_map (fun e => now req - ev_event_time e)
                 (earliest (events_for s (user req) "task-question-show"
                                       (t_id task) (Some (mq_id q)))))
              task (Some (mq_id q))
              (option_map ta_id
                 (find_task_answer s (t_id task) (mq_id q))) None]) s.
Proof.
  unfold instrumentation_record_interaction, names_question.
  destruct (String.eqb_spec (method req) "POST") as [Hm | Hm];
    [| left; reflexivity].
  simpl. unfold except_DoesNotExist, questions_get_id, since_first_show, getitem.
  run_M.
  destruct (get (POST req) "task") as [sid |] eqn:Hsid; [| left; reflexivity].
  destruct (py_int sid) as [id |] eqn:Hid; [| left; reflexivity].
  destruct (find (fun t => (t_id t =? id) &&
                           in_organization s t (organization req)) (tasks s))
    as [task |] eqn:Htask; [| left; reflexivity].
  assert (t_id task = id) as E.
  { apply find_some in Htask. destruct Htask as [_ H].
    apply andb_prop in H. destruct H as [H _]. apply Z.eqb_eq, H. }
  destruct (has_read_priv s task (user req) false) eqn:Hr;
    [| left; reflexivity].
  simpl. destruct (get (POST req) "question") as [sq |] eqn:Hsq;
    [| left; reflexivity].
  run_M.
  destruct (py_int sq) as [qid |] eqn:Hqid; [| left; reflexivity].
  destruct (find (fun q => mq_id q =? qid) (module_questions s (t_module task)))
    as [q |] eqn:Hq; [| left; reflexivity].
  apply find_some in Hq. destruct Hq as [Hqin Hqid'].
  apply Z.eqb_eq in Hqid'.
  destruct (events_for s (user req) "task-question-interact-first" (t_id task)
                       (Some (mq_id q))) as [| e l] eqn:Hev;
    [| left; reflexivity].
  subst id qid. right. exists task, q.
  split; [split; [exact Hm | split; [exists sid | exists sq]; auto] |].
  split; [exact Htask |]. split; [exact Hr |]. split; [exact Hqin |].
  split; [exact Hev |].
  simpl. rewrite extend_events. reflexivity.
Qed.

Lemma unique_ids_snoc (l : list Z) (x : Z) :
  unique_ids l = true -> ~ In x l -> unique_ids (l ++ [x]) = true.
Proof.
  induction l as [| y l IH]; intros Hu Hx; [reflexivity |].
  simpl in *. apply andb_prop in Hu. destruct Hu as [Hy Hu].
  rewrite IH by tauto. rewrite andb_true_r.
  rewrite existsb_app. simpl. rewrite orb_false_r.
  apply negb_true_iff in Hy. rewrite Hy. simpl.
  apply negb_true_iff, Z.eqb_neq. intros E. apply Hx. left. exact E.
Qed.

Lemma untouched_extend (d : rows) (s : State) (t : Task) :
  In t (tasks s) ->
  (forall a, In a (more_task_answers d) -> ta_task a <> t_id t) ->
  (forall h, In h (more_history d) ->
             ~ history_of_task (extend d s) h (t_id t)) ->
  (forall e, In e (more_events d) -> ev_task e <> Some (t_id t)) ->
  untouched s (extend d s) t.
Proof.
  intros Hin Ha Hh He. unfold untouched. simpl.
  split; [apply in_or_app; left; exact Hin |].
  split; [| split].
  - intros a H E. apply in_app_or in H. destruct H as [H | H]; [exact H |].
    exfalso. apply (Ha a H E).
  - intros h H E. apply in_app_or in H. destruct H as [H | H]; [exact H |].
    exfalso. apply (Hh h H E).
  - intros e H E. apply in_app_or in H. destruct H as [H | H]; [exact H |].
    exfalso. apply (He e H E).
Qed.

Lemma untouched_refl (s : State) (t : Task) : In t (tasks s) -> untouched s s t.
Proof. intros H. repeat split; auto. Qed.

Lemma untouched_record_proposal (req : Request) (task : Task)
    (q : ModuleQuestion) (v : value) (c : bool) (s : State) (t : Task) :
  keyed s -> In t (tasks s) -> t_id task <> t_id t ->
  untouched s (snd (record_proposal req task q v c s)) t.
Proof.
  intros [Hut Hua] Hin Hne.
  destruct (record_proposal_rows req task q v c s)
    as (d & a & -> & Hfa & Hta & _ & Ha & _ & _ & Hh & _ & He).
  apply untouched_extend; [exact Hin | | |].
  - intros a' H E.
    destruct Ha as [[Hnil _] | (Hone & _)].
    + rewrite Hnil in H. destruct H.
    + rewrite Hone in H. destruct H as [<- | []]. congruence.
  - intros h H (a' & Hin' & Hid & Htask).
    rewrite Forall_forall in Hh. destruct (Hh h H) as (Hha & _).
    assert (unique_ids (map ta_id (task_answers (extend d s))) = true) as Hu.
    { simpl. destruct Ha as [[-> _] | (-> & _ & Hnew)].
      - rewrite app_nil_r. exact Hua.
      - rewrite map_app. simpl. apply unique_ids_snoc; [exact Hua |].
        rewrite Hnew. apply next_id_fresh. }
    unfold find_task_answer in Hfa. apply find_some in Hfa.
    destruct Hfa as [Hina _].
    assert (a' = a) as ->
      by (apply (unique_ids_answers _ _ _ Hu Hin' Hina); congruence).
    congruence.
  - intros e H E. rewrite Forall_forall in He.
    destruct (He e H) as (_ & _ & _ & [[_ Hnew] | (_ & Hold & _)]).
    + rewrite Hnew in E. injection E as E.
      apply (next_id_fresh (map t_id (tasks s))). rewrite E.
      apply in_map, Hin.
    + congruence.
Qed.

(** X3. A request touches no task of another organization.  In a database
    that keeps its primary keys, whatever request one of the three views
    serves, a Task that is not in a project of the organization of the
    request is the same row afterwards, and no Answer of it, no entry of
    the history of its Answers and no event about it is added. *)
Theorem other_organizations_untouched
    (req : Request) (s s' : State) (t : Task) :
  keyed s -> serves req s s' ->
  In t (tasks s) -> in_organization s t (organization req) = false ->
  untouched s s' t.
Proof.
  intros Hk Hs Hin Hout.
  assert (forall id task,
             find (fun t => (t_id t =? id) &&
                            in_organization s t (organization req)) (tasks s)
               = Some task -> t_id task <> t_id t) as Hne
    by (intros id task Hf;
        apply (other_task_id s _ id task t (proj1 Hk) Hf Hin Hout)).
  destruct Hs as [taskid s | s | s].
  - destruct (method req =? "POST")%string eqn:Hm.
    + destruct (next_question_post_rows req taskid s Hm)
        as [-> | (task & answered & q & v & c & Hfind & _ & _ & ->)];
        [apply untouched_refl, Hin |].
      apply untouched_record_proposal; [exact Hk | exact Hin |].
      apply (Hne _ _ Hfind).
    + destruct (next_question_get_rows req taskid s Hm)
        as [-> | (task & answered & q & e & Hfind & _ & _ & _ & _ & _ & -> & He)];
        [apply untouched_refl, Hin |].
      apply untouched_extend; [exact Hin | intros a [] | intros h [] |].
      intros e' [<- | []] E. specialize (Hne _ _ Hfind).
      destruct q as [q |]; [destruct He as (n & _ & ->) | subst e];
        simpl in E; congruence.
  - destruct (record_interaction_writes req s)
      as [-> | (task & q & _ & Hfind & _ & _ & _ & ->)];
      [apply untouched_refl, Hin |].
    apply untouched_extend; [exact Hin | intros a [] | intros h [] |].
    intros e' [<- | []] E. specialize (Hne _ _ Hfind). simpl in E. congruence.
  - assert (forall d task,
               find (fun t => (t_id t =? t_id task) &&
                              in_organization s t (organization req)) (tasks s)
                 = Some task ->
               untouched s (save_deleted_at (t_id task) d s) t) as Hsave.
    { intros d task Hfind. specialize (Hne _ _ Hfind).
      unfold untouched, save_deleted_at. simpl.
      split; [| split; [| split]]; auto.
      - apply in_map_iff. exists t. split; [| exact Hin].
        destruct (Z.eqb_spec (t_id t) (t_id task)); [congruence | reflexivity]. }
    destruct (change_task_state_writes req s)
      as [-> | (task & st & _ & Hfind & _ & [[_ ->] | [_ ->]])];
      [apply untouched_refl, Hin | |]; apply Hsave, Hfind.
Qed.

(** ** What a POST answers when it records nothing *)

Lemma writer_asks_run (req : Request) (taskid : Z) (s : State) (task : Task)
    (answered : ModuleAnswers) (q : ModuleQuestion) :
  writer_asks req taskid s task answered q ->
  next_question req taskid s =
    match parse_request req q answered (path req) with
    | Ret (Early r) => (Ret r, s)
    | Ret (Proposed v c) => record_proposal req task q v c s
    | Raise e => (Raise e, s)
    end.
Proof.
  intros (Hm & Hfind & Ha & Hw & Hq).
  rewrite (next_question_run req taskid s task Hfind), Ha, Hm. simpl.
  unfold next_question_post.
  unfold bind at 1. unfold read at 1. rewrite Hw. simpl.
  unfold bind at 1. rewrite Hq.
  unfold bind at 1. unfold lift at 1.
  destruct (parse_request req q answered (path req)) as [[r | v c] | e];
    reflexivity.
Qed.

Lemma method_is_other (req : Request) (m m' : string) :
  get (POST req) "method" = Some m -> (m =? m')%string = false ->
  method_is req m' = false.
Proof. intros H E. unfold method_is. rewrite H. exact E. Qed.

Lemma method_is_same (req : Request) (m : string) :
  get (POST req) "method" = Some m -> method_is req m = true.
Proof. intros H. unfold method_is. rewrite H. apply String.eqb_refl. Qed.

(** X4. A POST to [next_question] writes only when it proposes an answer:
    if the database after the request differs from the database before
    it, then the task was found in the organization of the request, the
    user has the write privilege on it, the form names a question of the
    task's module, and the form asked to clear or to skip the question or
    carried a value that was parsed and validated; what is written is what
    recording that proposal writes. *)
Theorem post_writes_need_a_proposal (req : Request) (taskid : Z) (s : State) :
  method req = "POST" ->
  snd (next_question req taskid s) <> s ->
  exists task answered q v c,
    find (fun t => (t_id t =? taskid) && in_organization s t (organization req))
         (tasks s) = Some task /\
    has_write_priv s task (user req) false = true /\
    In q (module_questions s (t_module task)) /\
    parse_request req q answered (path req) = Ret (Proposed v c) /\
    next_question req taskid s = record_proposal req task q v c s.
Proof.
  intros Hm Hs.
  assert ((method req =? "POST")%string = true) as Hm'
    by (rewrite Hm; reflexivity).
  destruct (next_question_post_rows req taskid s Hm')
    as [E | (task & answered & q & v & c & Hfind & _ & Hp & Hrun)];
    [contradiction |].
  exists task, answered, q, v, c.
  destruct Hp as (Hw & Hq & Hparse).
  split; [exact Hfind |]. split; [exact Hw |].
  split; [apply (questions_get_id_found _ _ _ _ _ Hq) |].
  split; [exact Hparse | exact Hrun].
Qed.

(** X5. A value that does not parse or validate is reported, not recorded.
    When a writer saves a value for a question and the parser, the
    validator or, for an "external-function" question, the external
    function raises [ValueError] with a message, [next_question] answers
    with the JSON error that carries the message and writes nothing. *)
Theorem rejected_values_are_reported
    (req : Request) (taskid : Z) (s : State) (task : Task)
    (answered : ModuleAnswers) (q : ModuleQuestion) (v : value) (m : string) :
  writer_asks req taskid s task answered q ->
  get (POST req) "method" = Some "save" ->
  submitted req q = Some v ->
  (parse q v = Raise (ValueError m) \/
   (exists v', parse q v = Ret v' /\ validate q v' = Raise (ValueError m)) \/
   (exists v' v'', parse q v = Ret v' /\ validate q v' = Ret v'' /\
                   mq_type q = "external-function" /\
                   run_external_function q (as_dict answered)
                   = Raise (ValueError m))) ->
  next_question req taskid s = (Ret (JsonError m), s).
Proof.
  intros Hasks Hmeth Hsub Hbad.
  rewrite (writer_asks_run _ _ _ _ _ _ Hasks).
  unfold parse_request.
  rewrite (method_is_other req "save" "clear" Hmeth eq_refl).
  rewrite (method_is_other req "save" "skip" Hmeth eq_refl).
  rewrite (method_is_same req "save" Hmeth).
  assert (forall w, w = v ->
             except_ValueError (parse q w)
               (fun v0 =>
                  except_ValueError (validate q v0)
                    (fun v1 =>
                       if String.eqb (mq_type q) "external-function" then
                         except_ValueError
                           (run_external_function q (as_dict answered))
                           (fun v2 => Ret (Proposed v2 false))
                       else Ret (Proposed v1 false)))
             = Ret (Early (JsonError m))) as Hrej.
  { intros w ->.
    destruct Hbad as [Hp | [(v' & Hp & Hv) | (v' & v'' & Hp & Hv & Hty & He)]];
      rewrite Hp; simpl; [reflexivity | |]; rewrite Hv; simpl;
      [reflexivity |].
    rewrite Hty. simpl. rewrite He. reflexivity. }
  unfold submitted in Hsub.
  destruct (String.eqb (mq_type q) "file").
  - destruct (files_get (FILES req) "value") as [f |]; [| discriminate].
    injection Hsub as Hsub. rewrite (Hrej _ Hsub). reflexivity.
  - injection Hsub as Hsub. rewrite (Hrej _ Hsub). reflexivity.
Qed.

(** X6. A form whose [method] is none of "clear", "skip" and "save" is an
    error, not an answer: [next_question] raises [ValueError] and writes
    nothing.  The message is built with [+], not with [%]: it is
    ["invalid 'method' parameter %s"] followed by the method, or by
    ["<not set>"] when the form has no [method]. *)
Theorem invalid_method_is_a_value_error
    (req : Request) (taskid : Z) (s : State) (task : Task)
    (answered : ModuleAnswers) (q : ModuleQuestion) :
  writer_asks req taskid s task answered q ->
  method_is req "clear" = false -> method_is req "skip" = false ->
  method_is req "save" = false ->
  next_question req taskid s =
    (Raise (ValueError
              (String.append "invalid 'method' parameter %s"
                 match get (POST req) "method" with
                 | Some m => m
                 | None => "<not set>"
                 end)), s).
Proof.
  intros Hasks Hc Hs Hv.
  rewrite (writer_asks_run _ _ _ _ _ _ Hasks).
  unfold parse_request. rewrite Hc, Hs, Hv. reflexivity.
Qed.

(** X7. Saving a file question with nothing uploaded keeps the answer.
    When a writer saves a question of type "file" and the request carries
    no file, [next_question] answers "ok" with the path of the request as
    the place to go and writes nothing: no Answer row, no entry of the
    history, no event. *)
Theorem file_save_without_upload_keeps_the_answer
    (req : Request) (taskid : Z) (s : State) (task : Task)
    (answered : ModuleAnswers) (q : ModuleQuestion) :
  writer_asks req taskid s task answered q ->
  get (POST req) "method" = Some "save" ->
  mq_type q = "file" ->
  files_get (FILES req) "value" = None ->
  next_question req taskid s = (Ret (JsonOk (path req)), s).
Proof.
  intros Hasks Hmeth Hty Hnone.
  rewrite (writer_asks_run _ _ _ _ _ _ Hasks).
  unfold parse_request.
  rewrite (method_is_other req "save" "clear" Hmeth eq_refl).
  rewrite (method_is_other req "save" "skip" Hmeth eq_refl).
  rewrite (method_is_same req "save" Hmeth).
  rewrite Hty, Hnone. reflexivity.
Qed.

Lemma foreign_question_not_found (req : Request) (s : State) (task : Task)
    (q : ModuleQuestion) :
  names_foreign_question req s task q ->
  questions_get_id task (get (POST req) "question") s = (Raise DoesNotExist, s).
Proof.
  intros ((x & Hx & Hid) & Hin & Hmod & Huniq).
  unfold questions_get_id. rewrite Hx. run_M. rewrite Hid.
  destruct (find (fun q0 => mq_id q0 =? mq_id q)
                 (module_questions s (t_module task))) as [q' |] eqn:E;
    [| reflexivity].
  exfalso. apply find_some in E. destruct E as [Hq' E].
  apply Z.eqb_eq in E. unfold module_questions in Hq'.
  apply filter_In in Hq'. destruct Hq' as [Hq' Hm]. apply Z.eqb_eq in Hm.
  rewrite (Huniq q' Hq' E) in Hm. contradiction.
Qed.

(** X8. A question of another module is refused by both views that take a
    question from the form.  When the form names a question that is not a
    question of the module of the task, [next_question] raises
    [DoesNotExist] for a writer, and
    [instrumentation_record_interaction] answers with the forbidden
    response for a reader; neither writes anything. *)
Theorem foreign_questions_are_refused
    (req : Request) (taskid : Z) (s : State) (task : Task)
    (q : ModuleQuestion) :
  method req = "POST" ->
  find (fun t => (t_id t =? taskid) && in_organization s t (organization req))
       (tasks s) = Some task ->
  names_foreign_question req s task q ->
  (forall answered,
      fst (with_extended_info task s) = Ret answered ->
      has_write_priv s task (user req) false = true ->
      next_question req taskid s = (Raise DoesNotExist, s)) /\
  (forall sid,
      get (POST req) "task" = Some sid -> py_int sid = Some taskid ->
      has_read_priv s task (user req) false = true ->
      instrumentation_record_interaction req s
      = (Ret HttpResponseForbidden, s)).
Proof.
  intros Hm Hfind Hq.
  pose proof (foreign_question_not_found req s task q Hq) as Hget.
  split.
  - intros answered Ha Hw.
    rewrite (next_question_run req taskid s task Hfind), Ha, Hm. simpl.
    unfold next_question_post.
    unfold bind at 1. unfold read at 1. rewrite Hw. simpl.
    unfold bind at 1. rewrite Hget. reflexivity.
  - intros sid Hsid Hid Hr.
    unfold instrumentation_record_interaction. rewrite Hm. simpl.
    unfold getitem. rewrite Hsid.
    unfold bind at 1. unfold lift at 1.
    unfold bind at 1. unfold to_pk at 1. rewrite Hid. unfold ret at 1.
    unfold bind at 1. unfold get_task_or_404, bind, read at 1. rewrite Hfind.
    unfold ret at 1. unfold read at 1. rewrite Hr. simpl.
    unfold except_DoesNotExist. rewrite Hget. reflexivity.
Qed.

(** ** The pages of [next_question] *)

Lemma finished_page_returns (req : Request) (task : Task)
    (answered : ModuleAnswers) (g w : bool) (s s' : State) (r : response) :
  finished_page req task answered g w s = (Ret r, s') ->
  exists ctx, r = RenderFinished ctx.
Proof.
  unfold finished_page. intros H.
  apply bind_ret_inv in H. destruct H as (done & s1 & _ & H).
  apply bind_ret_inv in H. destruct H as (created & s2 & _ & H).
  apply bind_ret_inv in H. destruct H as (u & s3 & _ & H).
  apply bind_ret_inv in H. destruct H as (output & s4 & _ & H).
  apply bind_ret_inv in H. destruct H as (all & s5 & _ & H).
  injection H as <- _. eexists. reflexivity.
Qed.

Lemma question_page_returns (req : Request) (task : Task)
    (answered : ModuleAnswers) (q : ModuleQuestion)
    (taskq : option TaskAnswer) (g w : bool) (s s' : State) (r : response) :
  question_page req task answered q taskq g w s = (Ret r, s') ->
  exists ctx, r = RenderQuestion ctx /\ qc_q ctx = q.
Proof.
  unfold question_page. intros H.
  apply bind_ret_inv in H. destruct H as (answer & s1 & _ & H).
  apply bind_ret_inv in H. destruct H as (tasks & s2 & _ & H).
  apply bind_ret_inv in H. destruct H as (prev & s3 & _ & H).
  apply bind_ret_inv in H. destruct H as (n & s4 & _ & H).
  apply bind_ret_inv in H. destruct H as (u & s5 & _ & H).
  apply bind_ret_inv in H. destruct H as (prompt & s6 & _ & H).
  apply bind_ret_inv in H. destruct H as (history & s7 & _ & H).
  injection H as <- _. eexists. split; reflexivity.
Qed.

Lemma let_in_no_answer (s : State) (req : Request) (task : Task) :
  let_in s req task None -> has_read_priv s task (user req) true = true.
Proof. intros [H | (tq & d & H & _)]; [exact H | discriminate]. Qed.

(** X9. The pages of [next_question] are for those let in.  Whatever a GET
    of [next_question] answers, it is about a Task of the organization of
    the request, and: a page is answered only for a Task that is not
    deleted, under its canonical path, the finished page only to a user
    with the read privilege and the page of a question only to such a user
    or to a participant of the discussion of that question's Answer; the
    redirect to the canonical path and the notice that the Task was
    deleted are answered only to those let in as well.  A GET answers with
    no JSON. *)
Theorem pages_are_for_those_let_in
    (req : Request) (taskid : Z) (s s' : State) (resp : response) :
  (method req =? "POST")%string = false ->
  next_question req taskid s = (Ret resp, s') ->
  exists task,
    find (fun t => (t_id t =? taskid) && in_organization s t (organization req))
         (tasks s) = Some task /\
    answered_to req s task resp.
Proof.
  intros Hm Hrun.
  destruct (find (fun t => (t_id t =? taskid) &&
                           in_organization s t (organization req)) (tasks s))
    as [task |] eqn:Hfind;
    [| rewrite (next_question_not_found _ _ _ Hfind) in Hrun; discriminate].
  exists task. split; [reflexivity |].
  rewrite (next_question_run req taskid s task Hfind), Hm in Hrun.
  destruct (fst (with_extended_info task s)) as [answered | e];
    [| discriminate].
  destruct (next_question_get_cases req task answered s)
    as [(e & _ & E) | (q & Hq & [[_ E] | [Hin [[Hdel E] | [(Hdel & Hp & E) |
         (Hdel & Hp & E)]]]])]; rewrite E in Hrun.
  - discriminate.
  - injection Hrun as <- _. exact I.
  - injection Hrun as <- _. simpl. split; [| exists q; exact Hin].
    destruct Hdel as [d ->]. discriminate.
  - injection Hrun as <- _. simpl. repeat split; try assumption.
    exists q. exact Hin.
  - destruct q as [q |].
    + apply question_page_returns in Hrun. destruct Hrun as (ctx & -> & Hc).
      simpl. rewrite Hc. repeat split; assumption.
    + apply finished_page_returns in Hrun. destruct Hrun as (ctx & ->).
      simpl. split; [apply let_in_no_answer, Hin |]. split; assumption.
Qed.

(** X10. A view is recorded only when it passed the guards.  If a GET of
    [next_question] changes the database, then the task was found in the
    organization of the request, the user was let in, the Task is not
    deleted and the path is its canonical path; and what it adds is one
    event: "task-done" or "task-review" when no question is left,
    "task-question-show" with a count otherwise.  A request that is
    refused, redirected or about a deleted Task records nothing. *)
Theorem views_are_recorded_behind_the_guards
    (req : Request) (taskid : Z) (s : State) :
  (method req =? "POST")%string = false ->
  snd (next_question req taskid s) <> s ->
  exists task q e,
    find (fun t => (t_id t =? taskid) && in_organization s t (organization req))
         (tasks s) = Some task /\
    let_in s req task (answer_of s task q) /\
    t_deleted_at task = None /\ path req = get_absolute_url task /\
    snd (next_question req taskid s) = extend (event_rows [e]) s /\
    page_event req task e /\
    (q = None <-> ev_event_type e <> "task-question-show").
Proof.
  intros Hm Hs.
  destruct (next_question_get_rows req taskid s Hm)
    as [E | (task & answered & q & e & Hfind & _ & _ & Hin & Hdel & Hp & E & He)];
    [contradiction |].
  exists task, q, e. repeat split; try assumption.
  - destruct q as [q |]; [destruct He as (n & _ & ->) | subst e]; reflexivity.
  - destruct q as [q |]; [destruct He as (n & _ & ->) | subst e]; reflexivity.
  - destruct q as [q |]; [destruct He as (n & _ & ->) | subst e]; reflexivity.
  - destruct q as [q |]; [destruct He as (n & _ & ->) | subst e]; reflexivity.
  - destruct q as [q |]; [destruct He as (n & _ & ->); simpl; auto |].
    subst e. apply page_event_finished.
  - intros ->. subst e. unfold finished_event. simpl.
    destruct (events_for s (user req) "task-done" (t_id task) None);
      discriminate.
  - intros Hty. destruct q as [q |]; [| reflexivity].
    destruct He as (n & _ & ->). exfalso. apply Hty. reflexivity.
Qed.

Lemma contains_get (d : QueryDict) (k v : string) :
  get d k = Some v -> contains d k = true.
Proof.
  unfold get, getlist, contains. intros H.
  destruct (existsb (fun kv => String.eqb (fst kv) k) d) eqn:E;
    [reflexivity |].
  assert (filter (fun kv => String.eqb (fst kv) k) d = []) as Hnil.
  { clear H. induction d as [| x d IH]; [reflexivity |].
    simpl in *. apply orb_false_iff in E. destruct E as [-> E].
    apply IH, E. }
  rewrite Hnil in H. discriminate H.
Qed.

Lemma asked_key (req : Request) (task : Task) (answered : ModuleAnswers)
    (key : string) (s : State) :
  get (GET req) "q" = Some key ->
  fst (asked req task answered s) =
    match find (fun q => String.eqb (mq_key q) key)
               (module_questions s (t_module task)) with
    | Some q => Ret (Some q)
    | None => Raise DoesNotExist
    end.
Proof.
  intros Hget. unfold asked. rewrite (contains_get _ _ _ Hget).
  unfold getitem. rewrite Hget. unfold questions_get_key. run_M.
  destruct (find _ (module_questions s (t_module task))); reflexivity.
Qed.

(** X11. The question a GET asks for by its key is looked up before access
    is checked.  For a GET of [next_question] with the parameter [q], a key
    that is no key of a question of the task's module raises
    [DoesNotExist], whoever asks; a key of a question of the module is
    answered with the forbidden response to a user who is not let in.  (So
    answers tell a user without access which keys the module has.) *)
Theorem question_key_is_looked_up_before_access
    (req : Request) (taskid : Z) (s : State) (task : Task)
    (answered : ModuleAnswers) (key : string) :
  (method req =? "POST")%string = false ->
  find (fun t => (t_id t =? taskid) && in_organization s t (organization req))
       (tasks s) = Some task ->
  fst (with_extended_info task s) = Ret answered ->
  get (GET req) "q" = Some key ->
  ((forall q, In q (module_questions s (t_module task)) -> mq_key q <> key) ->
   next_question req taskid s = (Raise DoesNotExist, s)) /\
  (forall q,
      find (fun q => String.eqb (mq_key q) key)
           (module_questions s (t_module task)) = Some q ->
      ~ let_in s req task (find_task_answer s (t_id task) (mq_id q)) ->
      next_question req taskid s = (Ret HttpResponseForbidden, s)).
Proof.
  intros Hm Hfind Ha Hget.
  rewrite (next_question_run req taskid s task Hfind), Ha, Hm.
  pose proof (asked_key req task answered key s Hget) as Hasked.
  split.
  - intros Hno.
    destruct (find (fun q => String.eqb (mq_key q) key)
                   (module_questions s (t_module task))) as [q |] eqn:E.
    + exfalso. apply find_some in E. destruct E as [Hin E].
      apply String.eqb_eq in E. apply (Hno q Hin E).
    + destruct (next_question_get_cases req task answered s)
        as [(e & He & ->) | (q & Hq & _)]; [| congruence].
      rewrite Hasked in He. injection He as <-. reflexivity.
  - intros q Hq Hout. rewrite Hq in Hasked.
    destruct (next_question_get_cases req task answered s)
      as [(e & He & _) | (q' & Hq' & [[_ E] | [Hin _]])]; [congruence | |].
    + exact E.
    + rewrite Hasked in Hq'. injection Hq' as <-. contradiction.
Qed.

(** ** The events of the pages *)

Lemma latest_In (l : list InstrumentationEvent) (e : InstrumentationEvent) :
  latest l = Some e -> In e l.
Proof.
  revert e. induction l as [| x l IH]; [discriminate |].
  simpl. intros e. destruct (latest l) as [e' |].
  - destruct (ev_event_time x <? ev_event_time e'); intros [= <-]; auto.
  - intros [= <-]. auto.
Qed.

Lemma events_for_In (s : State) (u : User) (ty : string) (task : Z)
    (q : option Z) (e : InstrumentationEvent) :
  In e (events_for s u ty task q) ->
  In e (events s) /\ ev_user e = u /\ ev_event_type e = ty /\
  ev_task e = Some task.
Proof.
  unfold events_for. intros H. apply filter_In in H. destruct H as [Hin H].
  apply andb_prop in H. destruct H as [H _].
  apply andb_prop in H. destruct H as [H Ht].
  apply andb_prop in H. destruct H as [Hu Hty].
  split; [exact Hin |]. split; [apply Z.eqb_eq, Hu |].
  split; [apply String.eqb_eq, Hty |].
  destruct (ev_task e) as [t |]; [| discriminate].
  apply Z.eqb_eq in Ht. congruence.
Qed.

(** The events a request adds. *)
Lemma serves_events (req : Request) (s s' : State) :
  serves req s s' ->
  exists l, events s' = events s ++ l /\ Forall (added_event req s) l /\
            (forall task, In (finished_event s req task) l ->
                          l = [finished_event s req task]).
Proof.
  assert (forall d : rows,
             Forall (added_event req s) (more_events d) ->
             (forall task, In (finished_event s req task) (more_events d) ->
                           more_events d = [finished_event s req task]) ->
             exists l, events (extend d s) = events s ++ l /\
                       Forall (added_event req s) l /\
                       (forall task, In (finished_event s req task) l ->
                                     l = [finished_event s req task]))
    as Hext by (intros d H1 H2; exists (more_events d); auto).
  assert (exists l, events s = events s ++ l /\
                    Forall (added_event req s) l /\
                    (forall task, In (finished_event s req task) l ->
                                  l = [finished_event s req task]))
    as Hsame by (exists []; rewrite app_nil_r; repeat split;
                 [constructor | intros task []]).
  intros Hs. destruct Hs as [taskid s | s | s].
  - destruct (method req =? "POST")%string eqn:Hm.
    + destruct (next_question_post_rows req taskid s Hm)
        as [-> | (task & answered & q & v & c & _ & _ & _ & ->)];
        [exact Hsame |].
      destruct (record_proposal_rows req task q v c s)
        as (d & a & -> & _ & _ & _ & _ & _ & _ & _ & _ & He).
      assert (Forall (fun e => ev_event_type e = "task-create" \/
                               In (ev_event_type e) answer_event_types)
                     (more_events d)) as Hty.
      { eapply Forall_impl; [| exact He].
        intros e (_ & _ & _ & [[H _] | [H _]]); auto. }
      apply Hext.
      * eapply Forall_impl; [| exact Hty]. intros e H.
        apply added_by_post, H.
      * intros task0 Hin. exfalso. rewrite Forall_forall in Hty.
        specialize (Hty _ Hin). unfold finished_event in Hty. simpl in Hty.
        destruct (events_for s (user req) "task-done" (t_id task0) None);
          intuition discriminate.
    + destruct (next_question_get_rows req taskid s Hm)
        as [-> | (task & answered & q & e & _ & _ & _ & _ & _ & _ & -> & He)];
        [exact Hsame |].
      apply Hext; simpl.
      * constructor; [| constructor].
        destruct q as [q |]; [destruct He as (n & Hn & ->) | subst e].
        -- apply added_by_show, Hn.
        -- apply added_by_finished.
      * intros task0 [<- | []]. reflexivity.
  - destruct (record_interaction_writes req s)
      as [-> | (task & q & _ & _ & _ & _ & _ & ->)]; [exact Hsame |].
    apply Hext; simpl.
    + constructor; [| constructor]. apply added_by_interaction. reflexivity.
    + intros task0 [H | []]. exfalso.
      apply (f_equal ev_event_type) in H. unfold finished_event in H.
      simpl in H.
      destruct (events_for s (user req) "task-done" (t_id task0) None);
        discriminate.
  - destruct (change_task_state_frame req s) as (_ & _ & _ & _ & _ & He & _).
    exists []. rewrite He, app_nil_r. repeat split;
      [constructor | intros task []].
Qed.

Lemma post_event_type (ty : string) :
  ty = "task-create" \/ In ty answer_event_types ->
  ty <> "task-done" /\ ty <> "task-question-show".
Proof.
  intros H. split; intros E; rewrite E in H; simpl in H;
    intuition discriminate.
Qed.

Lemma finished_event_type (s : State) (req : Request) (task : Task) :
  ev_event_type (finished_event s req task) <> "task-question-show".
Proof.
  unfold finished_event. simpl.
  destruct (events_for s (user req) "task-done" (t_id task) None);
    discriminate.
Qed.





Lemma next_show_count_positive (s : State) (req : Request) (task : Task)
    (q : ModuleQuestion) :
  shows_counted s ->
  exists n, next_show_count s req task q = Some n /\ 1 <= n.
Proof.
  intros H. unfold next_show_count.
  destruct (latest (events_for s (user req) "task-question-show" (t_id task)
                               (Some (mq_id q)))) as [e |] eqn:El.
  - apply latest_In, events_for_In in El.
    destruct El as (Hin & _ & Hty & _).
    destruct (H e Hin Hty) as (n & -> & Hn).
    exists (n + 1). split; [reflexivity | lia].
  - exists 1. split; [reflexivity | lia].
Qed.

Lemma serves_shows_counted (req : Request) (s s' : State) :
  serves req s s' -> shows_counted s -> shows_counted s'.
Proof.
  intros Hs H0 e Hin Hty.
  destruct (serves_events req s s' Hs) as (l & He & Hl & _).
  rewrite He in Hin. apply in_app_or in Hin.
  destruct Hin as [Hin | Hin]; [apply (H0 e Hin Hty) |].
  rewrite Forall_forall in Hl.
  assert (added_event req s e) as Ha by (apply Hl, Hin).
  inversion Ha as [e' Hp | e' Hi | task q n a Hn | task]; subst.
  - exfalso. apply (proj2 (post_event_type _ Hp)), Hty.
  - rewrite Hi in Hty. discriminate.
  - destruct (next_show_count_positive s req task q H0) as (n' & Hn' & Hpos).
    exists n. split; [reflexivity | congruence].
  - exfalso. apply (finished_event_type s req task), Hty.
Qed.

(** X13. The count of showings never goes missing.  In every state the
    views lead to from a database whose "task-question-show" events carry
    a count of at least one, every such event carries a count of at least
    one; so the count of the next showing of any question to any user is
    defined, and the addition of line 349 does not meet [None]. *)
Theorem show_counts_are_kept (s0 s : State) :
  shows_counted s0 -> reachable s0 s ->
  shows_counted s /\
  forall req task q, exists n, next_show_count s req task q = Some n /\ 1 <= n.
Proof.
  intros H0 Hr.
  assert (shows_counted s) as H.
  { induction Hr as [| s1 s2 _ IH Hstep]; [exact H0 |].
    destruct (step_serves _ _ Hstep) as [req Hs].
    apply (serves_shows_counted req s1 s2 Hs IH). }
  split; [exact H |].
  intros req task q. apply next_show_count_positive, H.
Qed.

(** ** The first interaction and the state of a Task *)

Lemma earliest_spec (l : list InstrumentationEvent) :
  match earliest l with
  | None => l = []
  | Some e => In e l /\
              forall e', In e' l -> ev_event_time e <= ev_event_time e'
  end.
Proof.
  induction l as [| x l IH]; [reflexivity |].
  simpl. destruct (earliest l) as [e |].
  - destruct IH as [Hin Hmin].
    destruct (Z.ltb_spec (ev_event_time e) (ev_event_time x)) as [Hlt | Hge].
    + split; [right; exact Hin |].
      intros e' [<- | H]; [lia | apply Hmin, H].
    + split; [left; reflexivity |].
      intros e' [<- | H]; [lia |]. specialize (Hmin e' H). lia.
  - subst l. split; [left; reflexivity |].
    intros e' [<- | []]. lia.
Qed.

Lemma since_first_show_spec (req : Request) (task : Task) (q : ModuleQuestion)
    (s : State) :
  since_first_shown s req task q
    (option_map (fun e => now req - ev_event_time e)
       (earliest (events_for s (user req) "task-question-show" (t_id task)
                             (Some (mq_id q))))).
Proof.
  unfold since_first_shown.
  pose proof (earliest_spec (events_for s (user req) "task-question-show"
                                        (t_id task) (Some (mq_id q)))) as H.
  destruct (earliest _) as [e |]; simpl.
  - exists e. destruct H as [Hin Hmin]. auto.
  - exact H.
Qed.

(** X14. The first interaction is recorded for readers, and timed from the
    first showing.  If [instrumentation_record_interaction] changes the
    database, then the request is a POST that names a Task of its
    organization and a question of the module of that Task, the user has
    the read privilege on the Task and no first interaction of theirs with
    the question was recorded before; what is added is one event, whose
    value is the time from the earliest showing of the question to that
    user until the request, and nothing when the question was never shown
    to them. *)
Theorem interactions_are_recorded_for_readers (req : Request) (s : State) :
  snd (instrumentation_record_interaction req s) <> s ->
  exists task q e,
    names_question req (t_id task) (mq_id q) /\
    find (fun t => (t_id t =? t_id task) &&
                   in_organization s t (organization req)) (tasks s)
      = Some task /\
    has_read_priv s task (user req) false = true /\
    In q (module_questions s (t_module task)) /\
    interact_first_count s (user req) (t_id task) (mq_id q) = 0%nat /\
    snd (instrumentation_record_interaction req s)
      = extend (event_rows [e]) s /\
    ev_event_type e = interact_first /\
    ev_user e = user req /\ ev_event_time e = now req /\
    ev_task e = Some (t_id task) /\ ev_question e = Some (mq_id q) /\
    ev_answer e = option_map ta_id (find_task_answer s (t_id task) (mq_id q)) /\
    since_first_shown s req task q (ev_event_value e).
Proof.
  intros Hs.
  destruct (record_interaction_writes req s)
    as [E | (task & q & Hn & Hfind & Hr & Hq & Hnone & E)]; [contradiction |].
  exists task, q. eexists.
  split; [exact Hn |]. split; [exact Hfind |]. split; [exact Hr |].
  split; [exact Hq |].
  split; [unfold interact_first_count; rewrite Hnone; reflexivity |].
  split; [exact E |]. simpl. repeat split.
  apply since_first_show_spec.
Qed.

(** X15. The state of a Task changes for writers only.  If
    [change_task_state] changes the database, then the request is a POST
    that names a Task of its organization, the user has the write
    privilege on it (a deleted Task counts), and the state asked for is
    "delete", which stamps the Task with the time of the request, or
    "undelete", which takes the stamp off. *)
Theorem task_state_changes_need_write_access (req : Request) (s : State) :
  snd (change_task_state req s) <> s ->
  exists task st,
    asks_state req (t_id task) st /\
    find (fun t => (t_id t =? t_id task) &&
                   in_organization s t (organization req)) (tasks s)
      = Some task /\
    has_write_priv s task (user req) true = true /\
    (st = "delete" /\
     snd (change_task_state req s)
     = save_deleted_at (t_id task) (Some (now req)) s \/
     st = "undelete" /\
     snd (change_task_state req s) = save_deleted_at (t_id task) None s).
Proof.
  intros Hs.
  destruct (change_task_state_writes req s) as [E | H]; [contradiction |].
  exact H.
Qed.

Lemma no_show_among (l : list InstrumentationEvent) (s : State)
    (u : User) (task : Z) (q : option Z) :
  Forall (fun e => ev_event_type e = "task-create") l ->
  events_for (with_events l s) u "task-question-show" task q = [].
Proof.
  unfold events_for. simpl.
  induction 1 as [| e l He _ IH]; [reflexivity |].
  simpl. rewrite IH, He. simpl. rewrite andb_false_r. reflexivity.
Qed.

(** The events of a recorded proposal: the event of a Task made for the
    answer, if one was made, and then the event of the answer. *)
Lemma record_proposal_events (req : Request) (task : Task)
    (q : ModuleQuestion) (v : value) (c : bool) (s s' : State)
    (resp : response) :
  record_proposal req task q v c s = (Ret resp, s') ->
  exists l a r ty,
    Forall (fun e => ev_event_type e = "task-create") l /\
    find_task_answer s' (t_id task) (mq_id q) = Some a /\
    In ty ["clear"; "skip"; "change"; "answer"; "keep"] /\
    events s' = events s ++ l ++
      [answer_event req task q a r ty
         (option_map (fun e => now req - ev_event_time e)
            (earliest (events_for s (user req) "task-question-show"
                                  (t_id task) (Some (mq_id q)))))].
Proof.
  intros Hrun.
  destruct (record_proposal_inv _ _ _ _ _ _ _ _ Hrun)
    as (a & s1 & r & s2 & ty & s3 & ev & H1 & H2 & H3 & H4 & _ & ->).
  destruct (TaskAnswer_get_or_create_spec task q s)
    as (a' & Hfst & _ & _ & Hfind & Hs1).
  rewrite H1 in Hfst, Hfind, Hs1. simpl in Hfst, Hfind, Hs1.
  injection Hfst as <-.
  assert (events s1 = events s) as E1
    by (destruct Hs1 as [-> | (_ & _ & ->)]; reflexivity).
  assert (exists l, Forall (fun e => ev_event_type e = "task-create") l /\
                    events s2 = events s1 ++ l /\
                    task_answers s2 = task_answers s1) as (l & Hl & E2 & A2).
  { destruct (fetch_cases req task q a v c (path req) s1)
      as [Hsame | (m & _ & Hnew)].
    - rewrite H2 in Hsame. simpl in Hsame. subst s2.
      exists []. rewrite app_nil_r. repeat split. constructor.
    - rewrite H2 in Hnew. cbv zeta in Hnew.
      apply (f_equal snd) in Hnew.
      change (s2 = snd (Task_create a (user req) (t_project task) m
                                    (m_title m) (now req) s1)) in Hnew.
      rewrite Hnew.
      destruct (Task_create_rows a (user req) (t_project task) m (now req) s1)
        as (ec & -> & _ & _ & _ & Hty & _).
      exists [ec]. simpl. rewrite app_nil_r. repeat split.
      constructor; [exact Hty | constructor]. }
  destruct (record_answer_cases req a c r s2) as (ty' & lh & H3' & Hty & _).
  rewrite H3 in H3'. injection H3' as <- ->.
  unfold since_first_show, read in H4. injection H4 as <-.
  exists l, a, r, ty.
  split; [exact Hl |].
  split.
  { rewrite <- Hfind. apply find_task_answer_ext. simpl.
    rewrite app_nil_r. exact A2. }
  split; [exact Hty |].
  rewrite (events_for_same_events (with_events (events s ++ l) s)
             (extend (history_rows lh) s2))
    by (simpl; rewrite app_nil_r, E2, E1; reflexivity).
  rewrite events_for_app, (no_show_among l s _ _ _ Hl), app_nil_r.
  simpl. rewrite app_nil_r, E2, E1, <- app_assoc. reflexivity.
Qed.

(** X16. Answers are timed from the first showing.  When a POST of
    [next_question] records a proposal, the last event of the database is
    the event of the answer, of one of the types "task-question-clear",
    "-skip", "-change", "-answer" and "-keep", by the user and at the time
    of the request, about the question and its Answer; its value is the
    time from the earliest showing of the question to that user until the
    request, and nothing when the question was never shown to them.  The
    only other events the request adds are the "task-create" events of a
    Task made for the answer. *)
Theorem answers_are_timed_from_the_first_showing
    (req : Request) (taskid : Z) (s s' : State) (task : Task)
    (answered : ModuleAnswers) (q : ModuleQuestion) (v : value) (c : bool)
    (resp : response) :
  writer_asks req taskid s task answered q ->
  parse_request req q answered (path req) = Ret (Proposed v c) ->
  next_question req taskid s = (Ret resp, s') ->
  exists l e a,
    events s' = events s ++ l ++ [e] /\
    Forall (fun x => ev_event_type x = "task-create") l /\
    In (ev_event_type e) answer_event_types /\
    ev_user e = user req /\ ev_event_time e = now req /\
    ev_task e = Some (t_id task) /\ ev_question e = Some (mq_id q) /\
    find_task_answer s' (t_id task) (mq_id q) = Some a /\
    ev_answer e = Some (ta_id a) /\
    since_first_shown s req task q (ev_event_value e).
Proof.
  intros Hasks Hparse Hrun.
  rewrite (writer_asks_run _ _ _ _ _ _ Hasks), Hparse in Hrun.
  destruct (record_proposal_events _ _ _ _ _ _ _ _ Hrun)
    as (l & a & r & ty & Hl & Hfind & Hty & He).
  exists l. eexists. exists a.
  split; [exact He |]. split; [exact Hl |].
  split; [apply answer_event_type_listed, Hty |].
  simpl. repeat split; try assumption.
  apply since_first_show_spec.
Qed.

(** ** The tasks offered as answers *)

Lemma key_is_spec (k : bool * bool) (c : option Z) (task : Task)
    (x : Task * bool) :
  key_is k c task x = true <-> sort_key c task (fst x) = k.
Proof.
  unfold key_is. destruct (sort_key c task (fst x)) as [a b].
  destruct k as [a' b']. simpl.
  rewrite andb_true_iff, !eqb_true_iff.
  split; [intros [-> ->]; reflexivity | intros [= -> ->]; auto].
Qed.

Lemma filter_key_In (k : bool * bool) (c : option Z) (task : Task)
    (l : list (Task * bool)) (x : Task * bool) :
  In x (filter (key_is k c task) l) -> sort_key c task (fst x) = k.
Proof. intros H. apply filter_In in H. apply key_is_spec, H. Qed.

Lemma filter_key_twice (k k' : bool * bool) (c : option Z) (task : Task)
    (l : list (Task * bool)) :
  filter (key_is k c task) (filter (key_is k' c task) l)
  = if Bool.eqb (fst k) (fst k') && Bool.eqb (snd k) (snd k')
    then filter (key_is k' c task) l else [].
Proof.
  induction l as [| x l IH].
  - simpl. destruct (_ && _); reflexivity.
  - simpl. destruct (key_is k' c task x) eqn:E'; [| exact IH].
    simpl. rewrite IH. apply key_is_spec in E'.
    destruct (key_is k c task x) eqn:E.
    + apply key_is_spec in E. rewrite E in E'. subst k'.
      rewrite !eqb_reflx. reflexivity.
    + destruct (Bool.eqb (fst k) (fst k') && Bool.eqb (snd k) (snd k')) eqn:Ek;
        [| reflexivity].
      exfalso. apply andb_prop in Ek. destruct Ek as [E1 E2].
      apply eqb_prop in E1, E2.
      assert (key_is k c task x = true) as H; [| congruence].
      apply key_is_spec. rewrite E'. destruct k, k'. simpl in *. congruence.
Qed.

Lemma filter_cons_key (k : bool * bool) (c : option Z) (task : Task)
    (x : Task * bool) (l : list (Task * bool)) :
  filter (key_is k c task) (x :: l)
  = if Bool.eqb (fst (sort_key c task (fst x))) (fst k) &&
       Bool.eqb (snd (sort_key c task (fst x))) (snd k)
    then x :: filter (key_is k c task) l
    else filter (key_is k c task) l.
Proof. reflexivity. Qed.

Lemma sorted_same_key (k : bool * bool) (c : option Z) (task : Task)
    (l : list (Task * bool)) :
  StronglySorted (key_ordered c task) (filter (key_is k c task) l).
Proof.
  induction l as [| x l IH]; simpl; [constructor |].
  destruct (key_is k c task x) eqn:E; [| exact IH].
  constructor; [exact IH |].
  apply Forall_forall. intros y Hy. apply filter_key_In in Hy.
  apply key_is_spec in E. unfold key_ordered. rewrite E, Hy.
  destruct k as [[|] [|]]; reflexivity.
Qed.

Lemma sorted_app {A : Type} (R : A -> A -> Prop) (l1 l2 : list A) :
  StronglySorted R l1 -> StronglySorted R l2 ->
  (forall a b, In a l1 -> In b l2 -> R a b) ->
  StronglySorted R (l1 ++ l2).
Proof.
  intros H1 H2 H. induction H1 as [| a l1 H1 IH Ha]; [exact H2 |].
  simpl. constructor.
  - apply IH. intros x y Hx Hy. apply H; [right |]; assumption.
  - apply Forall_app. split; [exact Ha |].
    apply Forall_forall. intros y Hy. apply H; [left; reflexivity | exact Hy].
Qed.

(** X17. The tasks offered as answers are the readable tasks, stably
    sorted.  The list shown with a question is a rearrangement of the
    annotated tasks: none is dropped and none is doubled; it is in the
    order of the keys (is not the current answer, is not of the project of
    the task), so the current answer comes first, then the tasks of the
    same project, then the others; and tasks with the same key stay in the
    order they had. *)
Theorem answer_tasks_are_stably_sorted
    (current : option Z) (task : Task) (l : list (Task * bool)) :
  Permutation l (sorted_answer_tasks current task l) /\
  StronglySorted (key_ordered current task)
                 (sorted_answer_tasks current task l) /\
  forall k, filter (key_is k current task) (sorted_answer_tasks current task l)
            = filter (key_is k current task) l.
Proof.
  unfold sorted_answer_tasks. split; [| split].
  - induction l as [| x l IH]; [constructor |].
    rewrite !filter_cons_key.
    destruct (sort_key current task (fst x)) as [[|] [|]];
      cbn [fst snd Bool.eqb andb].
    + rewrite !app_assoc. apply Permutation_cons_app.
      rewrite <- !app_assoc. exact IH.
    + rewrite (app_assoc (filter _ l) (filter _ l)).
      apply Permutation_cons_app. rewrite <- app_assoc. exact IH.
    + apply Permutation_cons_app. exact IH.
    + constructor. exact IH.
  - assert (forall k k' a b,
               In a (filter (key_is k current task) l) ->
               In b (filter (key_is k' current task) l) ->
               key_leb k k' = true -> key_ordered current task a b) as Hcross.
    { intros k k' a b Ha Hb Hk. apply filter_key_In in Ha, Hb.
      unfold key_ordered. rewrite Ha, Hb. exact Hk. }
    repeat apply sorted_app; try apply sorted_same_key.
    + intros a b Ha Hb. eapply Hcross; [exact Ha | exact Hb | reflexivity].
    + intros a b Ha Hb. apply in_app_or in Hb.
      destruct Hb as [Hb | Hb];
        (eapply Hcross; [exact Ha | exact Hb | reflexivity]).
    + intros a b Ha Hb. apply in_app_or in Hb.
      destruct Hb as [Hb | Hb]; [| apply in_app_or in Hb; destruct Hb as [Hb | Hb]];
        (eapply Hcross; [exact Ha | exact Hb | reflexivity]).
  - intros k. rewrite !filter_app, !filter_key_twice.
    destruct k as [[|] [|]]; simpl; rewrite ?app_nil_r; reflexivity.
Qed.

(** ** The tabs of the project page *)

Lemma set_intro_names (tabs : list (string * option Document)) (name : string)
    (doc : Document) :
  map fst (set_intro tabs name doc) = map fst tabs.
Proof.
  induction tabs as [| [n i] tabs IH]; [reflexivity |].
  simpl. destruct (String.eqb n name); simpl; [| rewrite IH]; reflexivity.
Qed.

Lemma has_tab_names (tabs tabs' : list (string * option Document))
    (name : string) :
  map fst tabs' = map fst tabs -> has_tab tabs' name = has_tab tabs name.
Proof.
  unfold has_tab. revert tabs'.
  induction tabs as [| [n i] tabs IH]; intros [| [n' i'] tabs'] H;
    try discriminate; [reflexivity |].
  simpl in *. injection H as -> H. rewrite (IH _ H). reflexivity.
Qed.

Lemma intro_of_set_intro (tabs : list (string * option Document))
    (name : string) (doc : Document) (m : string) :
  intro_of (set_intro tabs name doc) m =
    if String.eqb name m && has_tab tabs name then Some doc
    else intro_of tabs m.
Proof.
  unfold has_tab. induction tabs as [| [n i] tabs IH]; simpl.
  - rewrite andb_false_r. reflexivity.
  - destruct (String.eqb_spec n name) as [-> | Hn]; simpl.
    + rewrite ?andb_true_r.
      destruct (String.eqb name m); reflexivity.
    + rewrite IH. apply String.eqb_neq in Hn. simpl.
      destruct (String.eqb_spec n m) as [-> | Hm]; [| reflexivity].
      destruct (String.eqb_spec name m) as [-> | _]; [| reflexivity].
      rewrite String.eqb_refl in Hn. discriminate Hn.
Qed.

Lemma intro_of_no_tab (tabs : list (string * option Document)) (m : string) :
  has_tab tabs m = false -> intro_of tabs m = None.
Proof.
  unfold has_tab. induction tabs as [| [n i] tabs IH]; [reflexivity |].
  simpl. destruct (String.eqb n m); [discriminate | exact IH].
Qed.

Lemma last_error_cons {A : Type} (x : A) (l : list A) :
  last_error (x :: l) = match last_error l with
                        | Some y => Some y
                        | None => Some x
                        end.
Proof.
  destruct l as [| y l]; [reflexivity |].
  simpl. destruct l; [reflexivity |]. destruct (last_error (a :: l)) eqn:E.
  - reflexivity.
  - exfalso. revert E. clear. revert a.
    induction l as [| z l IH]; intros a; [discriminate |].
    simpl. simpl in IH. apply IH.
Qed.

(** X18. Where the output documents of the project page go.  The loop
    over the rendered documents keeps the tabs and their order; a document
    that names a tab that is there becomes the introduction of that tab,
    and when several documents name the same tab the last one is the
    introduction and the earlier ones are not shown; every other document
    is added, in order, to the additional tabs. *)
Theorem documents_are_placed
    (docs : list Document) (tabs : list (string * option Document))
    (additional_tabs : list Document) :
  let (tabs', additional) := place_documents docs tabs additional_tabs in
  map fst tabs' = map fst tabs /\
  additional
  = additional_tabs ++ filter (fun d => negb (tabbed tabs d)) docs /\
  forall name,
    intro_of tabs' name =
      if has_tab tabs name then
        match last_for docs name with
        | Some d => Some d
        | None => intro_of tabs name
        end
      else None.
Proof.
  revert tabs additional_tabs.
  induction docs as [| d docs IH]; intros tabs acc.
  - simpl. rewrite app_nil_r. repeat split.
    intros name. unfold last_for. simpl.
    destruct (has_tab tabs name) eqn:E; [reflexivity |].
    apply intro_of_no_tab, E.
  - simpl. unfold tabbed at 1.
    assert (forall name,
               last_for (d :: docs) name =
                 match last_for docs name with
                 | Some d' => Some d'
                 | None => match doc_tab d with
                           | Some n => if String.eqb n name then Some d
                                       else None
                           | None => None
                           end
                 end) as Hlast.
    { intros name. unfold last_for. simpl.
      destruct (doc_tab d) as [n |];
        [| destruct (last_error _); reflexivity].
      destruct (String.eqb n name);
        [| destruct (last_error _); reflexivity].
      apply last_error_cons. }
    destruct (doc_tab d) as [n |] eqn:Ed.
    + destruct (has_tab tabs n) eqn:Eh.
      * specialize (IH (set_intro tabs n d) acc).
        destruct (place_documents docs (set_intro tabs n d) acc)
          as [tabs' extra].
        destruct IH as (Hnames & Hextra & Hintro).
        pose proof (set_intro_names tabs n d) as Hn.
        split; [congruence |].
        split.
        { simpl. rewrite Hextra. f_equal. apply filter_ext.
          intros x. unfold tabbed. destruct (doc_tab x); [| reflexivity].
          rewrite (has_tab_names _ _ _ Hn). reflexivity. }
        intros name. rewrite Hintro, Hlast, (has_tab_names _ _ _ Hn).
        destruct (has_tab tabs name); [| reflexivity].
        destruct (last_for docs name); [reflexivity |].
        rewrite intro_of_set_intro, Eh, andb_true_r.
        destruct (String.eqb n name); reflexivity.
      * specialize (IH tabs (acc ++ [d])).
        destruct (place_documents docs tabs (acc ++ [d])) as [tabs' extra].
        destruct IH as (Hnames & Hextra & Hintro).
        split; [exact Hnames |].
        split; [simpl; rewrite Hextra, <- app_assoc; reflexivity |].
        intros name. rewrite Hintro, Hlast.
        destruct (has_tab tabs name) eqn:Et; [| reflexivity].
        destruct (last_for docs name); [reflexivity |].
        destruct (String.eqb_spec n name) as [-> | _]; [congruence |].
        reflexivity.
    + specialize (IH tabs (acc ++ [d])).
      destruct (place_documents docs tabs (acc ++ [d])) as [tabs' extra].
      destruct IH as (Hnames & Hextra & Hintro).
      split; [exact Hnames |].
      split; [simpl; rewrite Hextra, <- app_assoc; reflexivity |].
      intros name. rewrite Hintro, Hlast.
      destruct (last_for docs name); reflexivity.
Qed.

End Properties.

(** * Properties of the views of the site *)

Section SiteProperties.

Context {host : Host} {forum : Forum} {site_host : SiteHost}.

Ltac run_V :=
  repeat progress
    (unfold vbind, vlift, vread, vret, vraise, vwrite; cbv beta).

Lemma vbind_run {A B : Type} (m : V A) (k : A -> V B) (site site1 : Site)
    (a : A) :
  m site = (Ret a, site1) -> vbind m k site = k a site1.
Proof. intros H. unfold vbind. rewrite H. reflexivity. Qed.

Lemma vbind_raise {A B : Type} (m : V A) (k : A -> V B) (site site1 : Site)
    (e : exn) :
  m site = (Raise e, site1) -> vbind m k site = (Raise e, site1).
Proof. intros H. unfold vbind. rewrite H. reflexivity. Qed.

Lemma vbind_ret_inv {A B : Type} (m : V A) (k : A -> V B) (site site' : Site)
    (b : B) :
  vbind m k site = (Ret b, site') ->
  exists a site1, m site = (Ret a, site1) /\ k a site1 = (Ret b, site').
Proof.
  unfold vbind. destruct (m site) as [[a | e] site1]; intros H.
  - exists a, site1. split; [reflexivity | exact H].
  - discriminate H.
Qed.

Lemma reads_only_vret {A : Type} (a : A) : reads_only (vret a).
Proof. intros site. reflexivity. Qed.

Lemma reads_only_vraise {A : Type} (e : exn) : reads_only (vraise e : V A).
Proof. intros site. reflexivity. Qed.

Lemma reads_only_vread {A : Type} (f : Site -> A) : reads_only (vread f).
Proof. intros site. reflexivity. Qed.

Lemma reads_only_vlift {A : Type} (o : outcome A) : reads_only (vlift o).
Proof. intros site. reflexivity. Qed.

Lemma reads_only_vbind {A B : Type} (m : V A) (k : A -> V B) :
  reads_only m -> (forall a, reads_only (k a)) -> reads_only (vbind m k).
Proof.
  intros Hm Hk site. unfold vbind. specialize (Hm site).
  destruct (m site) as [[a | e] site1]; simpl in Hm; subst site1.
  - apply Hk.
  - reflexivity.
Qed.

Lemma reads_only_result {A : Type} (m : V A) (site site' : Site)
    (o : outcome A) :
  reads_only m -> m site = (o, site') -> site' = site.
Proof. intros H E. specialize (H site). rewrite E in H. exact H. Qed.

Lemma with_site_db_same (site : Site) : with_site_db (site_db site) site = site.
Proof. destruct site. reflexivity. Qed.

Lemma reads_only_on_db {A : Type} (m : M A) :
  read_only m -> reads_only (on_db m).
Proof.
  intros H site. unfold on_db. specialize (H (site_db site)).
  destruct (m (site_db site)) as [o s]. simpl in *. subst s.
  apply with_site_db_same.
Qed.

Lemma reads_only_answered_by (req : Request) (root : Task)
    (mq : ModuleQuestion) :
  reads_only (answered_by req root mq).
Proof.
  unfold answered_by. apply reads_only_vbind; [apply reads_only_vread |].
  intros [ans |]; [| apply reads_only_vret].
  apply reads_only_vbind; [apply reads_only_vread |].
  intros [h |]; [apply reads_only_vread | apply reads_only_vraise].
Qed.

Lemma reads_only_project_module_entry (req : Request) (root : Task)
    (is_member : bool) (guest_of : list Z) (tabs : list Tab)
    (mq : ModuleQuestion) :
  reads_only (project_module_entry req root is_member guest_of tabs mq).
Proof.
  unfold project_module_entry.
  destruct (negb (is_module_type mq)); [apply reads_only_vret |].
  apply reads_only_vbind; [apply reads_only_answered_by |]. intros tasks.
  apply reads_only_vbind; [apply reads_only_vread |]. intros ds.
  destruct (negb is_member && (List.length ds =? 0)%nat);
    [apply reads_only_vret |].
  destruct (spec_module_id mq); [| apply reads_only_vraise].
  apply reads_only_vbind; [apply reads_only_vread |].
  intros [m |]; [apply reads_only_vret | apply reads_only_vraise].
Qed.

Lemma reads_only_fold_V {A B : Type} (f : B -> A -> V B) (l : list A) :
  (forall acc a, reads_only (f acc a)) ->
  forall acc, reads_only (fold_V f l acc).
Proof.
  intros Hf. induction l as [| x l IH]; intros acc; simpl.
  - apply reads_only_vret.
  - apply reads_only_vbind; [apply Hf | intros acc'; apply IH].
Qed.

(** A loop that reads only fails when its body fails for one item. *)
Lemma fold_V_raises {A B : Type} (f : B -> A -> V B) (l : list A) (x : A)
    (site : Site) :
  In x l -> (forall acc a, reads_only (f acc a)) ->
  (forall acc, exists e, fst (f acc x site) = Raise e) ->
  forall acc, exists e, fold_V f l acc site = (Raise e, site).
Proof.
  intros Hin Hro Hx. induction l as [| a l IH]; [destruct Hin |].
  intros acc. simpl. unfold vbind.
  destruct (f acc a site) as [[acc' | e] site1] eqn:E.
  - pose proof (reads_only_result _ _ _ _ (Hro acc a) E) as ->.
    destruct Hin as [-> | Hin].
    + destruct (Hx acc) as [e He]. rewrite E in He. discriminate He.
    + apply IH, Hin.
  - pose proof (reads_only_result _ _ _ _ (Hro acc a) E) as ->.
    exists e. reflexivity.
Qed.

Lemma project_guard_run (req : Request) (project_id : Z) (site : Site)
    (p : Project) :
  find_project (site_db site) project_id = Some p ->
  project_has_read_priv site p (user req) = true ->
  project req project_id site =
    if negb (String.eqb (path req) (project_get_absolute_url p)) then
      (Raise (UnboundLocalError "task"), site)
    else project_page req p site.
Proof.
  intros Hfind Hrp. unfold project, get_project_or_404.
  unfold vbind at 1. unfold vbind at 1. unfold vread at 1.
  rewrite Hfind. unfold vret at 1.
  unfold vbind at 1. unfold vread at 1. rewrite Hrp. simpl negb. cbv iota.
  destruct (negb (String.eqb (path req) (project_get_absolute_url p)));
    reflexivity.
Qed.

(** X19. The project page never redirects to its canonical path.  When a
    user who may read the project asks for its page under a path that is
    not the canonical one, line 112 reads the variable [task], which is
    local to the function and has no value yet: the view raises
    [UnboundLocalError] where it was to answer with a redirect, and writes
    nothing. *)
Theorem project_redirect_is_an_error
    (req : Request) (project_id : Z) (site : Site) (p : Project) :
  find_project (site_db site) project_id = Some p ->
  project_has_read_priv site p (user req) = true ->
  path req <> project_get_absolute_url p ->
  project req project_id site = (Raise (UnboundLocalError "task"), site).
Proof.
  intros Hfind Hrp Hpath.
  rewrite (project_guard_run req project_id site p Hfind Hrp).
  apply String.eqb_neq in Hpath. rewrite Hpath. reflexivity.
Qed.

Lemma project_root_task_run (p : Project) (site : Site) (id : Z) (root : Task) :
  p_root_task p = Some id -> find_task (site_db site) id = Some root ->
  project_root_task p site = (Ret root, site).
Proof.
  intros Hp Hf. unfold project_root_task. rewrite Hp. run_V. rewrite Hf.
  reflexivity.
Qed.

Lemma task_module_run (t : Task) (site : Site) (m : Module) :
  find_module (site_db site) (t_module t) = Some m ->
  task_module t site = (Ret m, site).
Proof. intros H. unfold task_module. run_V. rewrite H. reflexivity. Qed.

(** When the loop over the questions fails, the page fails. *)
Lemma project_page_loop_raises (req : Request) (p : Project) (site : Site)
    (id : Z) (root : Task) (m : Module) (e : exn) :
  p_root_task p = Some id -> find_task (site_db site) id = Some root ->
  find_module (site_db site) (t_module root) = Some m ->
  fold_V (project_module_entry req root
            (existsb (fun pm => pm_user pm =? user req)
               (filter (fun pm => pm_project pm =? p_id p) (memberships site)))
            (get_discussions_in_project_as_guest site p (user req)))
         (module_questions (site_db site) (m_id m)) [] site
    = (Raise e, site) ->
  project_page req p site = (Raise e, site).
Proof.
  intros Hp Hroot Hm Hloop. unfold project_page.
  unfold vbind at 1. unfold vread at 1.
  unfold vbind at 1. unfold vread at 1.
  rewrite (vbind_run _ _ _ _ _ (project_root_task_run p site id root Hp Hroot)).
  rewrite (vbind_run _ _ _ _ _ (task_module_run root site m Hm)).
  unfold vbind at 1. unfold vread at 1.
  apply vbind_raise, Hloop.
Qed.

Lemma project_module_entry_no_history (req : Request) (root : Task)
    (is_member : bool) (guest_of : list Z) (tabs : list Tab)
    (q : ModuleQuestion) (site : Site) (a : TaskAnswer) :
  is_module_type q = true ->
  find_task_answer (site_db site) (t_id root) (mq_id q) = Some a ->
  get_current_answer (site_db site) a = None ->
  project_module_entry req root is_member guest_of tabs q site
  = (Raise (AttributeError
              "'NoneType' object has no attribute 'answered_by_task'"), site).
Proof.
  intros Hq Ha Hnone. unfold project_module_entry. rewrite Hq. simpl negb.
  cbv iota. apply vbind_raise. unfold answered_by. run_V.
  rewrite Ha, Hnone. reflexivity.
Qed.

Lemma fold_V_skips {A B : Type} (f : B -> A -> V B) (l1 l2 : list A)
    (acc : B) (site : Site) :
  (forall a, In a l1 -> f acc a site = (Ret acc, site)) ->
  fold_V f (l1 ++ l2) acc site = fold_V f l2 acc site.
Proof.
  induction l1 as [| x l1 IH]; intros H; [reflexivity |].
  simpl. rewrite (vbind_run _ _ _ _ _ (H x (or_introl eq_refl))).
  apply IH. intros a Ha. apply H. right. exact Ha.
Qed.

(** The loop of the project page stops at an Answer without history. *)
Lemma no_history_raises (req : Request) (project_id : Z) (site : Site)
    (p : Project) (root : Task) (q : ModuleQuestion) (a : TaskAnswer) :
  reads_project req project_id site p ->
  module_question_of site p root q ->
  find_task_answer (site_db site) (t_id root) (mq_id q) = Some a ->
  get_current_answer (site_db site) a = None ->
  exists e, project req project_id site = (Raise e, site).
Proof.
  intros (Hfind & Hrp & Hpath) ((id & Hp & Hroot) & (m & Hm & Hq) & Hty) Ha Hnone.
  rewrite (project_guard_run req project_id site p Hfind Hrp).
  rewrite Hpath, String.eqb_refl. simpl negb. cbv iota.
  destruct (fold_V_raises
              (project_module_entry req root
                 (existsb (fun pm => pm_user pm =? user req)
                    (filter (fun pm => pm_project pm =? p_id p)
                            (memberships site)))
                 (get_discussions_in_project_as_guest site p (user req)))
              (module_questions (site_db site) (m_id m)) q site Hq)
    with (acc := @nil Tab) as [e He].
  - intros acc x. apply reads_only_project_module_entry.
  - intros acc. eexists.
    rewrite (project_module_entry_no_history _ _ _ _ _ _ _ _ Hty Ha Hnone).
    reflexivity.
  - exists e.
    apply (project_page_loop_raises req p site id root m e Hp Hroot Hm He).
Qed.

(** X20. An Answer without history breaks the project page.  When the
    root task of a project has an Answer row without any entry of history
    for one of its questions answered by tasks, line 148 gets [None] for
    the current answer and line 149 asks it for its tasks: for every user
    who may read the project, the page of the project fails with an
    exception and nothing is rendered; the exception is the
    [AttributeError] of line 149 when the question is the first question
    answered by tasks of the module. *)
Theorem answer_without_history_breaks_the_project_page
    (req : Request) (project_id : Z) (site : Site) (p : Project)
    (root : Task) (q : ModuleQuestion) (a : TaskAnswer) :
  reads_project req project_id site p ->
  module_question_of site p root q ->
  find_task_answer (site_db site) (t_id root) (mq_id q) = Some a ->
  get_current_answer (site_db site) a = None ->
  (exists e, project req project_id site = (Raise e, site)) /\
  (forall m l1 l2,
      find_module (site_db site) (t_module root) = Some m ->
      module_questions (site_db site) (m_id m) = l1 ++ q :: l2 ->
      Forall (fun x => is_module_type x = false) l1 ->
      project req project_id site
      = (Raise (AttributeError
                  "'NoneType' object has no attribute 'answered_by_task'"),
         site)).
Proof.
  intros (Hfind & Hrp & Hpath) ((id & Hp & Hroot) & (m & Hm & Hq) & Hty) Ha Hnone.
  rewrite (project_guard_run req project_id site p Hfind Hrp).
  rewrite Hpath, String.eqb_refl. simpl negb. cbv iota.
  split.
  - destruct (fold_V_raises
                (project_module_entry req root
                   (existsb (fun pm => pm_user pm =? user req)
                      (filter (fun pm => pm_project pm =? p_id p)
                              (memberships site)))
                   (get_discussions_in_project_as_guest site p (user req)))
                (module_questions (site_db site) (m_id m)) q site Hq)
      with (acc := @nil Tab) as [e He].
    + intros acc x. apply reads_only_project_module_entry.
    + intros acc. eexists.
      rewrite (project_module_entry_no_history _ _ _ _ _ _ _ _ Hty Ha Hnone).
      reflexivity.
    + exists e.
      apply (project_page_loop_raises req p site id root m e Hp Hroot Hm He).
  - intros m' l1 l2 Hm' Hqs Hl1.
    apply (project_page_loop_raises req p site id root m' _ Hp Hroot Hm').
    rewrite Hqs, fold_V_skips.
    + simpl. apply vbind_raise.
      apply (project_module_entry_no_history _ _ _ _ _ _ _ _ Hty Ha Hnone).
    + intros x Hx. rewrite Forall_forall in Hl1.
      unfold project_module_entry. rewrite (Hl1 x Hx). reflexivity.
Qed.

(** ** What the project page shows *)

Lemma modules_setdefault_group (groupname : string) (groups : list Group) :
  flat_map group_modules (setdefault_group groupname groups)
  = flat_map group_modules groups.
Proof.
  induction groups as [| g groups IH]; [reflexivity |].
  simpl. destruct (String.eqb (group_title g) groupname); [reflexivity |].
  simpl. rewrite IH. reflexivity.
Qed.

Lemma entries_setdefault_tab (tabname groupname : string) (tabs : list Tab) :
  entries (setdefault_tab tabname groupname tabs) = entries tabs.
Proof.
  unfold entries. induction tabs as [| t tabs IH]; [reflexivity |].
  simpl. destruct (String.eqb (tab_title t) tabname); simpl.
  - rewrite modules_setdefault_group. reflexivity.
  - rewrite IH. reflexivity.
Qed.

Lemma modules_append_to_group (groupname : string) (e e' : ModuleEntry)
    (groups : list Group) :
  In e' (flat_map group_modules (append_to_group groupname e groups)) ->
  e' = e \/ In e' (flat_map group_modules groups).
Proof.
  induction groups as [| g groups IH]; [intros [] |].
  simpl. destruct (String.eqb (group_title g) groupname); simpl; intros H;
    apply in_app_or in H.
  - destruct H as [H | H].
    + apply in_app_or in H. destruct H as [H | [<- | []]]; [| left; reflexivity].
      right. apply in_or_app. left. exact H.
    + right. apply in_or_app. right. exact H.
  - destruct H as [H | H].
    + right. apply in_or_app. left. exact H.
    + destruct (IH H) as [-> | H']; [left; reflexivity |].
      right. apply in_or_app. right. exact H'.
Qed.

Lemma entries_append_entry (tabname groupname : string) (e e' : ModuleEntry)
    (tabs : list Tab) :
  In e' (entries (append_entry tabname groupname e tabs)) ->
  e' = e \/ In e' (entries tabs).
Proof.
  unfold entries. induction tabs as [| t tabs IH]; [intros [] |].
  simpl. destruct (String.eqb (tab_title t) tabname); simpl; intros H;
    apply in_app_or in H.
  - destruct H as [H | H].
    + apply modules_append_to_group in H. destruct H as [-> | H];
        [left; reflexivity |].
      right. apply in_or_app. left. exact H.
    + right. apply in_or_app. right. exact H.
  - destruct H as [H | H].
    + right. apply in_or_app. left. exact H.
    + destruct (IH H) as [-> | H']; [left; reflexivity |].
      right. apply in_or_app. right. exact H'.
Qed.

(** The body of the loop adds no entry but the entry of its question. *)
Lemma project_module_entry_adds (req : Request) (root : Task) (p : Project)
    (is_member : bool) (tabs tabs' : list Tab) (mq : ModuleQuestion)
    (site site' : Site) :
  project_module_entry req root is_member
    (get_discussions_in_project_as_guest site p (user req)) tabs mq site
  = (Ret tabs', site') ->
  forall e, In e (entries tabs') ->
            In e (entries tabs) \/ entry_of_question req site p is_member e.
Proof.
  unfold project_module_entry.
  destruct (is_module_type mq) eqn:Hty; simpl negb; cbv iota;
    [| intros [= <- _] e He; left; exact He].
  intros H. apply vbind_ret_inv in H. destruct H as (tasks & s1 & Ht & H).
  pose proof (reads_only_result _ _ _ _ (reads_only_answered_by req root mq) Ht)
    as ->.
  assert (forall tw, In tw tasks ->
                     snd tw = has_write_priv (site_db site) (fst tw) (user req)
                                             false) as Htasks.
  { revert Ht. unfold answered_by. run_V.
    destruct (find_task_answer (site_db site) (t_id root) (mq_id mq))
      as [ans |]; [| intros [= <-] tw []].
    destruct (get_current_answer (site_db site) ans) as [cur |];
      [| discriminate].
    intros [= <-] tw Htw. apply in_map_iff in Htw.
    destruct Htw as (x & <- & _). reflexivity. }
  unfold vbind at 1 in H. unfold vread at 1 in H.
  set (ds := flat_map
               (fun tw =>
                  filter (fun d => attached_task (threads site) d =? t_id (fst tw))
                         (get_discussions_in_project_as_guest site p (user req)))
               tasks) in H.
  destruct (negb is_member && (List.length ds =? 0)%nat) eqn:Hvis.
  - injection H as <- _. intros e He. left.
    rewrite entries_setdefault_tab in He. exact He.
  - destruct (spec_module_id mq) as [mid |]; [| discriminate].
    apply vbind_ret_inv in H. destruct H as (m & s2 & _ & H).
    destruct m as [m |]; [| discriminate]. injection H as <- _.
    intros e He. apply entries_append_entry in He.
    destruct He as [-> | He];
      [| left; rewrite entries_setdefault_tab in He; exact He].
    right. unfold entry_of_question. simpl.
    split; [exact Hty |].
    split.
    { intros -> Hnil. rewrite Hnil in Hvis. discriminate Hvis. }
    split.
    { intros d Hd. unfold ds in Hd. apply in_flat_map in Hd.
      destruct Hd as (tw & Htw & Hd). apply filter_In in Hd.
      destruct Hd as [Hg Hat]. apply Z.eqb_eq in Hat.
      split; [exact Hg |]. exists tw. split; assumption. }
    split; [exact Htasks | reflexivity].
Qed.

Lemma fold_V_invariant {A B : Type} (f : B -> A -> V B) (P : B -> Prop)
    (l : list A) (site : Site) :
  (forall acc a, reads_only (f acc a)) ->
  (forall acc a acc' site',
      P acc -> f acc a site = (Ret acc', site') -> P acc') ->
  forall acc r site',
    P acc -> fold_V f l acc site = (Ret r, site') -> P r /\ site' = site.
Proof.
  intros Hro Hstep. induction l as [| x l IH]; intros acc r site' Hacc H.
  - injection H as <- <-. split; [exact Hacc | reflexivity].
  - simpl in H. apply vbind_ret_inv in H. destruct H as (acc' & s1 & E & H).
    pose proof (reads_only_result _ _ _ _ (Hro acc x) E) as ->.
    apply (IH acc' r site' (Hstep _ _ _ _ Hacc E) H).
Qed.

Lemma reads_only_project_root_task (p : Project) :
  reads_only (project_root_task p).
Proof.
  unfold project_root_task. destruct (p_root_task p);
    [| apply reads_only_vraise].
  apply reads_only_vbind; [apply reads_only_vread |].
  intros [t |]; [apply reads_only_vret | apply reads_only_vraise].
Qed.

Lemma reads_only_task_module (t : Task) : reads_only (task_module t).
Proof.
  unfold task_module. apply reads_only_vbind; [apply reads_only_vread |].
  intros [m |]; [apply reads_only_vret | apply reads_only_vraise].
Qed.

(** X21. The project page shows the modules a user may see.  When
    [project] renders the page, the project was found, the user may read
    it and the path is canonical; the user counts as a member exactly when
    a membership of the project names them; and every entry on the tabs is
    about a question answered by tasks, lists each task with the write
    privilege of the user on it, lists only discussions the user is a
    guest of that are attached to one of the listed tasks, and, for a user
    who is no member, is there only with at least one such discussion. *)
Theorem project_page_shows_what_is_allowed
    (req : Request) (project_id : Z) (site site' : Site)
    (ctx : ProjectContext) :
  project req project_id site = (Ret (RenderProject ctx), site') ->
  reads_project req project_id site (pc_project ctx) /\
  pc_is_member ctx
  = existsb (fun pm => pm_user pm =? user req)
      (filter (fun pm => pm_project pm =? p_id (pc_project ctx))
              (memberships site)) /\
  forall tab intro e,
    In (tab, intro) (pc_tabs ctx) ->
    In e (flat_map group_modules (tab_groups tab)) ->
    entry_of_question req site (pc_project ctx) (pc_is_member ctx) e.
Proof.
  intros H. unfold project in H.
  apply vbind_ret_inv in H. destruct H as (p & s1 & Hp & H).
  assert (find_project (site_db site) project_id = Some p /\ s1 = site)
    as [Hfind ->].
  { revert Hp. unfold get_project_or_404. run_V.
    destruct (find_project (site_db site) project_id); [| discriminate].
    intros [= <- <-]. split; reflexivity. }
  unfold vbind at 1 in H. unfold vread at 1 in H.
  destruct (project_has_read_priv site p (user req)) eqn:Hrp;
    simpl negb in H; cbv iota in H; [| discriminate].
  destruct (String.eqb_spec (path req) (project_get_absolute_url p))
    as [Hpath | _]; simpl negb in H; cbv iota in H; [| discriminate].
  unfold project_page in H.
  unfold vbind at 1 in H. unfold vread at 1 in H.
  unfold vbind at 1 in H. unfold vread at 1 in H.
  apply vbind_ret_inv in H. destruct H as (root & s2 & Hroot & H).
  pose proof (reads_only_result _ _ _ _ (reads_only_project_root_task p) Hroot)
    as ->.
  apply vbind_ret_inv in H. destruct H as (m & s3 & Hm & H).
  pose proof (reads_only_result _ _ _ _ (reads_only_task_module root) Hm) as ->.
  unfold vbind at 1 in H. unfold vread at 1 in H.
  apply vbind_ret_inv in H. destruct H as (tabs & s4 & Hloop & H).
  set (is_member := existsb (fun pm => pm_user pm =? user req)
                      (filter (fun pm => pm_project pm =? p_id p)
                              (memberships site))) in *.
  destruct (fold_V_invariant
              (project_module_entry req root is_member
                 (get_discussions_in_project_as_guest site p (user req)))
              (fun tabs => Forall (entry_of_question req site p is_member)
                                  (entries tabs))
              (module_questions (site_db site) (m_id m)) site)
    with (acc := @nil Tab) (r := tabs) (site' := s4) as [Htabs ->].
  { intros acc a. apply reads_only_project_module_entry. }
  { intros acc a acc' s' Hacc E. apply Forall_forall. intros e He.
    destruct (project_module_entry_adds _ _ _ _ _ _ _ _ _ E e He) as [Hold | Hnew];
      [| exact Hnew].
    rewrite Forall_forall in Hacc. apply Hacc, Hold. }
  { constructor. }
  { exact Hloop. }
  apply vbind_ret_inv in H. destruct H as (placed & s5 & _ & H).
  apply vbind_ret_inv in H. destruct H as (is_admin & s6 & _ & H).
  apply vbind_ret_inv in H. destruct H as (intro & s7 & _ & H).
  apply vbind_ret_inv in H. destruct H as (invs & s8 & _ & H).
  apply vbind_ret_inv in H. destruct H as (send & s9 & _ & H).
  injection H as <- _. simpl.
  split; [repeat split; assumption |].
  split; [reflexivity |].
  intros tab intro0 e Hin He. apply in_combine_l in Hin.
  rewrite Forall_forall in Htabs. apply Htabs.
  unfold entries. apply in_flat_map. exists tab. split; assumption.
Qed.

(** ** Revoking an invitation *)

Lemma unique_ids_inj {A : Type} (f : A -> Z) (l : list A) (x y : A) :
  unique_ids (map f l) = true -> In x l -> In y l -> f x = f y -> x = y.
Proof.
  induction l as [| a l IH]; [intros _ [] |].
  simpl. intros Hu [-> | Hx] [-> | Hy] E;
    apply andb_prop in Hu; destruct Hu as [Ha Hu].
  - reflexivity.
  - exfalso. apply negb_true_iff in Ha.
    assert (existsb (Z.eqb (f x)) (map f l) = true) as H; [| congruence].
    apply existsb_exists. exists (f y). split; [apply in_map, Hy |].
    apply Z.eqb_eq, E.
  - exfalso. apply negb_true_iff in Ha.
    assert (existsb (Z.eqb (f y)) (map f l) = true) as H; [| congruence].
    apply existsb_exists. exists (f x). split; [apply in_map, Hx |].
    apply Z.eqb_eq. symmetry. exact E.
  - apply IH; assumption.
Qed.

Lemma cancel_invitation_run (req : Request) (site : Site) :
  cancel_invitation req site =
    match get (POST req) "id" with
    | None => (Raise (KeyError "id"), site)
    | Some x =>
        match py_int x with
        | None => (Raise (ValueError "invalid literal for int()"), site)
        | Some id =>
            match find (fun i => (inv_id i =? id) &&
                                 (inv_from_user i =? user req))
                       (invitations site) with
            | None => (Raise Http404, site)
            | Some inv =>
                (Ret (JsonResponse [("status", "ok")]),
                 save_revoked_at (inv_id inv) (Some (now req)) site)
            end
        end
    end.
Proof.
  unfold cancel_invitation, getitem.
  destruct (get (POST req) "id") as [x |]; [| reflexivity].
  unfold vbind at 1. unfold vlift at 1.
  unfold vbind at 1. unfold on_db at 1. unfold to_pk at 1.
  destruct (py_int x) as [id |].
  - unfold ret at 1. rewrite with_site_db_same.
    unfold vbind at 1. unfold vread at 1.
    destruct (find _ (invitations site)); reflexivity.
  - unfold raise at 1. rewrite with_site_db_same. reflexivity.
Qed.

Lemma cancel_invitation_cases (req : Request) (site : Site) :
  (exists e, cancel_invitation req site = (Raise e, site)) \/
  exists inv,
    In inv (invitations site) /\ inv_from_user inv = user req /\
    (exists x, get (POST req) "id" = Some x /\ py_int x = Some (inv_id inv)) /\
    cancel_invitation req site
    = (Ret (JsonResponse [("status", "ok")]),
       save_revoked_at (inv_id inv) (Some (now req)) site).
Proof.
  rewrite cancel_invitation_run.
  destruct (get (POST req) "id") as [x |] eqn:Hx;
    [| left; eexists; reflexivity].
  destruct (py_int x) as [id |] eqn:Hid; [| left; eexists; reflexivity].
  destruct (find (fun i => (inv_id i =? id) && (inv_from_user i =? user req))
                 (invitations site)) as [inv |] eqn:Hf;
    [| left; eexists; reflexivity].
  right. exists inv. apply find_some in Hf. destruct Hf as [Hin Hf].
  apply andb_prop in Hf. destruct Hf as [Hi Hu].
  apply Z.eqb_eq in Hi, Hu.
  split; [exact Hin |]. split; [exact Hu |].
  split; [exists x; rewrite Hi; auto |]. reflexivity.
Qed.

Lemma set_revoked_at_twice (t t' : option Z) (i : Invitation) :
  set_revoked_at t' (set_revoked_at t i) = set_revoked_at t' i.
Proof. reflexivity. Qed.

(** X22. An invitation is revoked by its sender only, and nothing else is
    written.  Whatever the request, [cancel_invitation] changes at most
    the [revoked_at] of invitations: the tables of the modules, the
    memberships and the discussions are as before, and so is every other
    column of every invitation.  In a table that keeps its keys the
    invitations sent by other users are untouched.  When something
    changes, the invitation named by the form was sent by the user of the
    request, it is stamped with the time of the request, whether or not it
    was accepted or revoked before, and the answer is "ok". *)
Theorem invitations_are_revoked_by_their_sender (req : Request) (site : Site) :
  let site' := snd (cancel_invitation req site) in
  only_revoked_at_differs site site' /\
  (unique_ids (map inv_id (invitations site)) = true ->
   forall i, In i (invitations site) -> inv_from_user i <> user req ->
             In i (invitations site')) /\
  (site' <> site ->
   exists inv,
     In inv (invitations site) /\ inv_from_user inv = user req /\
     (exists x, get (POST req) "id" = Some x /\
                py_int x = Some (inv_id inv)) /\
     cancel_invitation req site
     = (Ret (JsonResponse [("status", "ok")]),
        save_revoked_at (inv_id inv) (Some (now req)) site)).
Proof.
  cbv zeta.
  destruct (cancel_invitation_cases req site)
    as [[e ->] | (inv & Hin & Hu & Hx & ->)]; simpl.
  - split; [repeat split |]. split; [auto |]. intros H. contradiction.
  - split.
    { unfold only_revoked_at_differs, save_revoked_at. simpl.
      repeat split. rewrite map_map. apply map_ext. intros i.
      destruct (inv_id i =? inv_id inv); reflexivity. }
    split.
    { intros Huniq i Hi Hother. apply in_map_iff. exists i.
      split; [| exact Hi].
      destruct (Z.eqb_spec (inv_id i) (inv_id inv)) as [E | _];
        [| reflexivity].
      exfalso. apply Hother.
      rewrite (unique_ids_inj inv_id _ _ _ Huniq Hi Hin E). exact Hu. }
    intros _. exists inv. repeat split; assumption.
Qed.

(** ** Starting a discussion *)

Lemma answer_to_discuss_run (req : Request) (task : Task) (q : ModuleQuestion)
    (site : Site) :
  answer_to_discuss req task q site =
    match find_task_answer (site_db site) (t_id task) (mq_id q) with
    | Some tq => (Ret (inr tq), site)
    | None =>
        if has_read_priv (site_db site) task (user req) false then
          (Ret (inr (new_answer (site_db site) task q)),
           with_site_db
             (with_task_answers
                (task_answers (site_db site)
                 ++ [new_answer (site_db site) task q]) (site_db site)) site)
        else (Ret (inl no_permission), site)
    end.
Proof.
  unfold answer_to_discuss. unfold vbind at 1. unfold vread at 1.
  destruct (find_task_answer (site_db site) (t_id task) (mq_id q)) eqn:Hf;
    [reflexivity |].
  unfold vbind at 1. unfold vread at 1.
  destruct (has_read_priv (site_db site) task (user req) false);
    [| reflexivity].
  cbv beta iota delta [negb].
  unfold vbind, on_db, TaskAnswer_get_or_create.
  unfold bind, read, ret, write. cbv beta. rewrite Hf. reflexivity.
Qed.

Lemma discussion_of_run (req : Request) (task : Task) (tq : TaskAnswer)
    (site : Site) :
  discussion_of req task tq site =
    match Discussion_get_for (threads site) (organization req) tq with
    | Some d =>
        (Ret (JsonResponse (render_context_dict (threads site) d (user req))),
         site)
    | None =>
        if has_read_priv (site_db site) task (user req) false then
          (Ret (JsonResponse
                  (render_context_dict
                     (snd (Discussion_create_for (threads site)
                                                 (organization req) tq))
                     (fst (Discussion_create_for (threads site)
                                                 (organization req) tq))
                     (user req))),
           with_threads
             (snd (Discussion_create_for (threads site) (organization req) tq))
             site)
        else (Ret no_permission, site)
    end.
Proof.
  unfold discussion_of. unfold vbind at 1. unfold vread at 1.
  destruct (Discussion_get_for (threads site) (organization req) tq);
    [reflexivity |].
  unfold vbind at 1. unfold vbind at 1. unfold vread at 1.
  destruct (has_read_priv (site_db site) task (user req) false);
    [| reflexivity].
  cbv beta iota delta [negb].
  destruct (Discussion_create_for (threads site) (organization req) tq).
  reflexivity.
Qed.

Lemma start_a_discussion_run (req : Request) (site : Site) (task : Task)
    (q : ModuleQuestion) :
  discusses req site task q ->
  start_a_discussion req site =
    match answer_to_discuss req task q site with
    | (Ret (inl r), site1) => (Ret r, site1)
    | (Ret (inr tq), site1) => discussion_of req task tq site1
    | (Raise e, site1) => (Raise e, site1)
    end.
Proof.
  intros (((x & Hx & Hxi) & (y & Hy & Hyi)) & Ht & Hq).
  unfold start_a_discussion, getitem. rewrite Hx, Hy.
  unfold vbind at 1. unfold vlift at 1.
  unfold vbind at 1. unfold on_db at 1. unfold to_pk at 1. rewrite Hxi.
  unfold ret at 1. rewrite with_site_db_same.
  unfold vbind at 1. unfold get_any_task_or_404 at 1.
  unfold vbind at 1. unfold vread at 1. rewrite Ht. unfold vret at 1.
  unfold vbind at 1. unfold vlift at 1.
  unfold vbind at 1. unfold on_db at 1. unfold to_pk at 1. rewrite Hyi.
  unfold ret at 1. rewrite with_site_db_same.
  unfold vbind at 1. unfold get_question_or_404 at 1.
  unfold vbind at 1. unfold vread at 1. rewrite Hq. unfold vret at 1.
  unfold vbind at 1.
  destruct (answer_to_discuss req task q site) as [[[r | tq] | e] site1];
    reflexivity.
Qed.

(** A request that names no task or no question of the database raises
    and writes nothing. *)
Lemma start_a_discussion_cases (req : Request) (site : Site) :
  snd (start_a_discussion req site) = site \/
  exists task q, discusses req site task q.
Proof.
  unfold start_a_discussion, getitem.
  destruct (get (POST req) "task") as [x |] eqn:Hx; [| left; reflexivity].
  unfold vbind at 1. unfold vlift at 1.
  unfold vbind at 1. unfold on_db at 1. unfold to_pk at 1.
  destruct (py_int x) as [tid |] eqn:Hxi;
    [| left; unfold raise; apply with_site_db_same].
  unfold ret at 1. rewrite with_site_db_same.
  unfold vbind at 1. unfold get_any_task_or_404 at 1.
  unfold vbind at 1. unfold vread at 1.
  destruct (find_task (site_db site) tid) as [task |] eqn:Ht;
    [| left; reflexivity].
  unfold vret at 1.
  destruct (get (POST req) "question") as [y |] eqn:Hy; [| left; reflexivity].
  unfold vbind at 1. unfold vlift at 1.
  unfold vbind at 1. unfold on_db at 1. unfold to_pk at 1.
  destruct (py_int y) as [qid |] eqn:Hyi;
    [| left; unfold raise; apply with_site_db_same].
  unfold ret at 1. rewrite with_site_db_same.
  unfold vbind at 1. unfold get_question_or_404 at 1.
  unfold vbind at 1. unfold vread at 1.
  destruct (find (fun q => mq_id q =? qid) (questions (site_db site)))
    as [q |] eqn:Hq; [| left; reflexivity].
  right. exists task, q.
  assert (t_id task = tid) as Et.
  { unfold find_task in Ht. apply find_some in Ht. destruct Ht as [_ Ht].
    apply Z.eqb_eq, Ht. }
  assert (mq_id q = qid) as Eq.
  { apply find_some in Hq. destruct Hq as [_ Hq]. apply Z.eqb_eq, Hq. }
  rewrite <- Et in Hxi, Ht. rewrite <- Eq in Hyi, Hq.
  split; [split; [exists x | exists y]; auto |]. split; assumption.
Qed.

(** X23. A discussion is started by readers, and what it writes is an
    Answer and a discussion.  Whatever the request, [start_a_discussion]
    leaves the memberships and the invitations as they are, and of the
    tables of the modules it writes at most one Answer row, appended for
    the task and the question the form names, which are looked up in no
    organization and in no module.  If anything is written, the Answer or
    the discussion, the user has the read privilege on the task. *)
Theorem discussions_are_started_by_readers (req : Request) (site : Site) :
  let site' := snd (start_a_discussion req site) in
  site' = site \/
  exists task q,
    discusses req site task q /\
    has_read_priv (site_db site) task (user req) false = true /\
    memberships site' = memberships site /\
    invitations site' = invitations site /\
    (site_db site' = site_db site \/
     find_task_answer (site_db site) (t_id task) (mq_id q) = None /\
     site_db site'
     = extend (task_answer_rows [new_answer (site_db site) task q])
              (site_db site)).
Proof.
  cbv zeta.
  destruct (start_a_discussion_cases req site) as [E | (task & q & Hd)];
    [left; exact E |].
  rewrite (start_a_discussion_run req site task q Hd).
  rewrite answer_to_discuss_run.
  destruct (find_task_answer (site_db site) (t_id task) (mq_id q))
    as [tq |] eqn:Hf.
  - rewrite discussion_of_run.
    destruct (Discussion_get_for (threads site) (organization req) tq);
      [left; reflexivity |].
    destruct (has_read_priv (site_db site) task (user req) false) eqn:Hr;
      [| left; reflexivity].
    right. exists task, q. simpl.
    split; [exact Hd |]. split; [exact Hr |]. split; [reflexivity |].
    split; [reflexivity |]. left. reflexivity.
  - destruct (has_read_priv (site_db site) task (user req) false) eqn:Hr;
      [| left; reflexivity].
    right. exists task, q. split; [exact Hd |]. split; [exact Hr |].
    rewrite discussion_of_run. simpl.
    rewrite extend_task_answers.
    destruct (Discussion_get_for (threads site) (organization req)
                                 (new_answer (site_db site) task q)).
    + simpl. split; [reflexivity |]. split; [reflexivity |].
      right. split; [exact Hf | reflexivity].
    + simpl.
      destruct (has_read_priv
                  (extend (task_answer_rows [new_answer (site_db site) task q])
                          (site_db site))
                  task (user req) false); simpl;
        (split; [reflexivity |]; split; [reflexivity |];
         right; split; [exact Hf | reflexivity]).
Qed.

(** X24. An existing discussion is shown to whoever names it.  When the
    task and the question of the form have an Answer and the Answer has a
    discussion in the organization of the request, [start_a_discussion]
    answers with what the discussion shows to the user and writes
    nothing; no privilege of the user is asked for. *)
Theorem existing_discussions_are_shown_to_anyone
    (req : Request) (site : Site) (task : Task) (q : ModuleQuestion)
    (tq : TaskAnswer) (d : Z) :
  discusses req site task q ->
  find_task_answer (site_db site) (t_id task) (mq_id q) = Some tq ->
  Discussion_get_for (threads site) (organization req) tq = Some d ->
  start_a_discussion req site
  = (Ret (JsonResponse (render_context_dict (threads site) d (user req))),
     site).
Proof.
  intros Hd Hf Hg.
  rewrite (start_a_discussion_run req site task q Hd).
  rewrite answer_to_discuss_run, Hf, discussion_of_run, Hg. reflexivity.
Qed.

Lemma find_snoc {A : Type} (f : A -> bool) (l : list A) (a : A) :
  find f l = None -> f a = true -> find f (l ++ [a]) = Some a.
Proof.
  intros Hn Ha. induction l as [| x l IH]; simpl.
  - rewrite Ha. reflexivity.
  - simpl in Hn. destruct (f x); [discriminate | apply IH, Hn].
Qed.

Lemma filter_none {A : Type} (f : A -> bool) (l : list A) :
  (forall x, In x l -> f x = false) -> filter f l = [].
Proof.
  intros H. induction l as [| x l IH]; [reflexivity |].
  simpl. rewrite (H x (or_introl eq_refl)).
  apply IH. intros y Hy. apply H. right. exact Hy.
Qed.

(** The Answer [get_or_create] makes has no history, when every entry of
    history is an entry of an Answer. *)
Lemma new_answer_no_history (s : State) (task : Task) (q : ModuleQuestion) :
  history_has_answers s ->
  get_current_answer (extend (task_answer_rows [new_answer s task q]) s)
                     (new_answer s task q) = None.
Proof.
  intros Hh. unfold get_current_answer. simpl answer_history.
  rewrite app_nil_r.
  replace (filter (fun h => h_taskanswer h =? ta_id (new_answer s task q))
                  (answer_history s)) with (@nil TaskAnswerHistory);
    [reflexivity |].
  symmetry. apply filter_none. intros h Hin.
  destruct (Hh h Hin) as (a & Ha & Eid).
  apply Z.eqb_neq. intros E. simpl in E.
  apply (next_id_fresh (map ta_id (task_answers s))).
  rewrite <- E, <- Eid. apply in_map, Ha.
Qed.

(** X25. A discussion started on an unanswered question breaks the
    project page.  When a reader of the root task of a project starts a
    discussion on one of its questions answered by tasks that has no
    Answer yet, in a database where every entry of history belongs to an
    Answer, [start_a_discussion] answers without an exception and leaves
    an Answer without history behind; from then on the page of the
    project fails with an exception for every user who may read the
    project. *)
Theorem a_new_discussion_breaks_the_project_page
    (req : Request) (site : Site) (p : Project) (root : Task)
    (q : ModuleQuestion) :
  discusses req site root q ->
  module_question_of site p root q ->
  find_task_answer (site_db site) (t_id root) (mq_id q) = None ->
  has_read_priv (site_db site) root (user req) false = true ->
  history_has_answers (site_db site) ->
  let site' := snd (start_a_discussion req site) in
  (exists r, fst (start_a_discussion req site) = Ret r) /\
  forall req' project_id,
    reads_project req' project_id site' p ->
    exists e, project req' project_id site' = (Raise e, site').
Proof.
  intros Hd Hq Hf Hr Hh. cbv zeta.
  assert (site_db (snd (start_a_discussion req site))
          = extend (task_answer_rows [new_answer (site_db site) root q])
                   (site_db site) /\
          exists r, fst (start_a_discussion req site) = Ret r) as [Hdb Hret].
  { rewrite (start_a_discussion_run req site root q Hd).
    rewrite answer_to_discuss_run, Hf, Hr, discussion_of_run. simpl.
    rewrite extend_task_answers.
    destruct (Discussion_get_for (threads site) (organization req)
                                 (new_answer (site_db site) root q)).
    - split; [reflexivity | eexists; reflexivity].
    - destruct (has_read_priv
                  (extend (task_answer_rows [new_answer (site_db site) root q])
                          (site_db site))
                  root (user req) false);
        (split; [reflexivity | eexists; reflexivity]). }
  split; [exact Hret |].
  intros req' project_id Hreads.
  apply (no_history_raises req' project_id _ p root q
           (new_answer (site_db site) root q) Hreads).
  - destruct Hq as ((id & Hp & Hroot) & (m & Hm & Hin) & Hty).
    unfold module_question_of. rewrite Hdb.
    unfold find_task, find_module, module_questions. simpl.
    rewrite app_nil_r.
    split; [exists id; split; assumption |].
    split; [exists m; split; assumption | exact Hty].
  - rewrite Hdb. unfold find_task_answer. simpl task_answers.
    apply find_snoc; [exact Hf |].
    simpl. rewrite !Z.eqb_refl. reflexivity.
  - rewrite Hdb. apply new_answer_no_history, Hh.
Qed.

(** ** The project page reads only *)

Lemma read_only_project_additional_tabs (root : Task)
    (tabs : list (string * option Document)) :
  read_only (project_additional_tabs root tabs).
Proof.
  unfold project_additional_tabs.
  apply read_only_bind; [apply read_only_read |].
  intros [m |]; [| apply read_only_raise].
  destruct (m_output m); [apply read_only_ret |].
  apply read_only_bind; [apply read_only_render_output_documents |].
  intros docs. apply read_only_ret.
Qed.

Lemma reads_only_introduction (m : Module) (root : Task) :
  reads_only (if has_introduction m then
                fun site => (render_introduction site root, site)
              else vret "").
Proof.
  destruct (has_introduction m); intros site; reflexivity.
Qed.

Lemma reads_only_project_page (req : Request) (p : Project) :
  reads_only (project_page req p).
Proof.
  unfold project_page.
  apply reads_only_vbind; [apply reads_only_vread | intros members].
  cbv zeta.
  apply reads_only_vbind; [apply reads_only_vread | intros guest_of].
  apply reads_only_vbind; [apply reads_only_project_root_task | intros root].
  apply reads_only_vbind; [apply reads_only_task_module | intros m].
  apply reads_only_vbind; [apply reads_only_vread | intros qs].
  apply reads_only_vbind;
    [apply reads_only_fold_V; intros acc a;
     apply reads_only_project_module_entry | intros tabs].
  apply reads_only_vbind;
    [apply reads_only_on_db, read_only_project_additional_tabs
    | intros placed].
  apply reads_only_vbind; [apply reads_only_vread | intros is_admin].
  apply reads_only_vbind; [apply reads_only_introduction | intros intro].
  apply reads_only_vbind; [apply reads_only_vread | intros invs].
  apply reads_only_vbind; [apply reads_only_vread | intros send].
  apply reads_only_vret.
Qed.

Lemma reads_only_project (req : Request) (project_id : Z) :
  reads_only (project req project_id).
Proof.
  unfold project, get_project_or_404.
  apply reads_only_vbind.
  { apply reads_only_vbind; [apply reads_only_vread |].
    intros [p |]; [apply reads_only_vret | apply reads_only_vraise]. }
  intros p. apply reads_only_vbind; [apply reads_only_vread | intros rp].
  destruct (negb rp); [apply reads_only_vret |].
  destruct (negb (String.eqb (path req) (project_get_absolute_url p)));
    [apply reads_only_vraise | apply reads_only_project_page].
Qed.

(** X26. The page of a project writes nothing.  Whoever asks for the page
    of whichever project, and whether the answer is the page, a refusal or
    an exception, [project] leaves the tables of the modules, the
    memberships, the invitations and the discussions as they are: unlike
    the pages of the questions of a task, a view of the project is not
    recorded. *)
Theorem project_page_writes_nothing (req : Request) (project_id : Z)
    (site : Site) :
  snd (project req project_id site) = site.
Proof. apply reads_only_project. Qed.





End SiteProperties.

(** * The views on the small portal *)

Module Runs.

Import Scenario.

#[local] Existing Instance portal.


(** The first interaction is recorded; the same request again writes
    nothing. *)
Lemma second_interaction_writes_nothing :
  let s1 := snd (instrumentation_record_interaction interact db) in
  List.length (events s1) = 1%nat /\
  instrumentation_record_interaction interact s1 = (Ret (HttpResponse "ok"), s1).
Proof.
  split; [reflexivity |].
  refine (proj1 (proj2
            (first_interaction_recorded_once db
               (snd (instrumentation_record_interaction interact db)) _ _))
            interact project_task q_name _ _ _ _ _).
  - intros u t q. unfold interact_first_count, events_for. simpl. lia.
  - eapply reachable_step; [apply reachable_refl |].
    apply step_record_interaction.
  - split; [reflexivity |].
    split; [exists "1"; split | exists "1"; split]; reflexivity.
  - reflexivity.
  - reflexivity.
  - reflexivity.
  - vm_compute. discriminate.
Defined.

(** A user who may not write the project task posts an answer: forbidden,
    and the database is untouched. *)
Lemma intruder_is_refused :
  next_question intruder_save 1 db = (Ret HttpResponseForbidden, db).
Proof.
  refine (proj1 (proj2
            (next_question_forbidden_without_write_priv
               intruder_save 1 db project_task _ _ _)) project_answers _);
    reflexivity.
Defined.



(** The name of the project, which is answered, is skipped: a history entry
    is recorded over the answer the question had, and the event is a
    "skip", not a "change". *)
Lemma skip_over_an_answer_is_not_a_change :
  let name_answer := {| ta_id := 2; ta_task := 1; ta_question := 1 |} in
  let s' := snd (next_question skip_name 1 db) in
  has_answer db name_answer = true /\
  fst (save_answer name_answer VNone [] VNone 7 200 db) = Ret true /\
  List.length (answer_history s') = S (List.length (answer_history db)) /\
  map ev_event_type (events s') = ["task-question-skip"] /\
  map ev_event_type (events s') <> ["task-question-change"].
Proof.
  vm_compute. repeat split. discriminate.
Qed.

(** "Beta" is saved over the name "Alpha": a "change". *)
Lemma saving_another_name_is_a_change :
  let s' := snd (next_question_post (save_name "Beta") project_task
                                    project_answers db) in
  exists ty,
    map ev_event_type (events s') = [String.append "task-question-" ty] /\
    ty = "change".
Proof.
  intros s'.
  assert (proposes (save_name "Beta") project_task project_answers db q_name
                   (VStr "Beta") false) as Hp by (repeat split).
  destruct (answer_event_classification (save_name "Beta") project_task
              project_answers db s' q_name (VStr "Beta")
              (JsonOk "/tasks/1/project") Hp eq_refl)
    as (a & r & s2 & ty & ev & Ha & Hf & _ & He & _ & _ & Hc & _ & _).
  vm_compute in Ha. injection Ha as <-.
  vm_compute in Hf. injection Hf as <- <-.
  exists ty. split.
  - rewrite He. reflexivity.
  - apply Hc; reflexivity.
Defined.






(** Where the app module asks for the project of an app, the project task
    is accepted as the answer of its own app, and the two tasks are
    ancestors of each other. *)
Lemma mutual_modules_allow_a_cycle :
  parent_of db_with_parent 1 2 /\
  fst (next_question link_parent 2 db_with_parent)
    = Ret (JsonOk "/tasks/2/app") /\
  ancestor_of (snd (next_question link_parent 2 db_with_parent)) 1 1 /\
  ~ acyclic (snd (next_question link_parent 2 db_with_parent)).
Proof.
  assert (parent_of (snd (next_question link_parent 2 db_with_parent)) 1 2)
    as H12.
  { exists {| ta_id := 1; ta_task := 1; ta_question := 2 |},
           (answer 1 VNone [2]).
    repeat split; simpl; auto. }
  assert (parent_of (snd (next_question link_parent 2 db_with_parent)) 2 1)
    as H21.
  { exists {| ta_id := 3; ta_task := 2; ta_question := 7 |}.
    eexists. split; [vm_compute; auto |]. split; [reflexivity |].
    split; [vm_compute; reflexivity |]. split; [reflexivity |].
    left. reflexivity. }
  assert (ancestor_of (snd (next_question link_parent 2 db_with_parent)) 1 1)
    as Hcycle
    by (eapply t_trans; apply t_step; eassumption).
  split.
  { exists {| ta_id := 1; ta_task := 1; ta_question := 2 |},
           (answer 1 VNone [2]).
    repeat split; simpl; auto. }
  split; [reflexivity |]. split; [exact Hcycle |].
  intros Hacyclic. exact (Hacyclic 1 Hcycle).
Qed.


End Runs.

(** * More runs on the portal *)

Module Checks.

Import Scenario.
Import Cases.

#[local] Existing Instance portal.

(** The name of the project is changed: the database before the request is
    still there, with rows added. *)
Lemma renaming_loses_nothing :
  nothing_lost db (snd (next_question (save_name "Beta") 1 db)).
Proof.
  apply views_only_append.
  eapply reachable_step; [apply reachable_refl | apply step_next_question].
Defined.

(** A request of the first organization leaves the task of the second
    alone. *)
Lemma the_other_organization_is_untouched :
  untouched db_two (snd (next_question (save_name "Beta") 1 db_two)) other_task.
Proof.
  apply (other_organizations_untouched (save_name "Beta")).
  - split; reflexivity.
  - apply serves_next_question.
  - simpl. auto.
  - reflexivity.
Defined.

(** Saving another name is a proposal by a writer for a question of the
    project module. *)
Lemma renaming_is_a_proposal :
  exists task answered q v c,
    find (fun t => (t_id t =? 1) && in_organization db t 1) (tasks db)
      = Some task /\
    has_write_priv db task 7 false = true /\
    In q (module_questions db (t_module task)) /\
    parse_request (save_name "Beta") q answered "/tasks/1/project"
      = Ret (Proposed v c) /\
    next_question (save_name "Beta") 1 db
      = record_proposal (save_name "Beta") task q v c db.
Proof.
  apply (post_writes_need_a_proposal (save_name "Beta") 1 db).
  - reflexivity.
  - intros H. vm_compute in H. discriminate H.
Defined.

(** An empty name does not validate: the error is reported, the name stays. *)
Lemma an_empty_name_is_reported :
  next_question save_nothing 1 db = (Ret (JsonError "empty"), db).
Proof.
  apply (rejected_values_are_reported save_nothing 1 db project_task
           project_answers q_name (VList [""]) "empty").
  - repeat split; reflexivity.
  - reflexivity.
  - reflexivity.
  - right. left. exists (VStr ""). split; reflexivity.
Defined.

(** A form that asks to "erase", and a form without a method. *)
Lemma erase_is_no_method :
  next_question erase_name 1 db
    = (Raise (ValueError "invalid 'method' parameter %serase"), db) /\
  next_question no_method 1 db
    = (Raise (ValueError "invalid 'method' parameter %s<not set>"), db).
Proof.
  split.
  - apply (invalid_method_is_a_value_error erase_name 1 db project_task
             project_answers q_name); try reflexivity.
    repeat split; reflexivity.
  - apply (invalid_method_is_a_value_error no_method 1 db project_task
             project_answers q_name); try reflexivity.
    repeat split; reflexivity.
Defined.

(** The logo is saved with no file in the request. *)
Lemma saving_no_logo_changes_nothing :
  next_question save_logo 1 db_files = (Ret (JsonOk "/tasks/1/project"), db_files).
Proof.
  apply (file_save_without_upload_keeps_the_answer save_logo 1 db_files
           project_task files_answers q_logo); try reflexivity.
  repeat split; reflexivity.
Defined.

(** The name of an app is no question of the project task. *)
Lemma the_app_name_is_no_question_of_the_project :
  next_question foreign_save 1 db = (Raise DoesNotExist, db) /\
  instrumentation_record_interaction foreign_save db
    = (Ret HttpResponseForbidden, db).
Proof.
  assert (names_foreign_question foreign_save db project_task q_app_name)
    as Hq.
  { split; [exists "3"; split; reflexivity |].
    split; [simpl; auto |]. split; [discriminate |].
    simpl. intros q' H E.
    repeat (destruct H as [<- | H];
            [first [reflexivity | discriminate E] |]).
    destruct H. }
  destruct (foreign_questions_are_refused foreign_save 1 db project_task
              q_app_name eq_refl eq_refl Hq) as [Hn Hi].
  split.
  - apply (Hn project_answers); reflexivity.
  - apply (Hi "1"); reflexivity.
Defined.

(** The editor of the app task gets the page of its first question. *)
Lemma the_app_page_is_for_its_editor :
  exists task,
    find (fun t => (t_id t =? 2) && in_organization db t 1) (tasks db)
      = Some task /\
    answered_to (view "/tasks/App") db task (RenderQuestion app_name_page).
Proof.
  apply (pages_are_for_those_let_in (view "/tasks/App") 2 db
           (snd (next_question (view "/tasks/App") 2 db))).
  - reflexivity.
  - reflexivity.
Defined.

(** Showing the question to the editor is recorded, behind the guards. *)
Lemma the_app_page_is_recorded :
  exists task q e,
    find (fun t => (t_id t =? 2) && in_organization db t 1) (tasks db)
      = Some task /\
    let_in db (view "/tasks/App") task (answer_of db task q) /\
    t_deleted_at task = None /\ "/tasks/App" = get_absolute_url task /\
    snd (next_question (view "/tasks/App") 2 db) = extend (event_rows [e]) db /\
    page_event (view "/tasks/App") task e /\
    (q = None <-> ev_event_type e <> "task-question-show").
Proof.
  apply (views_are_recorded_behind_the_guards (view "/tasks/App") 2 db).
  - reflexivity.
  - intros H. vm_compute in H. discriminate H.
Defined.

(** A key that is no key of the project module, and a key of it asked for
    by a stranger. *)
Lemma keys_can_be_probed :
  next_question (view_q 9 "/tasks/Project" "nokey") 1 db
    = (Raise DoesNotExist, db) /\
  next_question (view_q 9 "/tasks/Project" "name") 1 db
    = (Ret HttpResponseForbidden, db).
Proof.
  split.
  - apply (proj1 (question_key_is_looked_up_before_access
                    (view_q 9 "/tasks/Project" "nokey") 1 db project_task
                    project_answers "nokey" eq_refl eq_refl eq_refl eq_refl)).
    simpl. intros q [<- | [<- | []]]; discriminate.
  - apply (proj2 (question_key_is_looked_up_before_access
                    (view_q 9 "/tasks/Project" "name") 1 db project_task
                    project_answers "name" eq_refl eq_refl eq_refl eq_refl)
             q_name eq_refl).
    intros [H | (tq & d & _ & H & _)]; discriminate H.
Defined.


(** After the first showing of the app's name, the counts are there. *)
Lemma the_app_page_is_counted :
  let s := snd (next_question (view "/tasks/App") 2 db) in
  shows_counted s /\
  forall req task q, exists n, next_show_count s req task q = Some n /\ 1 <= n.
Proof.
  apply (show_counts_are_kept db).
  - intros e [].
  - eapply reachable_step; [apply reachable_refl | apply step_next_question].
Defined.

(** The first interaction of the editor with the name of the project. *)
Lemma the_first_interaction_is_recorded :
  exists task q e,
    names_question interact (t_id task) (mq_id q) /\
    find (fun t => (t_id t =? t_id task) && in_organization db t 1) (tasks db)
      = Some task /\
    has_read_priv db task 7 false = true /\
    In q (module_questions db (t_module task)) /\
    interact_first_count db 7 (t_id task) (mq_id q) = 0%nat /\
    snd (instrumentation_record_interaction interact db)
      = extend (event_rows [e]) db /\
    ev_event_type e = interact_first /\
    ev_user e = 7 /\ ev_event_time e = 200 /\
    ev_task e = Some (t_id task) /\ ev_question e = Some (mq_id q) /\
    ev_answer e
      = option_map ta_id (find_task_answer db (t_id task) (mq_id q)) /\
    since_first_shown db interact task q (ev_event_value e).
Proof.
  apply (interactions_are_recorded_for_readers interact db).
  intros H. vm_compute in H. discriminate H.
Defined.

(** The editor deletes the app task. *)
Lemma the_editor_may_delete :
  exists task st,
    asks_state delete_app (t_id task) st /\
    find (fun t => (t_id t =? t_id task) && in_organization db t 1) (tasks db)
      = Some task /\
    has_write_priv db task 7 true = true /\
    (st = "delete" /\
     snd (change_task_state delete_app db)
     = save_deleted_at (t_id task) (Some 200) db \/
     st = "undelete" /\
     snd (change_task_state delete_app db) = save_deleted_at (t_id task) None db).
Proof.
  apply (task_state_changes_need_write_access delete_app db).
  intros H. vm_compute in H. discriminate H.
Defined.

(** The name of the app is answered a minute after it was shown. *)
Lemma the_app_name_took_a_minute :
  exists l e a,
    events (snd (next_question answer_app_name 2 db_shown))
      = events db_shown ++ l ++ [e] /\
    Forall (fun x => ev_event_type x = "task-create") l /\
    In (ev_event_type e) answer_event_types /\
    ev_user e = 7 /\ ev_event_time e = 260 /\
    ev_task e = Some 2 /\ ev_question e = Some 3 /\
    find_task_answer (snd (next_question answer_app_name 2 db_shown)) 2 3
      = Some a /\
    ev_answer e = Some (ta_id a) /\
    since_first_shown db_shown answer_app_name app_task q_app_name
                      (ev_event_value e).
Proof.
  apply (answers_are_timed_from_the_first_showing answer_app_name 2 db_shown
           (snd (next_question answer_app_name 2 db_shown)) app_task
           app_answers q_app_name (VStr "Mail") false (JsonOk "/tasks/App")).
  - repeat split; reflexivity.
  - reflexivity.
  - reflexivity.
Defined.

(** The page of the project asked for by its number only. *)
Lemma the_short_path_is_an_error :
  project view_project_by_id 1 the_site
  = (Raise (UnboundLocalError "task"), the_site).
Proof.
  apply (project_redirect_is_an_error view_project_by_id 1 the_site
           the_project).
  - reflexivity.
  - reflexivity.
  - discriminate.
Defined.

(** The apps of the project have an Answer without history: the page of
    the project fails for its admin. *)
Lemma the_project_page_breaks_without_history :
  project view_project 1 site_no_history
  = (Raise (AttributeError
              "'NoneType' object has no attribute 'answered_by_task'"),
     site_no_history).
Proof.
  refine (proj2 (answer_without_history_breaks_the_project_page
                   view_project 1 site_no_history the_project project_task
                   q_apps {| ta_id := 1; ta_task := 1; ta_question := 2 |}
                   _ _ _ _)
                project_module [q_name] [] _ _ _).
  - repeat split; reflexivity.
  - split; [exists 1; split; reflexivity |].
    split; [| reflexivity].
    exists project_module. split; [reflexivity | simpl; auto].
  - reflexivity.
  - reflexivity.
  - reflexivity.
  - reflexivity.
  - repeat constructor.
Defined.

(** The page of the project as its admin gets it. *)
Lemma the_project_page_lists_the_app :
  exists ctx,
    project view_project 1 the_site = (Ret (RenderProject ctx), the_site) /\
    reads_project view_project 1 the_site (pc_project ctx) /\
    pc_is_member ctx
    = existsb (fun pm => pm_user pm =? user view_project)
        (filter (fun pm => pm_project pm =? p_id (pc_project ctx))
                (memberships the_site)) /\
    forall tab intro e,
      In (tab, intro) (pc_tabs ctx) ->
      In e (flat_map group_modules (tab_groups tab)) ->
      entry_of_question view_project the_site (pc_project ctx)
                        (pc_is_member ctx) e.
Proof.
  eexists.
  refine ((fun H => conj H (project_page_shows_what_is_allowed
                              view_project 1 the_site the_site _ H)) _).
  vm_compute. reflexivity.
Defined.

(** A stranger, who may not read the project task, names the discussion of
    the name of the project and gets it. *)
Lemma a_stranger_reads_the_discussion :
  has_read_priv (site_db site_discussed) project_task 9 false = false /\
  start_a_discussion stranger_discusses_name site_discussed
  = (Ret (JsonResponse [("status", "ok")]), site_discussed).
Proof.
  split; [reflexivity |].
  apply (existing_discussions_are_shown_to_anyone stranger_discusses_name
           site_discussed project_task q_name
           {| ta_id := 2; ta_task := 1; ta_question := 1 |} 1).
  - split; [split; [exists "1" | exists "1"]; split; reflexivity |].
    split; reflexivity.
  - reflexivity.
  - reflexivity.
Defined.

(** The admin of the project starts a discussion of its apps, which have no
    Answer yet: the page of the project fails from then on. *)
Lemma discussing_the_apps_breaks_the_project :
  let site' := snd (start_a_discussion discuss_apps site_unanswered) in
  (exists r, fst (start_a_discussion discuss_apps site_unanswered) = Ret r) /\
  exists e, project view_project 1 site' = (Raise e, site').
Proof.
  destruct (a_new_discussion_breaks_the_project_page discuss_apps
              site_unanswered the_project project_task q_apps)
    as [Hr Hp].
  - split; [split; [exists "1" | exists "2"]; split; reflexivity |].
    split; reflexivity.
  - split; [exists 1; split; reflexivity |].
    split; [| reflexivity].
    exists project_module. split; [reflexivity | simpl; auto].
  - reflexivity.
  - reflexivity.
  - intros h [<- | []].
    exists {| ta_id := 2; ta_task := 1; ta_question := 1 |}.
    split; [left; reflexivity | reflexivity].
  - split; [exact Hr |]. apply Hp. repeat split; reflexivity.
Defined.

(** The admin revokes the invitation of Bob. *)
Lemma ann_revokes_the_invitation :
  cancel_invitation cancel_bob the_site
  = (Ret (JsonResponse [("status", "ok")]),
     save_revoked_at 1 (Some 200) the_site).
Proof.
  destruct (proj2 (proj2 (invitations_are_revoked_by_their_sender
                            cancel_bob the_site)))
    as (inv & Hin & _ & _ & E).
  - intros H. vm_compute in H. discriminate H.
  - destruct Hin as [<- | []]. exact E.
Defined.


End Checks.
